(** * DePINfinity: a shallow embedding of the reward engine, the aggregation
    bridge, the roaming-agreement lifecycle and the insights generator.

    JavaScript numbers and Kotlin [Double]s are IEEE 754 binary64 values and
    are modelled by Rocq's primitive floats, so every arithmetic step rounds
    as it does in the program.  Kotlin [Int] and [Long] are [Z] with the
    wrap-around written out.  Each call that reads the wall clock
    ([Date.now()], [Instant.now()]) takes the reading as an argument. *)

Set Warnings "-inexact-float".
From Stdlib Require Import ZArith Floats Bool List String Lia.
From stdpp Require Import base option list gmap strings.
Import ListNotations.

(** ** JavaScript numbers and the [Math] built-ins the sources call *)

Module JS.
Local Open Scope float_scope.

(** The number nearest to an integer (ties to even); exact up to 2^53. *)
Definition of_Z (n : Z) : float :=
  SF2Prim (binary_normalize prec emax n 0 false).

(** An array length or a [Set] size as a number. *)
Definition of_nat (n : nat) : float := of_Z (Z.of_nat n).

(** The signed integer mantissa of a finite non-zero number [m * 2^e]. *)
Definition signed (s : bool) (m : positive) : Z :=
  if s then Z.neg m else Z.pos m.

(** [Math.floor]: the greatest integer not above [x]; NaN, the infinities,
    the zeros and integers are returned unchanged. *)
Definition Math_floor (x : float) : float :=
  match Prim2SF x with
  | S754_finite s m e =>
      if (0 <=? e)%Z then x
      else of_Z (Z.shiftr (signed s m) (- e))
  | _ => x
  end.

(** [Math.round]: the nearest integer, ties towards +infinity; a result of
    zero keeps the sign of [x]. *)
Definition Math_round (x : float) : float :=
  match Prim2SF x with
  | S754_finite s m e =>
      if (0 <=? e)%Z then x
      else
        let n := Z.shiftr (2 * signed s m + 2 ^ (- e)) (1 - e) in
        if (n =? 0)%Z then (if s then (-0) else 0) else of_Z n
  | _ => x
  end.

(** [Math.max] of two numbers: NaN when either is NaN, and +0 above -0. *)
Definition Math_max (a b : float) : float :=
  if is_nan a || is_nan b then nan
  else if a <? b then b
  else if b <? a then a
  else if get_sign a then b else a.

(** [Math.PI]. *)
Definition Math_PI : float := 0x1.921fb54442d18p+1.

(** [xs.reduce((sum, x) => sum + f(x), 0)]. *)
Definition sumBy {A : Type} (f : A -> float) (xs : list A) : float :=
  fold_left (fun sum x => sum + f x) xs 0.

End JS.

(** ** The mock Solana program (mock-solana/src/index.ts) *)

Module MockSolana.
Import JS.
Local Open Scope string_scope.
Local Open Scope float_scope.

Inductive DeviceType := Smartphone | Router | IoTDevice | Hotspot.

Record Location := mkLocation
  { latitude : float; longitude : float; accuracy : float }.

Module Device.
Record t := mk
  { id : string;
    owner : string;
    deviceType : DeviceType;
    location : Location;
    isActive : bool;
    totalUptime : float;
    totalRewardsEarned : float;
    lastActivity : float }.
End Device.

Module NetworkData.
Record t := mk
  { signalStrength : float;
    latency : float;
    throughput : float;
    availability : float;
    location : Location }.
End NetworkData.

Module ProgramState.
Record t := mk
  { totalDevices : float;
    totalRewardsDistributed : float;
    isActive : bool }.
End ProgramState.

(** The private fields of [MockSolanaProgram]. *)
Record Program := mkProgram
  { devices : gmap string Device.t;
    programState : ProgramState.t;
    rewardVault : float;
    isSimulating : bool }.

(** The events a method emits, in emission order. *)
Inductive Event :=
| deviceRegistered (device : Device.t)
| dataSubmitted (deviceId : string) (qualityData : NetworkData.t) (rewardAmount : float)
| deviceUpdated (device : Device.t)
| deviceStatusChanged (device : Device.t).

(** How a method ends: it returns its transaction string or throws an
    [Error] with a message. *)
Inductive Completion := Return (tx : string) | Throw (message : string).

(** A method call: how it ended, the program afterwards, what it emitted. *)
Record Call := mkCall
  { completion : Completion; after : Program; emitted : list Event }.

(** The two rejections of [submitData]; the spec calls them [NotFound] and
    [InactiveDevice]. *)
Definition NotFound : Completion := Throw "Device not found".
Definition InactiveDevice : Completion := Throw "Device is not active".

(** The state the constructor leaves ([startDataSimulation] sets the flag). *)
Definition initial : Program :=
  {| devices := ∅;
     programState := ProgramState.mk 0 0 true;
     rewardVault := 1000000000;
     isSimulating := true |}.

Definition calculateReward (qualityData : NetworkData.t) (uptime : float) : float :=
  let baseReward := 1000 in
  let signalMultiplier :=
    if -70 <? NetworkData.signalStrength qualityData then 1.5
    else if -80 <? NetworkData.signalStrength qualityData then 0.8
    else 0.3 in
  let latencyMultiplier :=
    if NetworkData.latency qualityData <? 50 then 1.2
    else if NetworkData.latency qualityData <? 100 then 1.0
    else 0.6 in
  let throughputMultiplier :=
    if 1000000 <? NetworkData.throughput qualityData then 1.3
    else if 500000 <? NetworkData.throughput qualityData then 1.0
    else 0.7 in
  let availabilityMultiplier := NetworkData.availability qualityData in
  let uptimeBonus := 1.0 + (uptime / 1000) * 0.5 in
  let totalMultiplier :=
    signalMultiplier * latencyMultiplier * throughputMultiplier
    * availabilityMultiplier * uptimeBonus in
  Math_floor (baseReward * totalMultiplier).

Definition registerDevice (p : Program) (deviceId : string) (deviceType : DeviceType)
    (location : Location) (owner : string) (now : float) : Call :=
  let device :=
    Device.mk deviceId owner deviceType location true 0 0 now in
  let st := programState p in
  {| completion := Return "mock_tx_register_device_123";
     after :=
       {| devices := <[deviceId := device]> (devices p);
          programState :=
            ProgramState.mk (ProgramState.totalDevices st + 1)
              (ProgramState.totalRewardsDistributed st) (ProgramState.isActive st);
          rewardVault := rewardVault p;
          isSimulating := isSimulating p |};
     emitted := [deviceRegistered device] |}.

Definition submitData (p : Program) (deviceId : string)
    (qualityData : NetworkData.t) (now : float) : Call :=
  match devices p !! deviceId with
  | None => mkCall NotFound p []
  | Some device =>
      if negb (Device.isActive device) then mkCall InactiveDevice p []
      else
        let rewardAmount := calculateReward qualityData (Device.totalUptime device) in
        let device' :=
          Device.mk (Device.id device) (Device.owner device) (Device.deviceType device)
            (NetworkData.location qualityData)
            (Device.isActive device)
            (Device.totalUptime device + 1)
            (Device.totalRewardsEarned device + rewardAmount)
            now in
        let st := programState p in
        {| completion := Return "mock_tx_submit_data_123";
           after :=
             {| devices := <[deviceId := device']> (devices p);
                programState :=
                  ProgramState.mk (ProgramState.totalDevices st)
                    (ProgramState.totalRewardsDistributed st + rewardAmount)
                    (ProgramState.isActive st);
                rewardVault := rewardVault p - rewardAmount;
                isSimulating := isSimulating p |};
           emitted :=
             [dataSubmitted deviceId qualityData rewardAmount; deviceUpdated device'] |}
  end.

Definition toggleDeviceStatus (p : Program) (deviceId : string) (now : float) : Call :=
  match devices p !! deviceId with
  | None => mkCall NotFound p []
  | Some device =>
      let device' :=
        Device.mk (Device.id device) (Device.owner device) (Device.deviceType device)
          (Device.location device) (negb (Device.isActive device))
          (Device.totalUptime device) (Device.totalRewardsEarned device) now in
      {| completion := Return "mock_tx_toggle_status_123";
         after :=
           {| devices := <[deviceId := device']> (devices p);
              programState := programState p;
              rewardVault := rewardVault p;
              isSimulating := isSimulating p |};
         emitted := [deviceStatusChanged device'] |}
  end.

(** [getDevice]: [null] for an unknown id. *)
Definition getDevice (p : Program) (deviceId : string) : option Device.t :=
  devices p !! deviceId.

Module NetworkStats.
Record t := mk
  { totalDevices : float;
    activeDevices : float;
    totalRewards : float;
    averageQuality : float }.
End NetworkStats.

(** [getNetworkStats].  A JS [Map] iterates in insertion order, which the
    finite map does not record: [values] is the array
    [Array.from(this.devices.values())]. *)
Definition getNetworkStats (p : Program) (values : list Device.t) : NetworkStats.t :=
  let devices := values in
  let activeDevices := List.filter Device.isActive devices in
  {| NetworkStats.totalDevices := of_nat (length devices);
     NetworkStats.activeDevices := of_nat (length activeDevices);
     NetworkStats.totalRewards := ProgramState.totalRewardsDistributed (programState p);
     NetworkStats.averageQuality :=
       if (0 <? length activeDevices)%nat then
         fold_left
           (fun sum d => sum + Device.totalRewardsEarned d / Device.totalUptime d)
           activeDevices 0
         / of_nat (length activeDevices)
       else 0 |}.

(** [reset]: the devices and the counters are those of a new program. *)
Definition reset (p : Program) : Program :=
  {| devices := ∅;
     programState := ProgramState.mk 0 0 true;
     rewardVault := 1000000000;
     isSimulating := isSimulating p |}.

End MockSolana.

(** ** The Solana-to-Corda bridge (bridge/corda-bridge.ts) *)

Module Bridge.
Import JS.
Local Open Scope string_scope.
Local Open Scope float_scope.

Module Location.
Record t := mk { latitude : float; longitude : float; accuracy : float }.
End Location.

Module DataSubmission.
Record t := mk
  { device : string;
    timestamp : float;
    signalStrength : float;
    latency : float;
    throughput : float;
    availability : float;
    location : Location.t }.
End DataSubmission.

Module Region.
Record t := mk { latitude : float; longitude : float; radius : float }.
End Region.

Module AggregatedNetworkData.
Record t := mk
  { region : Region.t;
    averageSignalStrength : float;
    averageLatency : float;
    averageThroughput : float;
    averageAvailability : float;
    deviceCount : float;
    dataPoints : float;
    timestamp : float }.
End AggregatedNetworkData.

Record TimeRange := mkTimeRange { start : float; end_ : float }.

(** The stub of the source: no account is queried and the result is the
    empty array, whatever the time range and the region. *)
Definition getDataSubmissions (timeRange : TimeRange) (region : option Region.t)
    : list DataSubmission.t := [].

Definition lat (sub : DataSubmission.t) : float :=
  Location.latitude (DataSubmission.location sub).

Definition lng (sub : DataSubmission.t) : float :=
  Location.longitude (DataSubmission.location sub).

(** [new Set(submissions.map((sub) => sub.device)).size] *)
Definition distinctDevices (submissions : list DataSubmission.t) : nat :=
  size (list_to_set (map DataSubmission.device submissions) : gset string).

Section Runtime.

(** [Math.sin], [Math.cos] and [Math.atan2] are implementation-approximated
    in ECMAScript: the engine's functions are parameters of the model. *)
Variables Math_sin Math_cos : float -> float.
Variable Math_atan2 : float -> float -> float.

Definition toRadians (degrees : float) : float := degrees * (Math_PI / 180).

Definition calculateDistance (lat1 lng1 lat2 lng2 : float) : float :=
  let R := 6371000 in
  let dLat := toRadians (lat2 - lat1) in
  let dLng := toRadians (lng2 - lng1) in
  let a :=
    Math_sin (dLat / 2) * Math_sin (dLat / 2)
    + Math_cos (toRadians lat1) * Math_cos (toRadians lat2)
      * Math_sin (dLng / 2) * Math_sin (dLng / 2) in
  let c := 2 * Math_atan2 (PrimFloat.sqrt a) (PrimFloat.sqrt (1 - a)) in
  R * c.

Definition calculateRadius (submissions : list DataSubmission.t) : float :=
  if (length submissions <=? 1)%nat then 0
  else
    let centerLat := sumBy lat submissions / of_nat (length submissions) in
    let centerLng := sumBy lng submissions / of_nat (length submissions) in
    let maxDistance :=
      fold_left
        (fun maxDistance submission =>
           Math_max maxDistance
             (calculateDistance centerLat centerLng (lat submission) (lng submission)))
        submissions 0 in
    Math_round maxDistance.

Definition processDataSubmissions (submissions : list DataSubmission.t) (now : float)
    : AggregatedNetworkData.t :=
  if (length submissions =? 0)%nat then
    AggregatedNetworkData.mk (Region.mk 0 0 0) 0 0 0 0 0 0 now
  else
    let n := of_nat (length submissions) in
    let totalSignalStrength := sumBy DataSubmission.signalStrength submissions in
    let totalLatency := sumBy DataSubmission.latency submissions in
    let totalThroughput := sumBy DataSubmission.throughput submissions in
    let totalAvailability := sumBy DataSubmission.availability submissions in
    let avgLatitude := sumBy lat submissions / n in
    let avgLongitude := sumBy lng submissions / n in
    {| AggregatedNetworkData.region :=
         Region.mk avgLatitude avgLongitude (calculateRadius submissions);
       AggregatedNetworkData.averageSignalStrength := totalSignalStrength / n;
       AggregatedNetworkData.averageLatency := totalLatency / n;
       AggregatedNetworkData.averageThroughput := totalThroughput / n;
       AggregatedNetworkData.averageAvailability := totalAvailability / n;
       AggregatedNetworkData.deviceCount := of_nat (distinctDevices submissions);
       AggregatedNetworkData.dataPoints := n;
       AggregatedNetworkData.timestamp := now |}.

Definition anonymizeData (data : AggregatedNetworkData.t) : AggregatedNetworkData.t :=
  let region := AggregatedNetworkData.region data in
  {| AggregatedNetworkData.region :=
       Region.mk
         (Math_round (Region.latitude region * 100) / 100)
         (Math_round (Region.longitude region * 100) / 100)
         (Math_round (Region.radius region));
     AggregatedNetworkData.averageSignalStrength :=
       Math_round (AggregatedNetworkData.averageSignalStrength data);
     AggregatedNetworkData.averageLatency :=
       Math_round (AggregatedNetworkData.averageLatency data);
     AggregatedNetworkData.averageThroughput :=
       Math_round (AggregatedNetworkData.averageThroughput data);
     AggregatedNetworkData.averageAvailability :=
       Math_round (AggregatedNetworkData.averageAvailability data * 100) / 100;
     AggregatedNetworkData.deviceCount := AggregatedNetworkData.deviceCount data;
     AggregatedNetworkData.dataPoints := AggregatedNetworkData.dataPoints data;
     AggregatedNetworkData.timestamp := AggregatedNetworkData.timestamp data |}.

(** The bridge aggregation on a record set: simple means, centroid,
    max-distance radius, then the rounding. *)
Definition aggregate (submissions : list DataSubmission.t) (now : float)
    : AggregatedNetworkData.t :=
  anonymizeData (processDataSubmissions submissions now).

(** Nothing in the [try] block can throw, so the [catch] is never entered. *)
Definition aggregateNetworkData (timeRange : TimeRange) (region : option Region.t)
    (now : float) : AggregatedNetworkData.t :=
  aggregate (getDataSubmissions timeRange region) now.

End Runtime.

(** A JSON value, as [response.json()] resolves with. *)
#[warnings="-register-all"] Inductive Json :=
| JNull
| JBoolean (value : bool)
| JNumber (value : float)
| JString (value : string)
| JArray (items : list Json)
| JObject (members : list (string * Json)).

(** [value[name]] for a parsed value other than [null]: of an object the
    member of that name (the last one, if the text repeats the name), and
    [undefined], here [None], when the object has none or the value is an
    array, a string, a number or a boolean. *)
Definition property (value : Json) (name : string) : option Json :=
  match value with
  | JObject members =>
      fold_left
        (fun found member => if String.eqb (fst member) name then Some (snd member) else found)
        members None
  | _ => None
  end.

(** What [fetch] and [response.json()] gave [migrateToCorda]: the request
    failed, or a response came with [ok], [statusText] and a body; the body is
    [None] when [response.json()] rejects, else the value it parsed. *)
Inductive Fetched :=
| NetworkFailure
| Response (ok : bool) (statusText : string) (body : option Json).

(** What the promise settles with: the value returned, [None] being
    [undefined], or the message of the [Error] thrown. *)
Inductive Completion := Return (transactionId : option Json) | Throw (message : string).

(** One aggregate is posted and [result.transactionId] is returned as it is;
    every failure inside the [try] (the request, a response that is not
    [ok], a body that is not JSON, the [TypeError] of reading a property of
    [null]) is rethrown as the same [Error]. *)
Definition migrateToCorda (aggregatedData : AggregatedNetworkData.t) (fetched : Fetched)
    : Completion :=
  match fetched with
  | Response true _ (Some JNull) => Throw "Failed to migrate data to Corda"
  | Response true _ (Some result) => Return (property result "transactionId")
  | _ => Throw "Failed to migrate data to Corda"
  end.

(** What one run of the [setInterval] callback of [setupAutomatedMigration]
    logs last: the transaction id of the migration, that there was no data,
    or (from the [catch]) that the migration failed. *)
Inductive TickOutcome :=
| MigrationCompleted (transactionId : option Json)
| NoDataToMigrate
| MigrationFailed.

Section Scheduler.

Variables Math_sin Math_cos : float -> float.
Variable Math_atan2 : float -> float -> float.

(** The callback; [now] is the clock reading of the callback, [aggregatedAt]
    the one of the aggregation, [fetched] what the endpoint would answer. *)
Definition automatedMigrationTick (intervalHours : float) (now aggregatedAt : float)
    (fetched : Fetched) : TickOutcome :=
  let endTime := Math_floor (now / 1000) in
  let startTime := endTime - intervalHours * 60 * 60 in
  let aggregatedData :=
    aggregateNetworkData Math_sin Math_cos Math_atan2 (mkTimeRange startTime endTime) None
      aggregatedAt in
  if 0 <? AggregatedNetworkData.dataPoints aggregatedData then
    match migrateToCorda aggregatedData fetched with
    | Return transactionId => MigrationCompleted transactionId
    | Throw _ => MigrationFailed
    end
  else NoDataToMigrate.

End Scheduler.

End Bridge.

(** ** The mock Corda network (unnamed/part_002) *)

Module MockCorda.
Import JS.
Local Open Scope string_scope.
Local Open Scope float_scope.

Module Metrics.
Record t := mk
  { averageSignalStrength : float;
    averageLatency : float;
    averageThroughput : float;
    averageAvailability : float;
    deviceCount : float;
    dataPoints : float }.
End Metrics.

Module NetworkData.
Record t := mk { region : string; metrics : Metrics.t; timestamp : float }.
End NetworkData.

Inductive Status := PENDING | ACTIVE | SUSPENDED | TERMINATED.

Definition Status_eqb (a b : Status) : bool :=
  match a, b with
  | PENDING, PENDING | ACTIVE, ACTIVE | SUSPENDED, SUSPENDED
  | TERMINATED, TERMINATED => true
  | _, _ => false
  end.

Module Terms.
Record t := mk
  { dataSharing : bool;
    infrastructureAccess : bool;
    revenueSharing : float;
    duration : float }.
End Terms.

Module Quality.
Record t := mk { averageQuality : float; coverageArea : float; deviceCount : float }.
End Quality.

Module RoamingAgreement.
Record t := mk
  { id : string;
    partnerId : string;
    region : string;
    terms : Terms.t;
    networkData : Quality.t;
    status : Status;
    creationTime : float;
    lastExecutionTime : float }.
End RoamingAgreement.

(** The private fields of [MockCordaNetwork] the modelled methods use. *)
Record Network := mkNetwork
  { networkData : list NetworkData.t;
    roamingAgreements : gmap string RoamingAgreement.t }.

Inductive Event :=
| roamingAgreementExecuted (agreement : RoamingAgreement.t) (revenue : float).

Inductive Completion := Return (tx : string) | Throw (message : string).

Record Call := mkCall
  { completion : Completion; after : Network; emitted : list Event }.

Definition calculateRevenue (agreement : RoamingAgreement.t) : float :=
  let baseRevenue := Quality.deviceCount (RoamingAgreement.networkData agreement) * 100 in
  let qualityMultiplier := Quality.averageQuality (RoamingAgreement.networkData agreement) in
  let coverageMultiplier :=
    Quality.coverageArea (RoamingAgreement.networkData agreement) / 1000 in
  baseRevenue * qualityMultiplier * coverageMultiplier.

Definition executeRoamingAgreement (net : Network) (agreementId : string) (now : float)
    : Call :=
  match roamingAgreements net !! agreementId with
  | None => mkCall (Throw "Roaming agreement not found") net []
  | Some agreement =>
      if negb (Status_eqb (RoamingAgreement.status agreement) ACTIVE) then
        mkCall (Throw "Agreement is not active") net []
      else
        let revenue := calculateRevenue agreement in
        let agreement' :=
          RoamingAgreement.mk (RoamingAgreement.id agreement)
            (RoamingAgreement.partnerId agreement) (RoamingAgreement.region agreement)
            (RoamingAgreement.terms agreement) (RoamingAgreement.networkData agreement)
            (RoamingAgreement.status agreement) (RoamingAgreement.creationTime agreement)
            now in
        {| completion := Return "mock_corda_tx_execute_agreement_123";
           after :=
             {| networkData := networkData net;
                roamingAgreements := <[agreementId := agreement']> (roamingAgreements net) |};
           emitted := [roamingAgreementExecuted agreement' revenue] |}
  end.

Module Recommendations.
Record t := mk
  { infrastructureInvestment : list string;
    partnershipOpportunities : list string;
    costOptimization : list string }.
End Recommendations.

(** The average the mock calls quality: the mean of [averageAvailability]. *)
Definition avgQuality (data : list NetworkData.t) : float :=
  if (0 <? length data)%nat then
    sumBy (fun d => Metrics.averageAvailability (NetworkData.metrics d)) data
    / of_nat (length data)
  else 0.

Definition generateRecommendations (data : list NetworkData.t) : Recommendations.t :=
  let avgQuality := avgQuality data in
  let infrastructureInvestment :=
    if avgQuality <? 0.6 then
      ["Invest in network infrastructure upgrades"; "Deploy additional base stations"]
    else [] in
  let partnershipOpportunities :=
    if 0.8 <? avgQuality then
      ["Offer premium roaming services"; "Expand into adjacent markets"]
    else [] in
  let costOptimization :=
    if 0.9 <? avgQuality then
      ["Optimize network resources"; "Implement automated management"]
    else [] in
  Recommendations.mk infrastructureInvestment partnershipOpportunities costOptimization.

(** The [coverageDensity] entry of [getNetworkInsights]: the mean device
    count of the matching records (a region is a name here, it has no radius). *)
Definition coverageDensity (relevantData : list NetworkData.t) : float :=
  if (0 <? length relevantData)%nat then
    sumBy (fun d => Metrics.deviceCount (NetworkData.metrics d)) relevantData
    / of_nat (length relevantData)
  else 0.

(** An element of the [solanaData] array (typed [any[]]): an object with
    the numeric fields and the [deviceId] that [aggregateMetrics] reads. *)
Module SolanaDatum.
Record t := mk
  { deviceId : string;
    signalStrength : float;
    latency : float;
    throughput : float;
    availability : float }.
End SolanaDatum.

Definition aggregateMetrics (solanaData : list SolanaDatum.t) : Metrics.t :=
  if (length solanaData =? 0)%nat then Metrics.mk 0 0 0 0 0 0
  else
    let n := of_nat (length solanaData) in
    {| Metrics.averageSignalStrength := sumBy SolanaDatum.signalStrength solanaData / n;
       Metrics.averageLatency := sumBy SolanaDatum.latency solanaData / n;
       Metrics.averageThroughput := sumBy SolanaDatum.throughput solanaData / n;
       Metrics.averageAvailability := sumBy SolanaDatum.availability solanaData / n;
       Metrics.deviceCount :=
         of_nat (size (list_to_set (map SolanaDatum.deviceId solanaData) : gset string));
       Metrics.dataPoints := n |}.

(** A call of [migrateNetworkDataFromSolana]: what it returns, the network
    afterwards, the record it emits with [networkDataMigrated]. *)
Module Migrated.
Record t := mk { completion : string; after : Network; emitted : NetworkData.t }.
End Migrated.

Definition migrateNetworkDataFromSolana (net : Network) (solanaData : list SolanaDatum.t)
    (region : string) (now : float) : Migrated.t :=
  let aggregatedData := NetworkData.mk region (aggregateMetrics solanaData) now in
  {| Migrated.completion := "mock_corda_tx_migrate_123";
     Migrated.after :=
       {| networkData := (networkData net ++ [aggregatedData])%list;
          roamingAgreements := roamingAgreements net |};
     Migrated.emitted := aggregatedData |}.

(** A call of [createRoamingAgreement]: the id it returns, the network
    afterwards, the agreement it emits with [roamingAgreementCreated]. *)
Module Created.
Record t := mk { completion : string; after : Network; emitted : RoamingAgreement.t }.
End Created.

Section Clock.

(** The text of a number in a template literal. *)
Variable Number_toString : float -> string.

(** [createRoamingAgreement]; the three readings of [Date.now()] are
    arguments, [terms] and [quality] (the [networkData] argument of the
    source) are typed as the interface types them. *)
Definition createRoamingAgreement (net : Network) (partnerId region : string)
    (terms : Terms.t) (quality : Quality.t) (now1 now2 now3 : float) : Created.t :=
  let agreementId := "agreement_" ++ Number_toString now1 in
  let agreement :=
    RoamingAgreement.mk agreementId partnerId region terms quality PENDING now2 now3 in
  {| Created.completion := agreementId;
     Created.after :=
       {| networkData := networkData net;
          roamingAgreements := <[agreementId := agreement]> (roamingAgreements net) |};
     Created.emitted := agreement |}.

End Clock.

Module B2BInsights.
Record t := mk
  { region : string;
    timeRange : float * float;
    averageQuality : float;
    coverageDensity : float;
    performanceTrends : list float;
    recommendations : Recommendations.t }.
End B2BInsights.

(** The records [getNetworkInsights] reads. *)
Definition relevantData (net : Network) (region : string) (startTime endTime : float)
    : list NetworkData.t :=
  List.filter
    (fun data =>
       String.eqb (NetworkData.region data) region
       && (startTime <=? NetworkData.timestamp data)
       && (NetworkData.timestamp data <=? endTime))
    (networkData net).

(** [getNetworkInsights]; its [averageQuality] is the expression of
    [generateRecommendations]. *)
Definition getNetworkInsights (net : Network) (region : string) (startTime endTime : float)
    : B2BInsights.t :=
  let relevantData := relevantData net region startTime endTime in
  {| B2BInsights.region := region;
     B2BInsights.timeRange := (startTime, endTime);
     B2BInsights.averageQuality := avgQuality relevantData;
     B2BInsights.coverageDensity := coverageDensity relevantData;
     B2BInsights.performanceTrends :=
       map (fun data => Metrics.averageAvailability (NetworkData.metrics data)) relevantData;
     B2BInsights.recommendations := generateRecommendations relevantData |}.

(** The filter of [getActiveAgreements], [simulateB2BTransactions] and
    [getNetworkStats] on [Array.from(this.roamingAgreements.values())]. *)
Definition activeRoamingAgreements (values : list RoamingAgreement.t)
    : list RoamingAgreement.t :=
  List.filter (fun agreement => Status_eqb (RoamingAgreement.status agreement) ACTIVE) values.

(** [reset], on the modelled fields. *)
Definition reset (net : Network) : Network := mkNetwork [] ∅.

End MockCorda.

(** ** The Corda application (corda-app, Kotlin) *)

Module Corda.
Import JS.
Local Open Scope string_scope.
Local Open Scope Z_scope.

(** Kotlin [Int] and [Long] arithmetic wraps around. *)
Definition wrapInt (z : Z) : Z := (z + 2 ^ 31) mod 2 ^ 32 - 2 ^ 31.
Definition wrapLong (z : Z) : Z := (z + 2 ^ 63) mod 2 ^ 64 - 2 ^ 63.

Definition inInt (z : Z) : Prop := - 2 ^ 31 <= z < 2 ^ 31.
Definition inLong (z : Z) : Prop := - 2 ^ 63 <= z < 2 ^ 63.

Inductive Exception :=
| IllegalArgumentException (message : string)
| NoSuchElementException (message : string)
| ArithmeticException (message : string)
| DateTimeException (message : string).

Definition getMessage (e : Exception) : string :=
  match e with
  | IllegalArgumentException m | NoSuchElementException m
  | ArithmeticException m | DateTimeException m => m
  end.

(** A computation that returns or throws. *)
Definition Try (A : Type) : Type := Exception + A.

Definition bind {A B : Type} (m : Try A) (k : A -> Try B) : Try B :=
  match m with
  | inl e => inl e
  | inr a => k a
  end.

Notation "'do' x <- m ; k" := (bind m (fun x => k))
  (at level 10, x name, m at level 100, k at level 200).
Notation "'ensure' m ; k" := (bind m (fun _ : unit => k))
  (at level 10, m at level 100, k at level 200).

(** [require(value) { message }] *)
Definition require (value : bool) (message : string) : Try unit :=
  if value then inr tt else inl (IllegalArgumentException message).

(** [message using (expr)] inside [requireThat]. *)
Definition using_ (message : string) (expr : bool) : Try unit :=
  if expr then inr tt
  else inl (IllegalArgumentException ("Failed requirement: " ++ message)).

(** [List.single()] *)
Definition single {A : Type} (xs : list A) : Try A :=
  match xs with
  | [x] => inr x
  | [] => inl (NoSuchElementException "List is empty.")
  | _ => inl (IllegalArgumentException "List has more than one element.")
  end.

(** [java.time.Instant]: seconds from the epoch and nanoseconds of the
    second, with the range limits and the exceptions of the JDK. *)
Module Instant.
Record t := mk { epochSecond : Z; nano : Z }.

Definition MIN_SECOND : Z := -31557014167219200.
Definition MAX_SECOND : Z := 31556889864403199.

Definition valid (i : t) : Prop :=
  MIN_SECOND <= epochSecond i <= MAX_SECOND /\ 0 <= nano i <= 999999999.

Definition EPOCH : t := mk 0 0.

Definition isBefore (a b : t) : bool :=
  (epochSecond a <? epochSecond b)
  || ((epochSecond a =? epochSecond b) && (nano a <? nano b)).

Definition isAfter (a b : t) : bool := isBefore b a.

(** [plusSeconds]: [Math.addExact] on the seconds, then the range check of
    [Instant.create]. *)
Definition plusSeconds (i : t) (secondsToAdd : Z) : Try t :=
  if secondsToAdd =? 0 then inr i
  else
    let epochSec := epochSecond i + secondsToAdd in
    if (epochSec <? - 2 ^ 63) || (2 ^ 63 <=? epochSec) then
      inl (ArithmeticException "long overflow")
    else if (epochSec <? MIN_SECOND) || (MAX_SECOND <? epochSec) then
      inl (DateTimeException "Instant exceeds minimum or maximum instant")
    else inr (mk epochSec (nano i)).
End Instant.

(** *** RoamingAgreementContract.kt *)

Inductive AgreementStatus := PENDING | ACTIVE | SUSPENDED | TERMINATED | EXPIRED.

Definition AgreementStatus_eqb (a b : AgreementStatus) : bool :=
  match a, b with
  | PENDING, PENDING | ACTIVE, ACTIVE | SUSPENDED, SUSPENDED
  | TERMINATED, TERMINATED | EXPIRED, EXPIRED => true
  | _, _ => false
  end.

Module AgreementTerms.
Record t := mk
  { dataSharing : bool;
    infrastructureAccess : bool;
    revenueSharing : float;
    duration : Z;
    minimumQuality : float;
    coverageArea : float;
    performanceMetrics : list string }.

Definition isValid (terms : t) : bool :=
  (0 <=? revenueSharing terms)%float && (revenueSharing terms <=? 100)%float
  && (0 <? duration terms)
  && (0 <=? minimumQuality terms)%float && (minimumQuality terms <=? 1)%float
  && (0 <? coverageArea terms)%float
  && negb (length (performanceMetrics terms) =? 0)%nat.
End AgreementTerms.

Module NetworkQualityData.
Record t := mk
  { averageQuality : float;
    coverageArea : float;
    deviceCount : Z;
    lastUpdated : Instant.t }.
End NetworkQualityData.

Module RoamingAgreementState.
Record t := mk
  { id : string;
    partnerId : string;
    region : string;
    terms : AgreementTerms.t;
    networkData : NetworkQualityData.t;
    status : AgreementStatus;
    creationTime : Instant.t;
    lastExecutionTime : Instant.t;
    terminationTime : option Instant.t;
    participants : list string }.

(** [isExpired()]; [now] is the reading of [Instant.now()]. *)
Definition isExpired (a : t) (now : Instant.t) : Try bool :=
  do expiry <- Instant.plusSeconds (creationTime a)
                 (wrapLong (AgreementTerms.duration (terms a) * 86400));
  inr (Instant.isBefore expiry now).

(** [isActive()]: [&&] does not evaluate [isExpired()] unless the status is
    ACTIVE. *)
Definition isActive (a : t) (now : Instant.t) : Try bool :=
  if AgreementStatus_eqb (status a) ACTIVE then
    do expired <- isExpired a now; inr (negb expired)
  else inr false.
End RoamingAgreementState.

Inductive Command := Create | Update | Execute | Terminate.

Record LedgerTransaction := mkTx
  { inputs : list RoamingAgreementState.t;
    outputs : list RoamingAgreementState.t;
    command : Command }.

Definition verifyCreate (tx : LedgerTransaction) : Try unit :=
  ensure using_ "No inputs should be consumed when creating roaming agreement"
          (length (inputs tx) =? 0)%nat;
  ensure using_ "One output should be created" (length (outputs tx) =? 1)%nat;
  do output <- single (outputs tx);
  ensure using_ "Agreement must have valid terms"
          (AgreementTerms.isValid (RoamingAgreementState.terms output));
  ensure using_ "Agreement must have valid duration"
          (0 <? AgreementTerms.duration (RoamingAgreementState.terms output));
  using_ "Agreement must have valid parties"
    (2 <=? length (RoamingAgreementState.participants output))%nat.

Definition verifyUpdate (tx : LedgerTransaction) (now : Instant.t) : Try unit :=
  ensure using_ "One input should be consumed when updating agreement"
          (length (inputs tx) =? 1)%nat;
  ensure using_ "One output should be created when updating agreement"
          (length (outputs tx) =? 1)%nat;
  do input <- single (inputs tx);
  do output <- single (outputs tx);
  ensure using_ "Agreement ID must remain the same"
          (String.eqb (RoamingAgreementState.id input) (RoamingAgreementState.id output));
  ensure using_ "Updated agreement must have valid terms"
          (AgreementTerms.isValid (RoamingAgreementState.terms output));
  do expired <- RoamingAgreementState.isExpired output now;
  using_ "Agreement must not be expired" (negb expired).

Definition verifyExecute (tx : LedgerTransaction) (now : Instant.t) : Try unit :=
  ensure using_ "One input should be consumed when executing agreement"
          (length (inputs tx) =? 1)%nat;
  ensure using_ "One output should be created when executing agreement"
          (length (outputs tx) =? 1)%nat;
  do input <- single (inputs tx);
  do output <- single (outputs tx);
  ensure using_ "Agreement must be active"
          (AgreementStatus_eqb (RoamingAgreementState.status input) ACTIVE);
  do expired <- RoamingAgreementState.isExpired input now;
  ensure using_ "Agreement must not be expired" (negb expired);
  using_ "Execution must update last execution time"
    (Instant.isAfter (RoamingAgreementState.lastExecutionTime output)
       (RoamingAgreementState.lastExecutionTime input)).

Definition verifyTerminate (tx : LedgerTransaction) : Try unit :=
  ensure using_ "One input should be consumed when terminating agreement"
          (length (inputs tx) =? 1)%nat;
  ensure using_ "One output should be created when terminating agreement"
          (length (outputs tx) =? 1)%nat;
  do input <- single (inputs tx);
  do output <- single (outputs tx);
  ensure using_ "Agreement must be active to terminate"
          (AgreementStatus_eqb (RoamingAgreementState.status input) ACTIVE);
  ensure using_ "Status must change to terminated"
          (AgreementStatus_eqb (RoamingAgreementState.status output) TERMINATED);
  using_ "Termination time must be set"
    (match RoamingAgreementState.terminationTime output with Some _ => true | None => false end).

(** [RoamingAgreementContract.verify]; [now] is what [Instant.now()] reads
    while the contract runs. *)
Definition verify (tx : LedgerTransaction) (now : Instant.t) : Try unit :=
  match command tx with
  | Create => verifyCreate tx
  | Update => verifyUpdate tx now
  | Execute => verifyExecute tx now
  | Terminate => verifyTerminate tx
  end.

(** *** The roaming-agreement flows (webserver/DePINfinityWebServer.kt)

    A flow's [participants] argument only names the signers and is left out;
    every [Instant.now()] a flow or the contract reads is an argument. *)

(** The unconsumed agreement states of the vault, in query order. *)
Definition Vault : Type := list RoamingAgreementState.t.

(** [queryBy(...).states.find { it.state.data.id == agreementId }] *)
Definition findAgreement (vault : Vault) (agreementId : string)
    : option RoamingAgreementState.t :=
  List.find (fun s => String.eqb (RoamingAgreementState.id s) agreementId) vault.

(** The state [findAgreement] returns is the one a transaction consumes. *)
Fixpoint consume (agreementId : string) (vault : Vault) : Vault :=
  match vault with
  | [] => []
  | s :: rest =>
      if String.eqb (RoamingAgreementState.id s) agreementId then rest
      else s :: consume agreementId rest
  end.

(** [FinalityFlow]: the contract runs on the transaction; an accepted
    transaction consumes its inputs and records its outputs, a rejected one
    leaves the vault as it was. *)
Definition FinalityFlow (tx : LedgerTransaction) (vault : Vault) (verifyAt : Instant.t)
    : Try LedgerTransaction * Vault :=
  match verify tx verifyAt with
  | inl e => (inl e, vault)
  | inr _ =>
      (inr tx,
       (fold_left (fun v s => consume (RoamingAgreementState.id s) v) (inputs tx) vault
        ++ outputs tx)%list)
  end.

Definition notFound (agreementId : string) : Exception :=
  IllegalArgumentException ("Roaming agreement with ID " ++ agreementId ++ " not found").

(** [agreementState.copy(status = .., lastExecutionTime = .., terminationTime = ..)] *)
Definition copy (a : RoamingAgreementState.t) (status : AgreementStatus)
    (lastExecutionTime : Instant.t) (terminationTime : option Instant.t)
    : RoamingAgreementState.t :=
  RoamingAgreementState.mk (RoamingAgreementState.id a) (RoamingAgreementState.partnerId a)
    (RoamingAgreementState.region a) (RoamingAgreementState.terms a)
    (RoamingAgreementState.networkData a) status (RoamingAgreementState.creationTime a)
    lastExecutionTime terminationTime (RoamingAgreementState.participants a).

(** [uuid] is the string of the fresh [UniqueIdentifier]; [createdAt] and
    [executedAt] are the two clock readings of the constructor call. *)
Definition CreateRoamingAgreementFlow (vault : Vault) (uuid partnerId region : string)
    (terms : AgreementTerms.t) (networkData : NetworkQualityData.t)
    (participants : list string) (createdAt executedAt verifyAt : Instant.t)
    : Try LedgerTransaction * Vault :=
  let roamingAgreementState :=
    RoamingAgreementState.mk uuid partnerId region terms networkData PENDING
      createdAt executedAt None participants in
  FinalityFlow (mkTx [] [roamingAgreementState] Create) vault verifyAt.

Definition ActivateRoamingAgreementFlow (vault : Vault) (agreementId : string)
    (stamp verifyAt : Instant.t) : Try LedgerTransaction * Vault :=
  match findAgreement vault agreementId with
  | None => (inl (notFound agreementId), vault)
  | Some agreementState =>
      let activatedState :=
        copy agreementState ACTIVE stamp
          (RoamingAgreementState.terminationTime agreementState) in
      FinalityFlow (mkTx [agreementState] [activatedState] Update) vault verifyAt
  end.

Definition ExecuteRoamingAgreementFlow (vault : Vault) (agreementId : string)
    (checkAt stamp verifyAt : Instant.t) : Try LedgerTransaction * Vault :=
  match findAgreement vault agreementId with
  | None => (inl (notFound agreementId), vault)
  | Some agreementState =>
      match
        (do active <- RoamingAgreementState.isActive agreementState checkAt;
         require active "Agreement must be active to execute")
      with
      | inl e => (inl e, vault)
      | inr _ =>
          let executedState :=
            copy agreementState (RoamingAgreementState.status agreementState) stamp
              (RoamingAgreementState.terminationTime agreementState) in
          FinalityFlow (mkTx [agreementState] [executedState] Execute) vault verifyAt
      end
  end.

Definition TerminateRoamingAgreementFlow (vault : Vault) (agreementId : string)
    (stamp verifyAt : Instant.t) : Try LedgerTransaction * Vault :=
  match findAgreement vault agreementId with
  | None => (inl (notFound agreementId), vault)
  | Some agreementState =>
      match
        require (AgreementStatus_eqb (RoamingAgreementState.status agreementState) ACTIVE)
          "Agreement must be active to terminate"
      with
      | inl e => (inl e, vault)
      | inr _ =>
          let terminatedState :=
            copy agreementState TERMINATED
              (RoamingAgreementState.lastExecutionTime agreementState) (Some stamp) in
          FinalityFlow (mkTx [agreementState] [terminatedState] Terminate) vault verifyAt
      end
  end.

(** *** NetworkDataContract (unnamed/part_003) and NetworkDataService.kt *)

Module NetworkRegion.
Record t := mk
  { latitude : float; longitude : float; radius : float;
    country : string; city : string }.
End NetworkRegion.

Module NetworkMetrics.
Record t := mk
  { averageSignalStrength : float;
    averageLatency : float;
    averageThroughput : float;
    averageAvailability : float;
    deviceCount : Z;
    dataPoints : Z;
    qualityScore : float }.

(** [x in a..b] on [Double]s is [a <= x && x <= b]. *)
Definition isValid (m : t) : bool :=
  ((-120 <=? averageSignalStrength m)%float && (averageSignalStrength m <=? 0)%float)
  && (0 <=? averageLatency m)%float
  && (0 <=? averageThroughput m)%float
  && ((0 <=? averageAvailability m)%float && (averageAvailability m <=? 1)%float)
  && (0 <=? deviceCount m)
  && (0 <=? dataPoints m)
  && ((0 <=? qualityScore m)%float && (qualityScore m <=? 1)%float).
End NetworkMetrics.

Module NetworkDataState.
Record t := mk
  { id : string;
    region : NetworkRegion.t;
    metrics : NetworkMetrics.t;
    timestamp : Instant.t;
    source : string;
    version : string;
    participants : list string }.
End NetworkDataState.

Module SolanaNetworkMetrics.
Record t := mk
  { averageSignalStrength : float;
    averageLatency : float;
    averageThroughput : float;
    averageAvailability : float;
    deviceCount : Z;
    dataPoints : Z }.
End SolanaNetworkMetrics.

Module SolanaNetworkData.
Record t := mk
  { region : NetworkRegion.t; metrics : SolanaNetworkMetrics.t; timestamp : Instant.t }.
End SolanaNetworkData.

(** [sumBy] adds in [Int], [sumByDouble] in [Double], both from zero. *)
Definition sumBy {A : Type} (selector : A -> Z) (xs : list A) : Z :=
  fold_left (fun sum x => wrapInt (sum + selector x)) xs 0.

Definition sumByDouble {A : Type} (selector : A -> float) (xs : list A) : float :=
  fold_left (fun sum x => (sum + selector x)%float) xs 0%float.

(** [Iterable<Double>.average()]: NaN for the empty list. *)
Definition average (xs : list float) : float :=
  if (length xs =? 0)%nat then nan
  else (fold_left PrimFloat.add xs 0 / of_nat (length xs))%float.

Definition normalizeSignalStrength (signalStrength : float) : float :=
  (if -50 <=? signalStrength then 1.0
   else if -60 <=? signalStrength then 0.9
   else if -70 <=? signalStrength then 0.8
   else if -80 <=? signalStrength then 0.6
   else if -90 <=? signalStrength then 0.4
   else 0.2)%float.

Definition normalizeLatency (latency : float) : float :=
  (if latency <=? 20 then 1.0
   else if latency <=? 50 then 0.9
   else if latency <=? 100 then 0.8
   else if latency <=? 200 then 0.6
   else if latency <=? 500 then 0.4
   else 0.2)%float.

Definition normalizeThroughput (throughput : float) : float :=
  (if 1000000 <=? throughput then 1.0
   else if 500000 <=? throughput then 0.8
   else if 100000 <=? throughput then 0.6
   else if 50000 <=? throughput then 0.4
   else 0.2)%float.

Definition calculateQualityScore (metrics : SolanaNetworkMetrics.t) : float :=
  let signalScore := normalizeSignalStrength (SolanaNetworkMetrics.averageSignalStrength metrics) in
  let latencyScore := normalizeLatency (SolanaNetworkMetrics.averageLatency metrics) in
  let throughputScore := normalizeThroughput (SolanaNetworkMetrics.averageThroughput metrics) in
  let availabilityScore := SolanaNetworkMetrics.averageAvailability metrics in
  ((signalScore + latencyScore + throughputScore + availabilityScore) / 4.0)%float.

(** [CreateNetworkDataFromSolana.call()]; [uuid] and [now] as above. *)
Definition CreateNetworkDataFromSolana (solanaData : SolanaNetworkData.t)
    (participants : list string) (uuid : string) (now : Instant.t) : NetworkDataState.t :=
  let m := SolanaNetworkData.metrics solanaData in
  let networkMetrics :=
    NetworkMetrics.mk (SolanaNetworkMetrics.averageSignalStrength m)
      (SolanaNetworkMetrics.averageLatency m) (SolanaNetworkMetrics.averageThroughput m)
      (SolanaNetworkMetrics.averageAvailability m) (SolanaNetworkMetrics.deviceCount m)
      (SolanaNetworkMetrics.dataPoints m) (calculateQualityScore m) in
  NetworkDataState.mk uuid (SolanaNetworkData.region solanaData) networkMetrics now
    "solana_depin" "1.0" participants.

Definition radius (it : NetworkDataState.t) : float :=
  NetworkRegion.radius (NetworkDataState.region it).

Definition deviceCount (it : NetworkDataState.t) : Z :=
  NetworkMetrics.deviceCount (NetworkDataState.metrics it).

Definition calculateCoverageDensity (data : list NetworkDataState.t) : float :=
  match data with
  | [] => 0%float
  | _ =>
      let totalArea := sumByDouble (fun it => (Math_PI * radius it * radius it)%float) data in
      let totalDevices := sumBy deviceCount data in
      (of_Z totalDevices / totalArea)%float
  end.

(** [AggregateNetworkDataForB2B.generateRecommendations]: one list, the
    first matching branch of the [when]. *)
Definition generateRecommendations (data : list NetworkDataState.t) : list string :=
  let avgQuality :=
    average (map (fun it => NetworkMetrics.qualityScore (NetworkDataState.metrics it)) data) in
  let avgCoverage := calculateCoverageDensity data in
  if (avgQuality <? 0.6)%float then
    ["Consider infrastructure investment in low-quality areas"]
  else if (avgCoverage <? 0.1)%float then
    ["Expand network coverage in underserved areas"]
  else if (length data <? 10)%nat then ["Increase data collection frequency"]
  else ["Network performance is optimal"].

(** *** Aggregation and queries of network-data states *)

Module TimeRange.
Record t := mk { start : Instant.t; end_ : Instant.t }.
End TimeRange.

(** [aggregateMetrics] of [AggregateAndAnonymizeNetworkData] (the flow
    [AggregateNetworkDataFlow] has the same function): the sums of the counts
    in [Int], the means weighted by the data points in [Double]. *)
Definition aggregateMetrics (metricsList : list NetworkMetrics.t) : NetworkMetrics.t :=
  let totalDataPoints := sumBy NetworkMetrics.dataPoints metricsList in
  let totalDevices := sumBy NetworkMetrics.deviceCount metricsList in
  let weighted (selector : NetworkMetrics.t -> float) : float :=
    (fold_left PrimFloat.add
       (map (fun it => selector it * of_Z (NetworkMetrics.dataPoints it)) metricsList) 0
     / of_Z totalDataPoints)%float in
  {| NetworkMetrics.averageSignalStrength := weighted NetworkMetrics.averageSignalStrength;
     NetworkMetrics.averageLatency := weighted NetworkMetrics.averageLatency;
     NetworkMetrics.averageThroughput := weighted NetworkMetrics.averageThroughput;
     NetworkMetrics.averageAvailability := weighted NetworkMetrics.averageAvailability;
     NetworkMetrics.deviceCount := totalDevices;
     NetworkMetrics.dataPoints := totalDataPoints;
     NetworkMetrics.qualityScore := weighted NetworkMetrics.qualityScore |}.

(** The filter of the flows that read a region and a time range. *)
Definition inRegionAndRange (region : string) (timeRange : TimeRange.t)
    (data : NetworkDataState.t) : bool :=
  (String.eqb (NetworkRegion.city (NetworkDataState.region data)) region
   || String.eqb (NetworkRegion.country (NetworkDataState.region data)) region)
  && Instant.isAfter (NetworkDataState.timestamp data) (TimeRange.start timeRange)
  && Instant.isBefore (NetworkDataState.timestamp data) (TimeRange.end_ timeRange).

Module AggregatedNetworkDataResult.
Record t := mk
  { success : bool; message : string; aggregatedData : option NetworkDataState.t }.
End AggregatedNetworkDataResult.

(** [AggregateAndAnonymizeNetworkData.call()]; [networkDataStates] is what
    the vault query returns. *)
Definition AggregateAndAnonymizeNetworkData (networkDataStates : list NetworkDataState.t)
    (region : string) (timeRange : TimeRange.t) (participants : list string)
    (uuid : string) (now : Instant.t) : AggregatedNetworkDataResult.t :=
  let filteredData := List.filter (inRegionAndRange region timeRange) networkDataStates in
  match filteredData with
  | [] =>
      AggregatedNetworkDataResult.mk false
        "No network data found for the specified criteria" None
  | first :: _ =>
      let aggregatedMetrics := aggregateMetrics (map NetworkDataState.metrics filteredData) in
      let aggregatedRegion := NetworkDataState.region first in
      let aggregatedState :=
        NetworkDataState.mk uuid aggregatedRegion aggregatedMetrics now
          "solana_depin_aggregated" "1.0" participants in
      AggregatedNetworkDataResult.mk true
        "Network data aggregated and anonymized successfully" (Some aggregatedState)
  end.

Module B2BQueryCriteria.
Record t := mk
  { region : option string; timeRange : option TimeRange.t; minQuality : option float }.
End B2BQueryCriteria.

(** [QueryNetworkDataForB2B.call()]: the [when] takes the first criterion
    that is not null. *)
Definition QueryNetworkDataForB2B (networkDataStates : list NetworkDataState.t)
    (queryCriteria : B2BQueryCriteria.t) : list NetworkDataState.t :=
  List.filter
    (fun data =>
       match B2BQueryCriteria.region queryCriteria with
       | Some region =>
           String.eqb (NetworkRegion.city (NetworkDataState.region data)) region
           || String.eqb (NetworkRegion.country (NetworkDataState.region data)) region
       | None =>
           match B2BQueryCriteria.timeRange queryCriteria with
           | Some timeRange =>
               Instant.isAfter (NetworkDataState.timestamp data) (TimeRange.start timeRange)
               && Instant.isBefore (NetworkDataState.timestamp data)
                    (TimeRange.end_ timeRange)
           | None =>
               match B2BQueryCriteria.minQuality queryCriteria with
               | Some minQuality =>
                   (minQuality
                    <=? NetworkMetrics.qualityScore (NetworkDataState.metrics data))%float
               | None => true
               end
           end
       end)
    networkDataStates.

(** *** SolanaCordaBridge.ValidateNetworkDataIntegrity *)

Module IntegrityCheck.
Record t := mk { checkName : string; passed : bool; details : string }.
End IntegrityCheck.

Module DataIntegrityResult.
Record t := mk
  { success : bool;
    networkDataId : string;
    integrityChecks : list IntegrityCheck.t;
    failedChecks : list IntegrityCheck.t;
    message : string }.
End DataIntegrityResult.

(** [queryBy(...).states.find { it.state.data.id == networkDataId }] *)
Definition findNetworkData (vault : list NetworkDataState.t) (networkDataId : string)
    : option NetworkDataState.t :=
  List.find (fun s => String.eqb (NetworkDataState.id s) networkDataId) vault.

Section Integrity.

(** [String.isNotBlank()]: whether some character of the string is not
    white space; which characters are is a matter of Unicode, and the
    function is a parameter of the model. *)
Variable isNotBlank : string -> bool.

(** [NetworkRegion.isValid()] *)
Definition NetworkRegion_isValid (r : NetworkRegion.t) : bool :=
  ((-90 <=? NetworkRegion.latitude r)%float && (NetworkRegion.latitude r <=? 90)%float)
  && ((-180 <=? NetworkRegion.longitude r)%float
      && (NetworkRegion.longitude r <=? 180)%float)
  && (0 <=? NetworkRegion.radius r)%float
  && isNotBlank (NetworkRegion.country r)
  && isNotBlank (NetworkRegion.city r).

Definition checkDataCompleteness (data : NetworkDataState.t) : IntegrityCheck.t :=
  let isComplete :=
    NetworkMetrics.isValid (NetworkDataState.metrics data)
    && NetworkRegion_isValid (NetworkDataState.region data)
    && Instant.isAfter (NetworkDataState.timestamp data) Instant.EPOCH in
  IntegrityCheck.mk "Data Completeness" isComplete
    (if isComplete then "All required fields are present and valid"
     else "Missing or invalid required fields").

Definition checkDataConsistency (data : NetworkDataState.t) : IntegrityCheck.t :=
  let isConsistent :=
    (0 <? NetworkMetrics.dataPoints (NetworkDataState.metrics data))
    && (0 <? NetworkMetrics.deviceCount (NetworkDataState.metrics data))
    && ((0 <=? NetworkMetrics.qualityScore (NetworkDataState.metrics data))%float
        && (NetworkMetrics.qualityScore (NetworkDataState.metrics data) <=? 1)%float) in
  IntegrityCheck.mk "Data Consistency" isConsistent
    (if isConsistent then "Data values are consistent and within expected ranges"
     else "Data values are inconsistent or out of range").

Definition checkDataAnonymization (data : NetworkDataState.t) : IntegrityCheck.t :=
  let isAnonymized :=
    String.eqb (NetworkDataState.source data) "solana_depin"
    && (0 <? NetworkRegion.radius (NetworkDataState.region data))%float
    && Instant.isAfter (NetworkDataState.timestamp data) Instant.EPOCH in
  IntegrityCheck.mk "Data Anonymization" isAnonymized
    (if isAnonymized then "Data is properly anonymized"
     else "Data anonymization may be insufficient").

(** [Instant.now().minus(24, ChronoUnit.HOURS)] is [plusSeconds(-86400)]. *)
Definition checkDataFreshness (data : NetworkDataState.t) (now : Instant.t)
    : Try IntegrityCheck.t :=
  do dayBefore <- Instant.plusSeconds now (-86400);
  let isFresh := Instant.isAfter (NetworkDataState.timestamp data) dayBefore in
  inr (IntegrityCheck.mk "Data Freshness" isFresh
         (if isFresh then "Data is fresh and up-to-date" else "Data may be stale")).

(** [ValidateNetworkDataIntegrity.call()]: whatever is thrown inside the
    [try] becomes a result without checks. *)
Definition ValidateNetworkDataIntegrity (vault : list NetworkDataState.t)
    (networkDataId : string) (now : Instant.t) : DataIntegrityResult.t :=
  match
    (do networkDataState <-
       match findNetworkData vault networkDataId with
       | Some data => inr data
       | None =>
           inl (IllegalArgumentException
                  ("Network data with ID " ++ networkDataId ++ " not found"))
       end;
     let completeness := checkDataCompleteness networkDataState in
     let consistency := checkDataConsistency networkDataState in
     let anonymization := checkDataAnonymization networkDataState in
     do freshness <- checkDataFreshness networkDataState now;
     let integrityChecks := [completeness; consistency; anonymization; freshness] in
     let allChecksPassed := forallb IntegrityCheck.passed integrityChecks in
     let failedChecks :=
       List.filter (fun it => negb (IntegrityCheck.passed it)) integrityChecks in
     inr (DataIntegrityResult.mk allChecksPassed networkDataId integrityChecks failedChecks
            (if allChecksPassed then "Data integrity validation passed"
             else "Data integrity validation failed")))
  with
  | inr result => result
  | inl e =>
      DataIntegrityResult.mk false networkDataId [] []
        ("Failed to validate data integrity: " ++ getMessage e)
  end.

End Integrity.

(** *** SolanaCordaBridge.MigrateNetworkDataFromSolana *)

Record NetworkDataMigrationResult := mkItem
  { solanaDataId : string;
    cordaDataId : option string;
    success : bool;
    message : string }.

Record MigrationResult := mkMigrationResult
  { totalDataPoints : Z;
    successCount : Z;
    failureCount : Z;
    migrationResults : list NetworkDataMigrationResult;
    timestamp : Instant.t }.

(** [try { body } catch (e: Exception) { handler }] *)
Definition tryCatch {A : Type} (body : Try A) (handler : Exception -> Try A) : Try A :=
  match body with
  | inl e => handler e
  | inr a => inr a
  end.

Section Migration.

(** How the sub-flow started for the item at a position ends: with the state
    it created or with what it threw; and [Instant.toString()]. *)
Variable subFlow : nat -> SolanaNetworkData.t -> Try NetworkDataState.t.
Variable toString : Instant.t -> string.

(** The variables of the [for] loop: the result list and the two counters. *)
Definition Progress : Type := (list NetworkDataMigrationResult * Z * Z)%type.

Definition migrateOne (i : nat) (data : SolanaNetworkData.t) (progress : Progress)
    : Try Progress :=
  let '(migrationResults, successCount, failureCount) := progress in
  tryCatch
    (do networkDataState <- subFlow i data;
     inr ((migrationResults
             ++ [mkItem (toString (SolanaNetworkData.timestamp data))
                   (Some (NetworkDataState.id networkDataState)) true
                   "Network data migrated successfully"])%list,
          wrapInt (successCount + 1), failureCount))
    (fun e =>
       inr ((migrationResults
               ++ [mkItem (toString (SolanaNetworkData.timestamp data)) None false
                     ("Failed to migrate network data: " ++ getMessage e)])%list,
            successCount, wrapInt (failureCount + 1))).

Fixpoint migrateFrom (i : nat) (solanaData : list SolanaNetworkData.t)
    (progress : Progress) : Try Progress :=
  match solanaData with
  | [] => inr progress
  | data :: rest =>
      do progress' <- migrateOne i data progress;
      migrateFrom (S i) rest progress'
  end.

(** [MigrateNetworkDataFromSolana.call()] *)
Definition MigrateNetworkDataFromSolana (solanaData : list SolanaNetworkData.t)
    (now : Instant.t) : Try MigrationResult :=
  do progress <- migrateFrom 0 solanaData ([], 0, 0);
  let '(migrationResults, successCount, failureCount) := progress in
  inr (mkMigrationResult (Z.of_nat (length solanaData)) successCount failureCount
         migrationResults now).

End Migration.

(** The sub-flow the source starts for the item at position [i],
    [CreateNetworkDataFromSolana]: it builds the state and returns it;
    [uuid i] and [createdAt i] are the identifier and the clock reading of
    that run. *)
Definition createFromSolana (participants : list string) (uuid : nat -> string)
    (createdAt : nat -> Instant.t) (i : nat) (data : SolanaNetworkData.t)
    : Try NetworkDataState.t :=
  inr (CreateNetworkDataFromSolana data participants (uuid i) (createdAt i)).

End Corda.

(** * Sample inputs and the spec's formulas *)

Module RewardSamples.
Import JS MockSolana.
Local Open Scope string_scope.
Local Open Scope float_scope.

(** The telemetry record of the spec's example, at any location. *)
Definition sample (where_ : Location) : NetworkData.t :=
  NetworkData.mk (-65) 45 1200000 0.95 where_.

(** A program with one registered, active device that has not submitted. *)
Definition tokyo : Location := mkLocation 35.68 139.76 10.

Definition oneDevice : Program :=
  after (registerDevice initial "phone-1" Smartphone tokyo "alice" 1000).

Definition phone1 : Device.t :=
  Device.mk "phone-1" "alice" Smartphone tokyo true 0 0 1000.

(** The program after the only device was switched off. *)
Definition switchedOff : Program :=
  after (toggleDeviceStatus oneDevice "phone-1" 1500).

(** The same id registered twice. *)
Definition registeredTwice : Program :=
  after (registerDevice oneDevice "phone-1" Router tokyo "bob" 2000).

End RewardSamples.

Module BridgeSamples.
Import JS Bridge.
Local Open Scope string_scope.
Local Open Scope float_scope.

Definition window : TimeRange := mkTimeRange 0 86400.

(** The anonymized aggregate of a batch of 40 records from 3 devices. *)
Definition batchOf40 : AggregatedNetworkData.t :=
  AggregatedNetworkData.mk (Region.mk 35.68 139.76 1200) (-65) 45 1200000 0.95 3 40 1000.

(** The reply of the repository's own endpoint ([NetworkDataResponse] of
    CordaAPIServer.kt: success, networkDataId, message). *)
Definition ownServerReply : Json :=
  JObject [("success", JBoolean true); ("networkDataId", JString "uuid-0");
           ("message", JString "Network data created successfully")].

(** A reply that names the transaction. *)
Definition replyWithId : Json :=
  JObject [("transactionId", JString "tx-1"); ("success", JBoolean true)].

End BridgeSamples.

Module InsightsSamples.
Import JS.
Local Open Scope string_scope.
Local Open Scope float_scope.

(** A record of the mock network whose [averageAvailability] is [a]. *)
Definition available (a : float) : MockCorda.NetworkData.t :=
  MockCorda.NetworkData.mk "Tokyo" (MockCorda.Metrics.mk (-60) 30 2000000 a 5 40) 1000.

(** A Corda network-data state with a device count and a radius. *)
Definition covering (deviceCount : Z) (radius : float) : Corda.NetworkDataState.t :=
  Corda.NetworkDataState.mk "n"
    (Corda.NetworkRegion.mk 35.68 139.76 radius "Japan" "Tokyo")
    (Corda.NetworkMetrics.mk (-60) 30 2000000 0.95 deviceCount 40 0.9)
    (Corda.Instant.mk 1700000000 0) "solana_depin" "1.0" ["docomo"; "partner"].

(** The sum of the device counts as an integer, without wrap-around. *)
Definition totalDevices (data : list Corda.NetworkDataState.t) : Z :=
  fold_right Z.add 0%Z (map Corda.deviceCount data).

(** The spec's coverageDensity: the sum of deviceCount over the sum of
    pi * radius^2 (multiplied out in the order of the source), and 0 for no
    aggregate. *)
Definition coverageDensity_spec (data : list Corda.NetworkDataState.t) : float :=
  match data with
  | [] => 0
  | _ =>
      of_Z (totalDevices data)
      / fold_left (fun sum it => sum + Math_PI * Corda.radius it * Corda.radius it) data 0
  end.

(** The spec's average quality of a set of records: the mean of their
    [averageAvailability], and 0 for no record. *)
Definition meanAvailability (data : list MockCorda.NetworkData.t) : float :=
  match data with
  | [] => 0
  | _ =>
      fold_left
        (fun sum d =>
           sum + MockCorda.Metrics.averageAvailability (MockCorda.NetworkData.metrics d))
        data 0
      / of_nat (length data)
  end.

End InsightsSamples.

Module AgreementSamples.
Import JS Corda.
Local Open Scope string_scope.
Local Open Scope Z_scope.

(** [now] is strictly after [creation] plus [d] days, in exact arithmetic. *)
Definition afterDays (creation : Instant.t) (d : Z) (now : Instant.t) : Prop :=
  Instant.epochSecond creation + d * 86400 < Instant.epochSecond now
  \/ (Instant.epochSecond creation + d * 86400 = Instant.epochSecond now
      /\ Instant.nano creation < Instant.nano now).

(** 2023-11-14T22:13:20Z, and the instant [n] days later. *)
Definition T0 : Instant.t := Instant.mk 1700000000 0.

Definition daysAfter (n : Z) : Instant.t := Instant.mk (1700000000 + n * 86400) 0.

Definition terms (duration : Z) : AgreementTerms.t :=
  AgreementTerms.mk true true 15 duration 0.8 1000 ["latency"].

Definition quality : NetworkQualityData.t := NetworkQualityData.mk 0.9 1000 5 T0.

(** An agreement created at [T0]. *)
Definition agreement (status : AgreementStatus) (duration : Z)
    (lastExecutionTime : Instant.t) (terminationTime : option Instant.t)
    : RoamingAgreementState.t :=
  RoamingAgreementState.mk "ra-1" "partner" "Tokyo" (terms duration) quality status T0
    lastExecutionTime terminationTime ["docomo"; "partner"].

End AgreementSamples.

Module MigrationSamples.
Import JS Corda.
Local Open Scope string_scope.
Local Open Scope Z_scope.

Section Items.

Variable subFlow : nat -> SolanaNetworkData.t -> Try NetworkDataState.t.
Variable toString : Instant.t -> string.

(** The report on the item at position [i]: success with the id of the
    created state, or failure with the message of what was thrown. *)
Definition itemFor (i : nat) (data : SolanaNetworkData.t) : NetworkDataMigrationResult :=
  match subFlow i data with
  | inr networkDataState =>
      mkItem (toString (SolanaNetworkData.timestamp data))
        (Some (NetworkDataState.id networkDataState)) true
        "Network data migrated successfully"
  | inl e =>
      mkItem (toString (SolanaNetworkData.timestamp data)) None false
        ("Failed to migrate network data: " ++ getMessage e)
  end.

Fixpoint itemsFrom (i : nat) (solanaData : list SolanaNetworkData.t)
    : list NetworkDataMigrationResult :=
  match solanaData with
  | [] => []
  | data :: rest => itemFor i data :: itemsFrom (S i) rest
  end.

End Items.

Definition successes (items : list NetworkDataMigrationResult) : Z :=
  Z.of_nat (length (List.filter success items)).

Definition failures (items : list NetworkDataMigrationResult) : Z :=
  Z.of_nat (length (List.filter (fun item => negb (success item)) items)).

(** Two aggregates to migrate; the sub-flow of the second one throws. *)
Definition aggregateAt (seconds : Z) : SolanaNetworkData.t :=
  SolanaNetworkData.mk (NetworkRegion.mk 35.68 139.76 1200 "Japan" "Tokyo")
    (SolanaNetworkMetrics.mk (-65) 45 1200000 0.95 3 40) (Instant.mk seconds 0).

Definition secondThrows (i : nat) (data : SolanaNetworkData.t) : Try NetworkDataState.t :=
  if (i =? 1)%nat then inl (IllegalArgumentException "notary unavailable")
  else inr (CreateNetworkDataFromSolana data ["docomo"; "partner"] "uuid-0"
              (Instant.mk 1700000100 0)).

Definition showSeconds (i : Instant.t) : string :=
  if Instant.epochSecond i =? 1700000000 then "2023-11-14T22:13:20Z"
  else "2023-11-14T22:13:21Z".

End MigrationSamples.

Module RewardMoreSamples.
Import JS MockSolana.
Local Open Scope string_scope.
Local Open Scope float_scope.

(** [values] lists the stored devices, each once, in some order. *)
Definition storedDevices (p : Program) (values : list Device.t) : Prop :=
  values ≡ₚ (map_to_list (devices p)).*2.

(** The programs the public methods can produce from a new one; the timer
    of [startDataSimulation] calls [submitData]. *)
Inductive reachable : Program -> Prop :=
| reachable_initial : reachable initial
| reachable_register (p : Program) (deviceId : string) (deviceType : DeviceType)
    (location : Location) (owner : string) (now : float) :
    reachable p ->
    reachable (after (registerDevice p deviceId deviceType location owner now))
| reachable_submit (p : Program) (deviceId : string) (qualityData : NetworkData.t)
    (now : float) :
    reachable p -> reachable (after (submitData p deviceId qualityData now))
| reachable_toggle (p : Program) (deviceId : string) (now : float) :
    reachable p -> reachable (after (toggleDeviceStatus p deviceId now))
| reachable_reset (p : Program) : reachable p -> reachable (reset p).

(** The program with another balance in the vault. *)
Definition withVault (p : Program) (balance : float) : Program :=
  {| devices := devices p;
     programState := programState p;
     rewardVault := balance;
     isSimulating := isSimulating p |}.

(** A telemetry record whose availability is not a number. *)
Definition garbled : NetworkData.t :=
  NetworkData.mk (-65) 45 1200000 nan RewardSamples.tokyo.

End RewardMoreSamples.

Module MockCordaTraces.
Import JS MockCorda.
Local Open Scope string_scope.
Local Open Scope float_scope.

Section Traces.

Variable Number_toString : float -> string.

(** The networks the methods of [MockCordaNetwork] can produce from a new
    one (the methods on infrastructure contracts touch neither modelled
    field; the read-only methods change nothing). *)
Inductive reachable : Network -> Prop :=
| reachable_new : reachable (mkNetwork [] ∅)
| reachable_migrate (net : Network) (solanaData : list SolanaDatum.t) (region : string)
    (now : float) :
    reachable net ->
    reachable (Migrated.after (migrateNetworkDataFromSolana net solanaData region now))
| reachable_create (net : Network) (partnerId region : string) (terms : Terms.t)
    (quality : Quality.t) (now1 now2 now3 : float) :
    reachable net ->
    reachable
      (Created.after
         (createRoamingAgreement Number_toString net partnerId region terms quality
            now1 now2 now3))
| reachable_execute (net : Network) (agreementId : string) (now : float) :
    reachable net ->
    reachable (after (executeRoamingAgreement net agreementId now))
| reachable_reset (net : Network) :
    reachable net -> reachable (reset net).

End Traces.

(** The agreements of a network are all PENDING. *)
Definition allPending (net : Network) : Prop :=
  forall (agreementId : string) (agreement : RoamingAgreement.t),
    roamingAgreements net !! agreementId = Some agreement ->
    RoamingAgreement.status agreement = PENDING.

(** [values] lists the stored agreements, each once, in some order. *)
Definition storedAgreements (net : Network) (values : list RoamingAgreement.t) : Prop :=
  values ≡ₚ (map_to_list (roamingAgreements net)).*2.

(** A clock reading as text (any function will do for a sample). *)
Definition showMillis (now : float) : string :=
  if now =? 1000 then "1000" else "0".

Definition someTerms : Terms.t := Terms.mk true false 30 30.
Definition someQuality : Quality.t := Quality.mk 0.9 1000 5.

Definition tokyoAt (timestamp availability : float) : NetworkData.t :=
  NetworkData.mk "tokyo" (Metrics.mk (-65) 45 1200000 availability 5 10) timestamp.

End MockCordaTraces.

Module AgreementTraces.
Import JS Corda.
Local Open Scope string_scope.
Local Open Scope Z_scope.

(** What the flows keep true of every stored agreement. *)
Definition wellFormed (s : RoamingAgreementState.t) : Prop :=
  (RoamingAgreementState.status s = PENDING
   \/ RoamingAgreementState.status s = ACTIVE
   \/ RoamingAgreementState.status s = TERMINATED)
  /\ AgreementTerms.isValid (RoamingAgreementState.terms s) = true
  /\ (2 <= length (RoamingAgreementState.participants s))%nat
  /\ (RoamingAgreementState.status s = PENDING ->
      RoamingAgreementState.terminationTime s = None)
  /\ (RoamingAgreementState.status s = TERMINATED ->
      RoamingAgreementState.terminationTime s <> None).

(** The vaults the four roaming-agreement flows can produce from an empty
    one, with any arguments and clock readings, whether they succeed or
    throw. *)
Inductive reachable : Vault -> Prop :=
| reachable_empty : reachable []
| reachable_create (vault : Vault) (uuid partnerId region : string)
    (terms : AgreementTerms.t) (networkData : NetworkQualityData.t)
    (participants : list string) (createdAt executedAt verifyAt : Instant.t) :
    reachable vault ->
    reachable
      (snd (CreateRoamingAgreementFlow vault uuid partnerId region terms networkData
              participants createdAt executedAt verifyAt))
| reachable_activate (vault : Vault) (agreementId : string) (stamp verifyAt : Instant.t) :
    reachable vault ->
    reachable (snd (ActivateRoamingAgreementFlow vault agreementId stamp verifyAt))
| reachable_execute (vault : Vault) (agreementId : string)
    (checkAt stamp verifyAt : Instant.t) :
    reachable vault ->
    reachable (snd (ExecuteRoamingAgreementFlow vault agreementId checkAt stamp verifyAt))
| reachable_terminate (vault : Vault) (agreementId : string) (stamp verifyAt : Instant.t) :
    reachable vault ->
    reachable (snd (TerminateRoamingAgreementFlow vault agreementId stamp verifyAt)).

(** [now] is not after [creation] plus [d] days, in exact arithmetic. *)
Definition notAfterDays (creation : Instant.t) (d : Z) (now : Instant.t) : Prop :=
  Instant.epochSecond now < Instant.epochSecond creation + d * 86400
  \/ (Instant.epochSecond now = Instant.epochSecond creation + d * 86400
      /\ Instant.nano now <= Instant.nano creation).

(** The state [CreateRoamingAgreementFlow] builds, and its later copies. *)
Definition created (uuid partnerId region : string) (terms : AgreementTerms.t)
    (networkData : NetworkQualityData.t) (participants : list string)
    (status : AgreementStatus) (creationTime lastExecutionTime : Instant.t)
    (terminationTime : option Instant.t) : RoamingAgreementState.t :=
  RoamingAgreementState.mk uuid partnerId region terms networkData status creationTime
    lastExecutionTime terminationTime participants.

End AgreementTraces.

Module NetworkDataSamples.
Import JS Corda.
Local Open Scope string_scope.
Local Open Scope Z_scope.

(** A Tokyo state with a number of data points and a quality score. *)
Definition tokyoState (id : string) (dataPoints : Z) (qualityScore : float)
    : NetworkDataState.t :=
  NetworkDataState.mk id (NetworkRegion.mk 35.68 139.76 1200 "Japan" "Tokyo")
    (NetworkMetrics.mk (-65) 45 1200000 0.95 3 dataPoints qualityScore)
    (Instant.mk 1700000000 0) "solana_depin" "1.0" ["docomo"; "partner"].

(** The year around 2023-11-14. *)
Definition year2023 : TimeRange.t :=
  TimeRange.mk (Instant.mk 1672531200 0) (Instant.mk 1704067200 0).

(** A record from Solana whose metrics no contract would accept. *)
Definition broken : SolanaNetworkData.t :=
  SolanaNetworkData.mk (NetworkRegion.mk 35.68 139.76 1200 "Japan" "Tokyo")
    (SolanaNetworkMetrics.mk 20 (-1) 1200000 7 (-3) (-40)) (Instant.mk 1700000000 0).

(** A sample reading of [isNotBlank], right on the sample strings. *)
Definition notEmpty (text : string) : bool := negb (String.eqb text "").

Definition uuidOf (i : nat) : string := if (i =? 0)%nat then "uuid-0" else "uuid-n".

Definition showInstant (i : Instant.t) : string := "2023-11-14T22:13:20Z".

End NetworkDataSamples.

(** * Properties *)

(** ** The [Math] model on sample values *)

Module JSFacts.
Import JS.
Local Open Scope float_scope.

Example Math_floor_fraction : Math_floor 2223.0000000000005 = 2223.
Proof. reflexivity. Qed.

Example Math_floor_below : Math_floor 2222.9999999999995 = 2222.
Proof. reflexivity. Qed.

Example Math_floor_negative : Math_floor (-0.5) = -1.
Proof. reflexivity. Qed.

Example Math_round_tie_up : Math_round 2.5 = 3 /\ Math_round (-2.5) = -2.
Proof. split; reflexivity. Qed.

Example Math_round_just_below_half : Math_round 0.49999999999999994 = 0.
Proof. reflexivity. Qed.

Example Math_round_negative_zero : Prim2SF (Math_round (-0.2)) = S754_zero true.
Proof. reflexivity. Qed.

Example Math_round_signal : Math_round (-65.51) = -66 /\ Math_round (-65.5) = -65.
Proof. split; reflexivity. Qed.

Example of_Z_samples :
  of_Z 5 = 5 /\ of_Z (-2147483648) = -2147483648 /\ of_Z 0 = 0
  /\ of_Z (2 ^ 53 + 1) = 9007199254740992 /\ of_nat 3 = 3.
Proof. repeat split. Qed.

Example Math_max_nan : is_nan (Math_max nan 1) = true /\ Math_max 1 2 = 2.
Proof. split; reflexivity. Qed.

(** Two numbers with different bits are different. *)
Lemma float_neq (x y : float) : Prim2SF x <> Prim2SF y -> x <> y.
Proof. intros Hne Heq. apply Hne. now rewrite Heq. Qed.

End JSFacts.

(** ** Kotlin integer arithmetic *)

Module KotlinFacts.
Import Corda.
Local Open Scope Z_scope.

(** [Int] and [Long] values in range are not changed by the wrap-around. *)
Lemma wrapInt_inInt (z : Z) : inInt z -> wrapInt z = z.
Proof.
  unfold inInt, wrapInt. intros Hz.
  rewrite Z.mod_small; lia.
Qed.

Lemma wrapLong_inLong (z : Z) : inLong z -> wrapLong z = z.
Proof.
  unfold inLong, wrapLong. intros Hz.
  rewrite Z.mod_small; lia.
Qed.

Lemma wrapInt_add_l (a b : Z) : wrapInt (wrapInt a + b) = wrapInt (a + b).
Proof.
  unfold wrapInt. f_equal.
  replace ((a + 2 ^ 31) mod 2 ^ 32 - 2 ^ 31 + b + 2 ^ 31)
    with ((a + 2 ^ 31) mod 2 ^ 32 + b) by lia.
  rewrite Zplus_mod_idemp_l. f_equal. lia.
Qed.

Lemma sumBy_from {A : Type} (selector : A -> Z) (xs : list A) (acc : Z) :
  fold_left (fun sum x => wrapInt (sum + selector x)) xs (wrapInt acc)
  = wrapInt (acc + fold_right Z.add 0 (map selector xs)).
Proof.
  revert acc. induction xs as [ | x xs IH]; intros acc; cbn [fold_left map fold_right].
  - now rewrite Z.add_0_r.
  - rewrite wrapInt_add_l, IH. f_equal. lia.
Qed.

(** [sumBy] is the integer sum, wrapped once. *)
Lemma sumBy_wrapInt {A : Type} (selector : A -> Z) (xs : list A) :
  sumBy selector xs = wrapInt (fold_right Z.add 0 (map selector xs)).
Proof. exact (sumBy_from selector xs 0). Qed.

End KotlinFacts.

(** ** The reward engine *)

Module RewardEngineFacts.
Import JS MockSolana RewardSamples.
Local Open Scope string_scope.
Local Open Scope float_scope.

Lemma calculateReward_sample (where_ : Location) :
  calculateReward (sample where_) 0 = 2223.
Proof. reflexivity. Qed.

Lemma calculateReward_sample_next (where_ : Location) :
  calculateReward (sample where_) (0 + 1) = 2224.
Proof. reflexivity. Qed.

Lemma oneDevice_lookup : devices oneDevice !! "phone-1" = Some phone1.
Proof. reflexivity. Qed.

(** C1: a submission with signalStrength -65, latency 45, throughput
    1,200,000 and availability 0.95 by a registered active device whose
    totalUptime is 0 is rewarded floor(1000 * 1.5 * 1.2 * 1.3 * 0.95 * 1.0)
    = 2223: that amount is emitted with [dataSubmitted], added to the device's
    and the program's totals and taken from the vault.  The bonus is computed
    from the totalUptime before the call (the value after it, 1, would give
    2224). *)
Theorem submitData_sample_reward (p : Program) (deviceId : string) (device : Device.t)
    (where_ : Location) (now : float) :
  devices p !! deviceId = Some device ->
  Device.isActive device = true ->
  Device.totalUptime device = 0 ->
  let qualityData := sample where_ in
  let call := submitData p deviceId qualityData now in
  let device' :=
    Device.mk (Device.id device) (Device.owner device) (Device.deviceType device)
      where_ true (0 + 1) (Device.totalRewardsEarned device + 2223) now in
  Math_floor (1000 * 1.5 * 1.2 * 1.3 * 0.95 * 1.0) = 2223
  /\ calculateReward qualityData (Device.totalUptime device) = 2223
  /\ calculateReward qualityData (Device.totalUptime device + 1) = 2224
  /\ completion call = Return "mock_tx_submit_data_123"
  /\ emitted call = [dataSubmitted deviceId qualityData 2223; deviceUpdated device']
  /\ devices (after call) !! deviceId = Some device'
  /\ ProgramState.totalRewardsDistributed (programState (after call))
     = ProgramState.totalRewardsDistributed (programState p) + 2223
  /\ rewardVault (after call) = rewardVault p - 2223.
Proof.
  intros Hfound Hactive Huptime qualityData call device'.
  subst call device'. unfold submitData.
  rewrite Hfound, Hactive, Huptime. cbn [negb].
  subst qualityData. rewrite calculateReward_sample.
  cbn [completion emitted after devices programState rewardVault
       ProgramState.totalRewardsDistributed NetworkData.location sample].
  rewrite lookup_insert_eq.
  repeat split; reflexivity.
Qed.

Lemma submitData_sample_reward_witness :
  emitted (submitData oneDevice "phone-1" (sample tokyo) 2000)
  = [dataSubmitted "phone-1" (sample tokyo) 2223;
     deviceUpdated (Device.mk "phone-1" "alice" Smartphone tokyo true 1 2223 2000)].
Proof.
  pose proof (submitData_sample_reward oneDevice "phone-1" phone1 tokyo 2000
                oneDevice_lookup eq_refl eq_refl) as H.
  cbv zeta in H. destruct H as (_ & _ & _ & _ & H & _). exact H.
Defined.

(** C4: [submitData] throws "Device not found" for an unknown device and
    "Device is not active" for a registered device whose [isActive] is false;
    in both cases the program afterwards is the program before (so the
    device's fields, totalRewardsDistributed and rewardVault are unchanged)
    and nothing is emitted. *)
Theorem submitData_rejects_unchanged (p : Program) (deviceId : string)
    (qualityData : NetworkData.t) (now : float) :
  (devices p !! deviceId = None ->
   submitData p deviceId qualityData now = mkCall NotFound p [])
  /\ (forall device : Device.t,
        devices p !! deviceId = Some device ->
        Device.isActive device = false ->
        submitData p deviceId qualityData now = mkCall InactiveDevice p []
        /\ devices (after (submitData p deviceId qualityData now)) !! deviceId
           = Some device).
Proof.
  split.
  - intros Hnone. unfold submitData. now rewrite Hnone.
  - intros device Hfound Hinactive. unfold submitData.
    rewrite Hfound, Hinactive. cbn [negb after]. now split.
Qed.

Lemma submitData_rejects_unchanged_witness :
  submitData oneDevice "nobody" (sample tokyo) 2000 = mkCall NotFound oneDevice []
  /\ submitData switchedOff "phone-1" (sample tokyo) 2000
     = mkCall InactiveDevice switchedOff [].
Proof.
  split.
  - apply (submitData_rejects_unchanged oneDevice "nobody" (sample tokyo) 2000).
    reflexivity.
  - eapply (submitData_rejects_unchanged switchedOff "phone-1" (sample tokyo) 2000);
      reflexivity.
Defined.

(** C10: every [registerDevice], also for an id that is already registered,
    stores a fresh device (totalUptime 0, totalRewardsEarned 0, isActive
    true) under the id, whatever was stored there, leaves the other devices
    alone and adds one to totalDevices; registering the same id twice gives
    totalDevices 2 with one stored device. *)
Theorem registerDevice_replaces_and_counts (p : Program) (deviceId : string)
    (deviceType : DeviceType) (location : Location) (owner : string) (now : float) :
  let call := registerDevice p deviceId deviceType location owner now in
  completion call = Return "mock_tx_register_device_123"
  /\ devices (after call) !! deviceId
     = Some (Device.mk deviceId owner deviceType location true 0 0 now)
  /\ (forall other : string,
        other <> deviceId -> devices (after call) !! other = devices p !! other)
  /\ ProgramState.totalDevices (programState (after call))
     = ProgramState.totalDevices (programState p) + 1
  /\ ProgramState.totalDevices (programState registeredTwice) = 2
  /\ size (devices registeredTwice) = 1%nat.
Proof.
  cbn zeta. repeat split.
  - cbn [registerDevice after devices]. apply lookup_insert_eq.
  - intros other Hother. cbn [registerDevice after devices].
    now apply lookup_insert_ne.
Qed.

(** Registering a second id leaves the first device as it was. *)
Lemma registerDevice_replaces_and_counts_witness :
  devices (after (registerDevice oneDevice "router-1" Router tokyo "bob" 2000)) !! "phone-1"
  = Some phone1.
Proof.
  destruct (registerDevice_replaces_and_counts oneDevice "router-1" Router tokyo "bob" 2000)
    as (_ & _ & Hother & _).
  rewrite (Hother "phone-1"); [ reflexivity | discriminate ].
Defined.

End RewardEngineFacts.

(** ** The aggregation bridge *)

Module BridgeFacts.
Import JS Bridge BridgeSamples.
Local Open Scope string_scope.
Local Open Scope float_scope.

Section Runtime.

Variables Math_sin Math_cos : float -> float.
Variable Math_atan2 : float -> float -> float.

Local Abbreviation aggregate := (aggregate Math_sin Math_cos Math_atan2).
Local Abbreviation aggregateNetworkData :=
  (aggregateNetworkData Math_sin Math_cos Math_atan2).

(** The clock reading reaches the output only as its [timestamp]. *)
Lemma aggregate_timestamp (submissions : list DataSubmission.t) (now : float) :
  AggregatedNetworkData.timestamp (aggregate submissions now) = now.
Proof.
  unfold Bridge.aggregate, processDataSubmissions.
  now destruct (length submissions =? 0)%nat.
Qed.

(** The filter arguments are not used: the record set is always empty. *)
Lemma aggregateNetworkData_empty (timeRange : TimeRange) (region : option Region.t)
    (now : float) :
  aggregateNetworkData timeRange region now
  = AggregatedNetworkData.mk (Region.mk 0 0 0) 0 0 0 0 0 0 now.
Proof. reflexivity. Qed.

(** C2 (amended): two runs of the bridge aggregation on the same record set,
    at clock readings [now1] and [now2], agree on the rounded region and on
    every metric; each [timestamp] is the clock reading of its run, so the
    second output is the first with its [timestamp] replaced, and the two are
    identical when the readings are.  [aggregateNetworkData] runs it on the
    empty record set for every time range and region. *)
Theorem aggregate_twice (submissions : list DataSubmission.t) (now1 now2 : float) :
  let a1 := aggregate submissions now1 in
  let a2 := aggregate submissions now2 in
  AggregatedNetworkData.region a1 = AggregatedNetworkData.region a2
  /\ AggregatedNetworkData.averageSignalStrength a1
     = AggregatedNetworkData.averageSignalStrength a2
  /\ AggregatedNetworkData.averageLatency a1 = AggregatedNetworkData.averageLatency a2
  /\ AggregatedNetworkData.averageThroughput a1
     = AggregatedNetworkData.averageThroughput a2
  /\ AggregatedNetworkData.averageAvailability a1
     = AggregatedNetworkData.averageAvailability a2
  /\ AggregatedNetworkData.deviceCount a1 = AggregatedNetworkData.deviceCount a2
  /\ AggregatedNetworkData.dataPoints a1 = AggregatedNetworkData.dataPoints a2
  /\ AggregatedNetworkData.timestamp a1 = now1
  /\ AggregatedNetworkData.timestamp a2 = now2
  /\ a2 = {| AggregatedNetworkData.region := AggregatedNetworkData.region a1;
             AggregatedNetworkData.averageSignalStrength :=
               AggregatedNetworkData.averageSignalStrength a1;
             AggregatedNetworkData.averageLatency := AggregatedNetworkData.averageLatency a1;
             AggregatedNetworkData.averageThroughput :=
               AggregatedNetworkData.averageThroughput a1;
             AggregatedNetworkData.averageAvailability :=
               AggregatedNetworkData.averageAvailability a1;
             AggregatedNetworkData.deviceCount := AggregatedNetworkData.deviceCount a1;
             AggregatedNetworkData.dataPoints := AggregatedNetworkData.dataPoints a1;
             AggregatedNetworkData.timestamp := now2 |}
  /\ (forall (timeRange : TimeRange) (region : option Region.t),
        aggregateNetworkData timeRange region now1 = aggregate [] now1).
Proof.
  cbv zeta. unfold Bridge.aggregate, processDataSubmissions.
  destruct (length submissions =? 0)%nat; cbn; repeat split.
Qed.

End Runtime.

(** C2, as stated, fails: two runs of [aggregateNetworkData] on the same time
    range (no region), at clock readings 1000 and 2000, are not identical;
    they differ in [timestamp]. *)
Lemma aggregateNetworkData_twice_differs :
  ~ (forall (Math_sin Math_cos : float -> float) (Math_atan2 : float -> float -> float),
       aggregateNetworkData Math_sin Math_cos Math_atan2 window None 1000
       = aggregateNetworkData Math_sin Math_cos Math_atan2 window None 2000).
Proof.
  intros Hsame.
  specialize (Hsame (fun x => x) (fun x => x) (fun y _ => y)).
  rewrite !aggregateNetworkData_empty in Hsame.
  apply (f_equal AggregatedNetworkData.timestamp) in Hsame. cbn in Hsame.
  revert Hsame. apply JSFacts.float_neq. vm_compute. discriminate.
Qed.

End BridgeFacts.

(** ** The insights generator *)

Module InsightsFacts.
Import JS InsightsSamples KotlinFacts.
Local Open Scope string_scope.
Local Open Scope float_scope.

(** A number above 0.9 is above 0.8. *)
Lemma above_09_above_08 (q : float) : (0.9 <? q) = true -> (0.8 <? q) = true.
Proof.
  rewrite !FloatAxioms.ltb_spec. unfold SFltb, SFcompare.
  let v := eval vm_compute in (Prim2SF 0.9) in change (Prim2SF 0.9) with v.
  let v := eval vm_compute in (Prim2SF 0.8) in change (Prim2SF 0.8) with v.
  destruct (Prim2SF q) as [s | s | | s m e]; try destruct s; try discriminate; auto.
  destruct (Z.compare_spec (-53) e); auto; try discriminate.
  rewrite !Pos.compare_cont_spec. cbn [Pos.switch_Eq].
  destruct (Pos.compare_spec 8106479329266893 m) as [ | Hlt | ]; try discriminate.
  intros _.
  assert (Hc : (7205759403792794 ?= m)%positive = Lt).
  { apply Pos.compare_lt_iff. eapply Pos.lt_trans; [ | exact Hlt ]. reflexivity. }
  now rewrite Hc.
Qed.

(** A number above 0.8 is not below 0.6. *)
Lemma above_08_not_below_06 (q : float) : (0.8 <? q) = true -> (q <? 0.6) = false.
Proof.
  rewrite !FloatAxioms.ltb_spec. unfold SFltb, SFcompare.
  let v := eval vm_compute in (Prim2SF 0.8) in change (Prim2SF 0.8) with v.
  let v := eval vm_compute in (Prim2SF 0.6) in change (Prim2SF 0.6) with v.
  destruct (Prim2SF q) as [s | s | | s m e]; try destruct s; try discriminate; auto.
  rewrite (Z.compare_antisym (-53) e).
  destruct (Z.compare (-53) e); cbn [CompOpp]; auto; try discriminate.
  rewrite !Pos.compare_cont_spec. cbn [Pos.switch_Eq].
  destruct (Pos.compare_spec 7205759403792794 m) as [ | Hlt | ]; try discriminate.
  intros _.
  assert (Hc : (m ?= 5404319552844595)%positive = Gt).
  { apply Pos.compare_gt_iff. eapply Pos.lt_trans; [ | exact Hlt ]. reflexivity. }
  now rewrite Hc.
Qed.

(** The average of the mock network is the mean of the records. *)
Lemma avgQuality_meanAvailability (data : list MockCorda.NetworkData.t) :
  MockCorda.avgQuality data = meanAvailability data.
Proof. now destruct data. Qed.

(** C9 (amended): in the mock network's [generateRecommendations] the
    average quality of a set of records is the mean of their
    averageAvailability (0 for no record) and each category has a test of
    its own on it: below 0.6 gives the two infrastructure-investment
    suggestions, above 0.8 the two partnership-opportunity suggestions, above
    0.9 the two cost-optimization suggestions.  So a set whose mean is above
    0.9 gets the partnership and the cost-optimization suggestions and no
    infrastructure suggestion, and a set whose mean is below 0.6 gets the
    infrastructure suggestions alone.  The Kotlin service's
    [generateRecommendations] has no categories: for every set of states it
    returns exactly one recommendation. *)
Theorem generateRecommendations_independent (data : list MockCorda.NetworkData.t)
    (states : list Corda.NetworkDataState.t) :
  let q := meanAvailability data in
  let r := MockCorda.generateRecommendations data in
  MockCorda.Recommendations.infrastructureInvestment r
  = (if q <? 0.6 then
       ["Invest in network infrastructure upgrades"; "Deploy additional base stations"]
     else [])
  /\ MockCorda.Recommendations.partnershipOpportunities r
     = (if 0.8 <? q then
          ["Offer premium roaming services"; "Expand into adjacent markets"]
        else [])
  /\ MockCorda.Recommendations.costOptimization r
     = (if 0.9 <? q then
          ["Optimize network resources"; "Implement automated management"]
        else [])
  /\ ((0.9 <? q) = true ->
      r = MockCorda.Recommendations.mk []
            ["Offer premium roaming services"; "Expand into adjacent markets"]
            ["Optimize network resources"; "Implement automated management"])
  /\ ((q <? 0.6) = true ->
      r = MockCorda.Recommendations.mk
            ["Invest in network infrastructure upgrades"; "Deploy additional base stations"]
            [] [])
  /\ length (Corda.generateRecommendations states) = 1%nat.
Proof.
  cbv zeta. unfold MockCorda.generateRecommendations.
  rewrite avgQuality_meanAvailability.
  cbn [MockCorda.Recommendations.infrastructureInvestment
       MockCorda.Recommendations.partnershipOpportunities
       MockCorda.Recommendations.costOptimization].
  split; [ reflexivity | split; [ reflexivity | split; [ reflexivity | split; [ | split ] ] ] ].
  - intros Habove. pose proof (above_09_above_08 _ Habove) as Habove8.
    now rewrite (above_08_not_below_06 _ Habove8), Habove8, Habove.
  - intros Hbelow.
    destruct (0.8 <? meanAvailability data) eqn:Habove8.
    + apply above_08_not_below_06 in Habove8. congruence.
    + destruct (0.9 <? meanAvailability data) eqn:Habove9.
      * apply above_09_above_08 in Habove9. congruence.
      * now rewrite Hbelow.
  - unfold Corda.generateRecommendations.
    destruct (_ <? _); [ reflexivity | ].
    destruct (_ <? _); [ reflexivity | ].
    now destruct (_ <? _)%nat.
Qed.

(** Two records of availability 0.95 and 0.93: the mean is above 0.9. *)
Lemma generateRecommendations_independent_witness :
  MockCorda.generateRecommendations [available 0.95; available 0.93]
  = MockCorda.Recommendations.mk []
      ["Offer premium roaming services"; "Expand into adjacent markets"]
      ["Optimize network resources"; "Implement automated management"].
Proof.
  destruct (generateRecommendations_independent [available 0.95; available 0.93] [])
    as (_ & _ & _ & Hboth & _).
  exact (Hboth eq_refl).
Defined.

(** C9, as stated, fails on the Kotlin service: for one state of quality
    0.95 the average quality is above 0.9, and the recommendations are one
    sentence, on the coverage; neither a partnership nor a cost-optimization
    suggestion is given. *)
Lemma Kotlin_recommendations_exclusive :
  (0.9 <? Corda.average
            (map (fun it => Corda.NetworkMetrics.qualityScore
                              (Corda.NetworkDataState.metrics it))
               [NetworkDataSamples.tokyoState "a" 40 0.95]))
  = true
  /\ Corda.generateRecommendations [NetworkDataSamples.tokyoState "a" 40 0.95]
     = ["Expand network coverage in underserved areas"].
Proof. split; reflexivity. Qed.

Example generateRecommendations_partnership_only :
  MockCorda.generateRecommendations [available 0.85]
  = MockCorda.Recommendations.mk []
      ["Offer premium roaming services"; "Expand into adjacent markets"] [].
Proof. reflexivity. Qed.

Example generateRecommendations_investment_only :
  MockCorda.generateRecommendations []
  = MockCorda.Recommendations.mk
      ["Invest in network infrastructure upgrades"; "Deploy additional base stations"]
      [] [].
Proof. reflexivity. Qed.

Example generateRecommendations_none :
  MockCorda.generateRecommendations [available 0.7] = MockCorda.Recommendations.mk [] [] [].
Proof. reflexivity. Qed.

(** The Kotlin service takes the first matching branch only and has no
    categories. *)
Example Corda_generateRecommendations_single :
  Corda.generateRecommendations [covering 3 10]
  = ["Expand network coverage in underserved areas"].
Proof. reflexivity. Qed.

(** C8 (amended): for every list of network-data states whose device counts
    add up to a value in the range of [Int], [calculateCoverageDensity] is
    the sum of deviceCount over the sum of pi * radius^2, and 0 for the empty
    list; for device counts {3, 2} and radii {10, 20} it is
    5 / (pi * 100 + pi * 400). *)
Theorem calculateCoverageDensity_in_range (data : list Corda.NetworkDataState.t) :
  Corda.inInt (totalDevices data) ->
  Corda.calculateCoverageDensity data = coverageDensity_spec data
  /\ Corda.calculateCoverageDensity [] = 0
  /\ (forall a b : Corda.NetworkDataState.t,
        Corda.deviceCount a = 3%Z -> Corda.deviceCount b = 2%Z ->
        Corda.radius a = 10 -> Corda.radius b = 20 ->
        Corda.calculateCoverageDensity [a; b] = 5 / (Math_PI * 100 + Math_PI * 400)).
Proof.
  intros Hrange. split; [ | split; [ reflexivity | ] ].
  - destruct data as [ | it data]; [ reflexivity | ].
    unfold Corda.calculateCoverageDensity, coverageDensity_spec.
    rewrite sumBy_wrapInt. fold (totalDevices (it :: data)).
    now rewrite (wrapInt_inInt _ Hrange).
  - intros a b Ha Hb Hra Hrb.
    unfold Corda.calculateCoverageDensity, Corda.sumBy, Corda.sumByDouble.
    cbn [fold_left]. now rewrite Ha, Hb, Hra, Hrb.
Qed.

Lemma calculateCoverageDensity_in_range_witness :
  Corda.calculateCoverageDensity [covering 3 10; covering 2 20]
  = coverageDensity_spec [covering 3 10; covering 2 20].
Proof.
  refine (proj1 (calculateCoverageDensity_in_range [covering 3 10; covering 2 20] _)).
  unfold Corda.inInt. cbn. lia.
Defined.

(** C8, as stated, fails when the device counts leave the range of [Int]:
    for counts 2147483647 and 1 (radius 1 each) the sum wraps to
    -2147483648 and the density is negative, where the formula is positive. *)
Lemma calculateCoverageDensity_wraps :
  Corda.calculateCoverageDensity [covering 2147483647 1; covering 1 1]
  <> coverageDensity_spec [covering 2147483647 1; covering 1 1]
  /\ (Corda.calculateCoverageDensity [covering 2147483647 1; covering 1 1] <? 0) = true
  /\ (0 <? coverageDensity_spec [covering 2147483647 1; covering 1 1]) = true.
Proof.
  repeat split.
  apply JSFacts.float_neq. vm_compute. discriminate.
Qed.

(** The mock network's [coverageDensity] is another quantity: the mean
    device count per record. *)
Example MockCorda_coverageDensity_mean :
  MockCorda.coverageDensity [available 0.95; available 0.93] = 5.
Proof. reflexivity. Qed.

End InsightsFacts.

(** ** The roaming-agreement lifecycle *)

Module AgreementFacts.
Import JS Corda AgreementSamples KotlinFacts.
Local Open Scope string_scope.
Local Open Scope Z_scope.

(** C6: for an agreement created at a valid instant T with a duration of
    d >= 0 days, at every valid instant strictly after T + d days
    [isExpired()] returns true, whatever the stored status; so [isActive()]
    is false there even when the status is ACTIVE. *)
Theorem isExpired_after_duration (a : RoamingAgreementState.t) (now : Instant.t) :
  Instant.valid (RoamingAgreementState.creationTime a) ->
  Instant.valid now ->
  0 <= AgreementTerms.duration (RoamingAgreementState.terms a) ->
  afterDays (RoamingAgreementState.creationTime a)
    (AgreementTerms.duration (RoamingAgreementState.terms a)) now ->
  RoamingAgreementState.isExpired a now = inr true
  /\ RoamingAgreementState.isActive a now = inr false.
Proof.
  unfold Instant.valid, afterDays, Instant.MIN_SECOND, Instant.MAX_SECOND.
  intros [Hcs Hcn] [Hns Hnn] Hd Hafter.
  assert (Hexpired : RoamingAgreementState.isExpired a now = inr true).
  { unfold RoamingAgreementState.isExpired.
    set (d := AgreementTerms.duration (RoamingAgreementState.terms a)) in *.
    set (c := RoamingAgreementState.creationTime a) in *.
    rewrite wrapLong_inLong by (unfold inLong; lia).
    unfold Instant.plusSeconds, Instant.MIN_SECOND, Instant.MAX_SECOND.
    destruct (Z.eqb_spec (d * 86400) 0) as [Hzero | Hpos]; cbn [bind].
    - f_equal. unfold Instant.isBefore.
      apply orb_true_iff. rewrite andb_true_iff, Z.ltb_lt, Z.eqb_eq, Z.ltb_lt. lia.
    - replace ((Instant.epochSecond c + d * 86400 <? - 2 ^ 63)
               || (2 ^ 63 <=? Instant.epochSecond c + d * 86400)) with false
        by (symmetry; apply orb_false_iff; rewrite Z.ltb_ge, Z.leb_gt; lia).
      replace ((Instant.epochSecond c + d * 86400 <? -31557014167219200)
               || (31556889864403199 <? Instant.epochSecond c + d * 86400)) with false
        by (symmetry; apply orb_false_iff; rewrite !Z.ltb_ge; lia).
      cbn [bind]. f_equal. unfold Instant.isBefore.
      cbn [Instant.epochSecond Instant.nano].
      apply orb_true_iff. rewrite andb_true_iff, Z.ltb_lt, Z.eqb_eq, Z.ltb_lt. lia. }
  split; [ exact Hexpired | ].
  unfold RoamingAgreementState.isActive. rewrite Hexpired.
  now destruct (AgreementStatus_eqb (RoamingAgreementState.status a) ACTIVE).
Qed.

(** The spec's example: ACTIVE, created at T with a duration of 1 day, read
    at T + 2 days. *)
Lemma isExpired_after_duration_witness :
  RoamingAgreementState.status (agreement ACTIVE 1 T0 None) = ACTIVE
  /\ RoamingAgreementState.isExpired (agreement ACTIVE 1 T0 None) (daysAfter 2) = inr true
  /\ RoamingAgreementState.isActive (agreement ACTIVE 1 T0 None) (daysAfter 2) = inr false.
Proof.
  split; [ reflexivity | ].
  apply (isExpired_after_duration (agreement ACTIVE 1 T0 None) (daysAfter 2)).
  - unfold Instant.valid, Instant.MIN_SECOND, Instant.MAX_SECOND. cbn. lia.
  - unfold Instant.valid, Instant.MIN_SECOND, Instant.MAX_SECOND. cbn. lia.
  - cbn. lia.
  - unfold afterDays. cbn. lia.
Defined.

Lemma findAgreement_id (vault : Vault) (agreementId : string) (a : RoamingAgreementState.t) :
  findAgreement vault agreementId = Some a ->
  String.eqb (RoamingAgreementState.id a) agreementId = true.
Proof. intros Hfound. exact (proj2 (find_some _ _ Hfound)). Qed.

Lemma not_ACTIVE (status : AgreementStatus) :
  status <> ACTIVE -> AgreementStatus_eqb status ACTIVE = false.
Proof. now destruct status. Qed.

(** Expiry depends on the creation time and the terms only. *)
Lemma isExpired_copy (a : RoamingAgreementState.t) (status : AgreementStatus)
    (lastExecutionTime : Instant.t) (terminationTime : option Instant.t) (now : Instant.t) :
  RoamingAgreementState.isExpired (copy a status lastExecutionTime terminationTime) now
  = RoamingAgreementState.isExpired a now.
Proof. reflexivity. Qed.

(** The contract refuses every Execute and every Terminate transaction whose
    input is not ACTIVE. *)
Lemma verify_input_not_ACTIVE (input output : RoamingAgreementState.t) (now : Instant.t) :
  RoamingAgreementState.status input <> ACTIVE ->
  verify (mkTx [input] [output] Execute) now
  = inl (IllegalArgumentException "Failed requirement: Agreement must be active")
  /\ verify (mkTx [input] [output] Terminate) now
     = inl (IllegalArgumentException
              "Failed requirement: Agreement must be active to terminate").
Proof.
  intros Hstatus. apply not_ACTIVE in Hstatus.
  unfold verify, verifyExecute, verifyTerminate. cbn. now rewrite Hstatus.
Qed.

(** C7 (amended): [terminate] on an agreement that is not ACTIVE throws
    "Agreement must be active to terminate" and leaves the vault as it was;
    on an ACTIVE agreement it replaces the state by a copy with status
    TERMINATED and terminationTime = now.  On a TERMINATED agreement a second
    [terminate] and [execute] both throw and change nothing.  [activate] does
    not look at the status: on a TERMINATED agreement with valid terms that
    is not expired it succeeds and the new state is ACTIVE. *)
Theorem terminate_then_terminated (vault : Vault) (agreementId : string)
    (a : RoamingAgreementState.t) (checkAt stamp verifyAt : Instant.t) :
  findAgreement vault agreementId = Some a ->
  (RoamingAgreementState.status a <> ACTIVE ->
   TerminateRoamingAgreementFlow vault agreementId stamp verifyAt
   = (inl (IllegalArgumentException "Agreement must be active to terminate"), vault))
  /\ (RoamingAgreementState.status a = ACTIVE ->
      let terminated :=
        copy a TERMINATED (RoamingAgreementState.lastExecutionTime a) (Some stamp) in
      TerminateRoamingAgreementFlow vault agreementId stamp verifyAt
      = (inr (mkTx [a] [terminated] Terminate),
         (consume (RoamingAgreementState.id a) vault ++ [terminated])%list))
  /\ (RoamingAgreementState.status a = TERMINATED ->
      TerminateRoamingAgreementFlow vault agreementId stamp verifyAt
      = (inl (IllegalArgumentException "Agreement must be active to terminate"), vault)
      /\ ExecuteRoamingAgreementFlow vault agreementId checkAt stamp verifyAt
         = (inl (IllegalArgumentException "Agreement must be active to execute"), vault))
  /\ (RoamingAgreementState.status a = TERMINATED ->
      AgreementTerms.isValid (RoamingAgreementState.terms a) = true ->
      RoamingAgreementState.isExpired a verifyAt = inr false ->
      let activated :=
        copy a ACTIVE stamp (RoamingAgreementState.terminationTime a) in
      RoamingAgreementState.status activated = ACTIVE
      /\ ActivateRoamingAgreementFlow vault agreementId stamp verifyAt
         = (inr (mkTx [a] [activated] Update),
            (consume (RoamingAgreementState.id a) vault ++ [activated])%list)).
Proof.
  intros Hfound.
  assert (Hguard : RoamingAgreementState.status a <> ACTIVE ->
            TerminateRoamingAgreementFlow vault agreementId stamp verifyAt
            = (inl (IllegalArgumentException "Agreement must be active to terminate"),
               vault)).
  { intros Hstatus. unfold TerminateRoamingAgreementFlow.
    now rewrite Hfound, (not_ACTIVE _ Hstatus). }
  split; [ exact Hguard | ]. split; [ | split ].
  - intros Hstatus terminated. unfold TerminateRoamingAgreementFlow.
    rewrite Hfound, Hstatus. cbn [AgreementStatus_eqb require].
    unfold FinalityFlow, verify, verifyTerminate. cbn. now rewrite Hstatus.
  - intros Hstatus. split.
    + apply Hguard. now rewrite Hstatus.
    + unfold ExecuteRoamingAgreementFlow, RoamingAgreementState.isActive.
      now rewrite Hfound, Hstatus.
  - intros Hstatus Hvalid Hlive activated. split; [ reflexivity | ].
    unfold ActivateRoamingAgreementFlow. rewrite Hfound.
    unfold FinalityFlow, verify, verifyUpdate. cbn.
    rewrite String.eqb_refl, Hvalid. cbn.
    rewrite isExpired_copy, Hlive. reflexivity.
Qed.

Lemma terminate_then_terminated_witness :
  TerminateRoamingAgreementFlow [agreement ACTIVE 30 T0 None] "ra-1" (daysAfter 1)
    (daysAfter 1)
  = (inr (mkTx [agreement ACTIVE 30 T0 None]
            [agreement TERMINATED 30 T0 (Some (daysAfter 1))] Terminate),
     [agreement TERMINATED 30 T0 (Some (daysAfter 1))]).
Proof.
  apply (terminate_then_terminated [agreement ACTIVE 30 T0 None] "ra-1"
           (agreement ACTIVE 30 T0 None) (daysAfter 1) (daysAfter 1) (daysAfter 1));
    reflexivity.
Defined.

(** C7, as stated, fails: the agreement terminated on day 1 is activated on
    day 2 and executed on day 3. *)
Lemma terminated_agreement_reactivated :
  TerminateRoamingAgreementFlow [agreement ACTIVE 30 T0 None] "ra-1" (daysAfter 1)
    (daysAfter 1)
  = (inr (mkTx [agreement ACTIVE 30 T0 None]
            [agreement TERMINATED 30 T0 (Some (daysAfter 1))] Terminate),
     [agreement TERMINATED 30 T0 (Some (daysAfter 1))])
  /\ ActivateRoamingAgreementFlow [agreement TERMINATED 30 T0 (Some (daysAfter 1))] "ra-1"
       (daysAfter 2) (daysAfter 2)
     = (inr (mkTx [agreement TERMINATED 30 T0 (Some (daysAfter 1))]
               [agreement ACTIVE 30 (daysAfter 2) (Some (daysAfter 1))] Update),
        [agreement ACTIVE 30 (daysAfter 2) (Some (daysAfter 1))])
  /\ ExecuteRoamingAgreementFlow [agreement ACTIVE 30 (daysAfter 2) (Some (daysAfter 1))]
       "ra-1" (daysAfter 3) (daysAfter 3) (daysAfter 3)
     = (inr (mkTx [agreement ACTIVE 30 (daysAfter 2) (Some (daysAfter 1))]
               [agreement ACTIVE 30 (daysAfter 3) (Some (daysAfter 1))] Execute),
        [agreement ACTIVE 30 (daysAfter 3) (Some (daysAfter 1))]).
Proof. repeat split. Qed.

End AgreementFacts.

(** ** Migration into Corda *)

Module MigrationFacts.
Import JS Corda MigrationSamples KotlinFacts.
Local Open Scope string_scope.
Local Open Scope Z_scope.

Lemma successes_cons (item : NetworkDataMigrationResult)
    (items : list NetworkDataMigrationResult) :
  successes (item :: items) = (if success item then 1 else 0) + successes items
  /\ failures (item :: items) = (if success item then 0 else 1) + failures items.
Proof.
  unfold successes, failures. cbn [List.filter].
  destruct (success item); cbn [negb length]; lia.
Qed.

Lemma successes_failures (items : list NetworkDataMigrationResult) :
  successes items + failures items = Z.of_nat (length items).
Proof.
  induction items as [ | item items IH]; [ reflexivity | ].
  destruct (successes_cons item items) as [-> ->]. cbn [length].
  destruct (success item); lia.
Qed.

Section Items.

Variable subFlow : nat -> SolanaNetworkData.t -> Try NetworkDataState.t.
Variable toString : Instant.t -> string.

Lemma itemsFrom_length (solanaData : list SolanaNetworkData.t) (i : nat) :
  length (itemsFrom subFlow toString i solanaData) = length solanaData.
Proof.
  revert i. induction solanaData as [ | data rest IH]; intros i; cbn; [ | rewrite IH ];
    reflexivity.
Qed.

Lemma itemsFrom_nth (solanaData : list SolanaNetworkData.t) (i k : nat)
    (data : SolanaNetworkData.t) :
  nth_error solanaData k = Some data ->
  nth_error (itemsFrom subFlow toString i solanaData) k
  = Some (itemFor subFlow toString (i + k) data).
Proof.
  revert i k. induction solanaData as [ | d rest IH]; intros i k; destruct k as [ | k]; cbn;
    try discriminate.
  - intros [= ->]. now rewrite Nat.add_0_r.
  - intros Hk. rewrite (IH (S i) k Hk). do 2 f_equal. lia.
Qed.

Lemma success_itemFor (i : nat) (data : SolanaNetworkData.t) :
  success (itemFor subFlow toString i data)
  = match subFlow i data with inr _ => true | inl _ => false end.
Proof. unfold itemFor. now destruct (subFlow i data). Qed.

(** The loop from position [i] on, with counters that cannot leave [Int]. *)
Lemma migrateFrom_items (solanaData : list SolanaNetworkData.t) (i : nat)
    (done : list NetworkDataMigrationResult) (successCount failureCount : Z) :
  0 <= successCount -> 0 <= failureCount ->
  successCount + failureCount + Z.of_nat (length solanaData) < 2 ^ 31 ->
  migrateFrom subFlow toString i solanaData (done, successCount, failureCount)
  = inr ((done ++ itemsFrom subFlow toString i solanaData)%list,
         successCount + successes (itemsFrom subFlow toString i solanaData),
         failureCount + failures (itemsFrom subFlow toString i solanaData)).
Proof.
  revert i done successCount failureCount.
  induction solanaData as [ | data rest IH]; intros i done sc fc Hsc Hfc Hbound.
  - cbn. rewrite app_nil_r. do 3 f_equal; unfold successes, failures; cbn; lia.
  - cbn [length] in Hbound. rewrite Nat2Z.inj_succ in Hbound.
    cbn [migrateFrom itemsFrom].
    destruct (successes_cons (itemFor subFlow toString i data)
                (itemsFrom subFlow toString (S i) rest)) as [-> ->].
    rewrite success_itemFor. unfold migrateOne, itemFor.
    destruct (subFlow i data) as [e | networkDataState]; cbn [tryCatch bind].
    + rewrite wrapInt_inInt by (unfold inInt; lia). rewrite IH by lia.
      rewrite <- app_assoc. cbn [app]. now rewrite Z.add_0_l, Z.add_assoc.
    + rewrite wrapInt_inInt by (unfold inInt; lia). rewrite IH by lia.
      rewrite <- app_assoc. cbn [app]. now rewrite Z.add_0_l, Z.add_assoc.
Qed.

(** C3 (amended): the Corda flow [MigrateNetworkDataFromSolana] on a batch of
    N records (N an [Int]) never throws: it returns a [MigrationResult] whose
    total is N, whose result list has one entry per record, in order, saying
    whether that record's sub-flow succeeded (with the id of the created
    state) or threw (with the message), and whose successCount and
    failureCount count those entries and add up to N.  The bridge's
    [migrateToCorda] hands over one aggregate and has one outcome for it.
    It returns exactly when the request is accepted and the reply parses to
    a JSON value other than null, and what it returns is the reply's
    [transactionId] member as it is: the id when the reply names one, and
    [undefined] when it has none, as the reply of the repository's own
    endpoint.  In every other case (request failed, response not ok, reply
    not JSON or null) it throws "Failed to migrate data to Corda", and it
    throws nothing else. *)
Theorem migrate_reports_per_item (solanaData : list SolanaNetworkData.t)
    (now : Instant.t) :
  Z.of_nat (length solanaData) < 2 ^ 31 ->
  let items := itemsFrom subFlow toString 0 solanaData in
  MigrateNetworkDataFromSolana subFlow toString solanaData now
  = inr (mkMigrationResult (Z.of_nat (length solanaData)) (successes items)
           (failures items) items now)
  /\ length items = length solanaData
  /\ successes items + failures items = Z.of_nat (length solanaData)
  /\ (forall (i : nat) (data : SolanaNetworkData.t),
        nth_error solanaData i = Some data ->
        nth_error items i = Some (itemFor subFlow toString i data))
  /\ (forall (aggregatedData : Bridge.AggregatedNetworkData.t) (fetched : Bridge.Fetched)
         (message : string),
        Bridge.migrateToCorda aggregatedData fetched = Bridge.Throw message ->
        message = "Failed to migrate data to Corda")
  /\ (forall (aggregatedData : Bridge.AggregatedNetworkData.t) (fetched : Bridge.Fetched)
         (transactionId : option Bridge.Json),
        Bridge.migrateToCorda aggregatedData fetched = Bridge.Return transactionId
        <-> exists (statusText : string) (result : Bridge.Json),
              fetched = Bridge.Response true statusText (Some result)
              /\ result <> Bridge.JNull
              /\ transactionId = Bridge.property result "transactionId")
  /\ (forall (aggregatedData : Bridge.AggregatedNetworkData.t) (statusText : string),
        Bridge.migrateToCorda aggregatedData
          (Bridge.Response true statusText (Some BridgeSamples.replyWithId))
        = Bridge.Return (Some (Bridge.JString "tx-1"))
        /\ Bridge.migrateToCorda aggregatedData
             (Bridge.Response true statusText (Some BridgeSamples.ownServerReply))
           = Bridge.Return None).
Proof.
  intros Hsize items. subst items.
  split; [ | split; [ | split; [ | split; [ | split; [ | split ] ] ] ] ].
  - unfold MigrateNetworkDataFromSolana.
    rewrite migrateFrom_items by lia. reflexivity.
  - apply itemsFrom_length.
  - now rewrite successes_failures, itemsFrom_length.
  - intros i data Hi. exact (itemsFrom_nth solanaData 0 i data Hi).
  - intros aggregatedData fetched message. unfold Bridge.migrateToCorda.
    destruct fetched as [ | [ | ] statusText [ [ | | | | | ] | ] ]; congruence.
  - intros aggregatedData fetched transactionId. unfold Bridge.migrateToCorda. split.
    + destruct fetched as [ | [ | ] statusText [ result | ] ]; try discriminate.
      destruct result; try discriminate; intros [= <-];
        exists statusText; eexists; (split; [ reflexivity | split; [ discriminate | reflexivity ] ]).
    + intros (statusText & result & -> & Hnull & ->).
      now destruct result.
  - intros aggregatedData statusText. split; reflexivity.
Qed.

End Items.

Lemma migrate_reports_per_item_witness :
  MigrateNetworkDataFromSolana secondThrows showSeconds
    [aggregateAt 1700000000; aggregateAt 1700000001] (Instant.mk 1700000200 0)
  = inr (mkMigrationResult 2 1 1
           [mkItem "2023-11-14T22:13:20Z" (Some "uuid-0") true
              "Network data migrated successfully";
            mkItem "2023-11-14T22:13:21Z" None false
              "Failed to migrate network data: notary unavailable"]
           (Instant.mk 1700000200 0)).
Proof.
  apply (migrate_reports_per_item secondThrows showSeconds
           [aggregateAt 1700000000; aggregateAt 1700000001] (Instant.mk 1700000200 0)).
  cbn. lia.
Defined.

(** C3, as stated, fails on the bridge: when the Corda endpoint answers 503
    the migration of the aggregate of a 40-record batch throws one error for
    the whole batch, and no per-item result exists. *)
Lemma migrateToCorda_all_or_nothing :
  Bridge.migrateToCorda BridgeSamples.batchOf40
    (Bridge.Response false "Service Unavailable" None)
  = Bridge.Throw "Failed to migrate data to Corda".
Proof. reflexivity. Qed.

End MigrationFacts.

(** * Further properties of the modelled code *)

(** ** NaN in binary64 arithmetic *)

Module FloatFacts.
Local Open Scope float_scope.

Lemma Prim2SF_nan : Prim2SF nan = S754_nan.
Proof. reflexivity. Qed.

Lemma add_nan_r (x : float) : x + nan = nan.
Proof.
  apply Prim2SF_inj. rewrite add_spec, Prim2SF_nan.
  now destruct (Prim2SF x) as [ [ | ] | [ | ] | | ].
Qed.

Lemma add_nan_l (x : float) : nan + x = nan.
Proof. apply Prim2SF_inj. now rewrite add_spec, Prim2SF_nan. Qed.

Lemma sub_nan_r (x : float) : x - nan = nan.
Proof.
  apply Prim2SF_inj. rewrite sub_spec, Prim2SF_nan.
  now destruct (Prim2SF x) as [ [ | ] | [ | ] | | ].
Qed.

Lemma sub_nan_l (x : float) : nan - x = nan.
Proof. apply Prim2SF_inj. now rewrite sub_spec, Prim2SF_nan. Qed.

Lemma mul_nan_r (x : float) : x * nan = nan.
Proof.
  apply Prim2SF_inj. rewrite mul_spec, Prim2SF_nan.
  now destruct (Prim2SF x) as [ [ | ] | [ | ] | | ].
Qed.

Lemma mul_nan_l (x : float) : nan * x = nan.
Proof. apply Prim2SF_inj. now rewrite mul_spec, Prim2SF_nan. Qed.

Lemma div_nan_l (x : float) : nan / x = nan.
Proof. apply Prim2SF_inj. now rewrite div_spec, Prim2SF_nan. Qed.

Lemma div_nan_r (x : float) : x / nan = nan.
Proof.
  apply Prim2SF_inj. rewrite div_spec, Prim2SF_nan.
  now destruct (Prim2SF x) as [ [ | ] | [ | ] | | ].
Qed.

(** A sum that meets NaN is NaN. *)
Lemma fold_sum_nan {A : Type} (f : A -> float) (xs : list A) :
  fold_left (fun sum x => sum + f x) xs nan = nan.
Proof.
  induction xs as [ | x xs IH]; [ reflexivity | ].
  cbn [fold_left]. now rewrite add_nan_l.
Qed.

Lemma fold_sum_meets_nan {A : Type} (f : A -> float) (xs : list A) (x : A) (start : float) :
  In x xs -> f x = nan -> fold_left (fun sum x => sum + f x) xs start = nan.
Proof.
  revert start. induction xs as [ | y xs IH]; intros start Hin Hnan; [ destruct Hin | ].
  cbn [fold_left]. destruct Hin as [-> | Hin].
  - rewrite Hnan, add_nan_r. apply fold_sum_nan.
  - now apply IH.
Qed.

(** No number is below, above or equal to NaN. *)
Lemma leb_nan_l (x : float) : (nan <=? x) = false.
Proof. now rewrite FloatAxioms.leb_spec, Prim2SF_nan. Qed.

Lemma leb_nan_r (x : float) : (x <=? nan) = false.
Proof.
  rewrite FloatAxioms.leb_spec, Prim2SF_nan.
  now destruct (Prim2SF x) as [ [ | ] | [ | ] | | ].
Qed.

Lemma ltb_nan_l (x : float) : (nan <? x) = false.
Proof. now rewrite FloatAxioms.ltb_spec, Prim2SF_nan. Qed.

Lemma ltb_nan_r (x : float) : (x <? nan) = false.
Proof.
  rewrite FloatAxioms.ltb_spec, Prim2SF_nan.
  now destruct (Prim2SF x) as [ [ | ] | [ | ] | | ].
Qed.

End FloatFacts.

(** ** The mock Solana program: gating, statistics and missing checks *)

Module RewardMoreFacts.
Import JS MockSolana RewardSamples RewardMoreSamples FloatFacts.
Local Open Scope string_scope.
Local Open Scope float_scope.

(** X1: [toggleDeviceStatus] throws "Device not found" for an unknown id and
    changes nothing; for a registered active device it switches the device
    off, after which [submitData] is rejected as inactive, and a second
    toggle switches it on again with its uptime, rewards and location
    untouched, after which a submission is rewarded as before the toggles.
    Neither toggle touches the counters, the vault or another device. *)
Theorem toggle_gates_submit (p : Program) (deviceId : string) (qualityData : NetworkData.t)
    (t1 t2 t3 : float) :
  (devices p !! deviceId = None ->
   toggleDeviceStatus p deviceId t1 = mkCall NotFound p [])
  /\ (forall device : Device.t,
        devices p !! deviceId = Some device ->
        Device.isActive device = true ->
        let off := after (toggleDeviceStatus p deviceId t1) in
        let on := after (toggleDeviceStatus off deviceId t2) in
        submitData off deviceId qualityData t3 = mkCall InactiveDevice off []
        /\ devices on !! deviceId
           = Some (Device.mk (Device.id device) (Device.owner device)
                     (Device.deviceType device) (Device.location device) true
                     (Device.totalUptime device) (Device.totalRewardsEarned device) t2)
        /\ emitted (submitData on deviceId qualityData t3)
           = emitted (submitData p deviceId qualityData t3)
        /\ programState on = programState p
        /\ rewardVault on = rewardVault p
        /\ (forall other : string,
              other <> deviceId -> devices on !! other = devices p !! other)).
Proof.
  split.
  - intros Hnone. unfold toggleDeviceStatus. now rewrite Hnone.
  - intros device Hfound Hactive off on.
    assert (Hoff : off
              = {| devices :=
                     <[deviceId :=
                         Device.mk (Device.id device) (Device.owner device)
                           (Device.deviceType device) (Device.location device) false
                           (Device.totalUptime device) (Device.totalRewardsEarned device)
                           t1]> (devices p);
                   programState := programState p;
                   rewardVault := rewardVault p;
                   isSimulating := isSimulating p |}).
    { subst off. unfold toggleDeviceStatus. now rewrite Hfound, Hactive. }
    assert (Hon : on
              = {| devices :=
                     <[deviceId :=
                         Device.mk (Device.id device) (Device.owner device)
                           (Device.deviceType device) (Device.location device) true
                           (Device.totalUptime device) (Device.totalRewardsEarned device)
                           t2]> (devices p);
                   programState := programState p;
                   rewardVault := rewardVault p;
                   isSimulating := isSimulating p |}).
    { subst on. rewrite Hoff. unfold toggleDeviceStatus. cbn [devices].
      rewrite lookup_insert_eq. cbn [after devices programState rewardVault isSimulating
        Device.isActive Device.id Device.owner Device.deviceType Device.location
        Device.totalUptime Device.totalRewardsEarned negb].
      now rewrite insert_insert_eq. }
    split; [ | split; [ | split; [ | split; [ | split ] ] ] ].
    + rewrite Hoff. unfold submitData. cbn [devices].
      now rewrite lookup_insert_eq.
    + rewrite Hon. cbn [devices]. apply lookup_insert_eq.
    + rewrite Hon. unfold submitData. cbn [devices].
      rewrite lookup_insert_eq, Hfound, Hactive. reflexivity.
    + now rewrite Hon.
    + now rewrite Hon.
    + intros other Hother. rewrite Hon. cbn [devices]. now apply lookup_insert_ne.
Qed.

Lemma toggle_gates_submit_witness :
  submitData switchedOff "phone-1" (sample tokyo) 2000
  = mkCall InactiveDevice switchedOff [].
Proof.
  destruct (toggle_gates_submit oneDevice "phone-1" (sample tokyo) 1500 1600 2000)
    as [_ Hgate].
  destruct (Hgate phone1 eq_refl eq_refl) as [Hoff _]. exact Hoff.
Defined.

(** X2: a submission that follows [registerDevice] for the same id is always
    accepted, whatever was stored under the id before (a deactivated device
    is active again after re-registration), and is rewarded with the bonus of
    uptime 0; the stored device then has uptime 1 and that reward as its
    total. *)
Theorem registered_device_submits (p : Program) (deviceId : string)
    (deviceType : DeviceType) (location : Location) (owner : string) (registeredAt : float)
    (qualityData : NetworkData.t) (now : float) :
  let registered :=
    after (registerDevice p deviceId deviceType location owner registeredAt) in
  let call := submitData registered deviceId qualityData now in
  let reward := calculateReward qualityData 0 in
  let device' :=
    Device.mk deviceId owner deviceType (NetworkData.location qualityData) true
      (0 + 1) (0 + reward) now in
  completion call = Return "mock_tx_submit_data_123"
  /\ emitted call = [dataSubmitted deviceId qualityData reward; deviceUpdated device']
  /\ devices (after call) !! deviceId = Some device'
  /\ ProgramState.totalDevices (programState (after call))
     = ProgramState.totalDevices (programState p) + 1.
Proof.
  cbv zeta. unfold submitData, registerDevice. cbn [after devices].
  rewrite lookup_insert_eq. cbn. rewrite lookup_insert_eq. repeat split.
Qed.

(** X3: in [getNetworkStats], totalDevices is the number of stored devices
    (not the counter of registrations), and as soon as one stored device is
    active and has never submitted (uptime 0, rewards 0) the reported
    averageQuality is NaN, because its share is 0 / 0. *)
Theorem getNetworkStats_fresh_device (p : Program) (values : list Device.t)
    (deviceId : string) (device : Device.t) :
  storedDevices p values ->
  devices p !! deviceId = Some device ->
  Device.isActive device = true ->
  Device.totalUptime device = 0 ->
  Device.totalRewardsEarned device = 0 ->
  NetworkStats.totalDevices (getNetworkStats p values) = of_nat (size (devices p))
  /\ NetworkStats.averageQuality (getNetworkStats p values) = nan.
Proof.
  unfold storedDevices. intros Hvalues Hfound Hactive Huptime Hrewards.
  assert (Hin : In device values).
  { apply list_elem_of_In. rewrite Hvalues.
    apply list_elem_of_fmap. exists (deviceId, device). split; [ reflexivity | ].
    now apply elem_of_map_to_list. }
  split.
  - cbn. now rewrite Hvalues, length_fmap, length_map_to_list.
  - cbn [getNetworkStats NetworkStats.averageQuality].
    assert (Hactives : In device (List.filter Device.isActive values)).
    { apply filter_In. now split. }
    destruct (List.filter Device.isActive values) as [ | d actives] eqn:Hfilter;
      [ destruct Hactives | ].
    cbn [length Nat.ltb Nat.leb].
    rewrite (fold_sum_meets_nan
               (fun d => Device.totalRewardsEarned d / Device.totalUptime d)
               (d :: actives) device 0 Hactives).
    + apply div_nan_l.
    + now rewrite Huptime, Hrewards.
Qed.

Lemma getNetworkStats_fresh_device_witness :
  NetworkStats.averageQuality (getNetworkStats oneDevice [phone1]) = nan.
Proof.
  refine (proj2 (getNetworkStats_fresh_device oneDevice [phone1] "phone-1" phone1
                   _ eq_refl eq_refl eq_refl eq_refl)).
  unfold storedDevices. vm_compute. reflexivity.
Defined.

Lemma calculateReward_nan (qualityData : NetworkData.t) (uptime : float) :
  NetworkData.availability qualityData = nan ->
  calculateReward qualityData uptime = nan.
Proof.
  intros Hnan. unfold calculateReward. rewrite Hnan.
  now rewrite mul_nan_r, mul_nan_l, mul_nan_r.
Qed.

(** X4: [submitData] does not validate the telemetry: a submission whose
    availability is NaN is accepted with a NaN reward, which turns the
    device's total, totalRewardsDistributed and the vault into NaN; and once
    the vault is NaN it is NaN after every later [submitData]. *)
Theorem nan_availability_poisons (p : Program) (deviceId : string) (device : Device.t)
    (qualityData : NetworkData.t) (now : float) :
  devices p !! deviceId = Some device ->
  Device.isActive device = true ->
  NetworkData.availability qualityData = nan ->
  let call := submitData p deviceId qualityData now in
  completion call = Return "mock_tx_submit_data_123"
  /\ emitted call
     = [dataSubmitted deviceId qualityData nan;
        deviceUpdated
          (Device.mk (Device.id device) (Device.owner device) (Device.deviceType device)
             (NetworkData.location qualityData) true (Device.totalUptime device + 1)
             nan now)]
  /\ ProgramState.totalRewardsDistributed (programState (after call)) = nan
  /\ rewardVault (after call) = nan
  /\ (forall (later : Program) (anyId : string) (anyData : NetworkData.t) (t : float),
        rewardVault later = nan ->
        rewardVault (after (submitData later anyId anyData t)) = nan).
Proof.
  intros Hfound Hactive Hnan call. subst call. unfold submitData at 1 2 3 4.
  rewrite Hfound, Hactive. cbn [negb completion emitted after programState rewardVault
    ProgramState.totalRewardsDistributed].
  rewrite (calculateReward_nan _ _ Hnan), !add_nan_r, sub_nan_r.
  repeat split.
  intros later anyId anyData t Hvault. unfold submitData.
  destruct (devices later !! anyId) as [d | ]; [ | exact Hvault ].
  destruct (Device.isActive d); cbn [negb after rewardVault]; [ | exact Hvault ].
  rewrite Hvault. apply sub_nan_l.
Qed.

Lemma nan_availability_poisons_witness :
  rewardVault (after (submitData oneDevice "phone-1" garbled 2000)) = nan.
Proof.
  destruct (nan_availability_poisons oneDevice "phone-1" phone1 garbled 2000
              eq_refl eq_refl eq_refl) as (_ & _ & _ & Hvault & _).
  exact Hvault.
Defined.

(** X5: [submitData] never looks at the vault: with any balance in the vault
    the call completes alike and emits the same reward, and the reward is
    subtracted without a check, so a vault of 0 goes to minus the reward. *)
Theorem submitData_ignores_vault (p : Program) (balance : float) (deviceId : string)
    (qualityData : NetworkData.t) (now : float) :
  completion (submitData (withVault p balance) deviceId qualityData now)
  = completion (submitData p deviceId qualityData now)
  /\ emitted (submitData (withVault p balance) deviceId qualityData now)
     = emitted (submitData p deviceId qualityData now)
  /\ (forall device : Device.t,
        devices p !! deviceId = Some device ->
        Device.isActive device = true ->
        rewardVault (after (submitData (withVault p balance) deviceId qualityData now))
        = balance - calculateReward qualityData (Device.totalUptime device)).
Proof.
  unfold submitData, withVault. cbn [devices programState rewardVault].
  destruct (devices p !! deviceId) as [d | ]; [ | repeat split; discriminate ].
  destruct (Device.isActive d) eqn:Hactive; cbn [negb]; repeat split.
  - now intros device [= <-] _.
  - intros device [= <-] Hdevice. congruence.
Qed.

Lemma submitData_ignores_vault_witness :
  rewardVault (after (submitData (withVault oneDevice 0) "phone-1" (sample tokyo) 2000))
  = -2223.
Proof.
  destruct (submitData_ignores_vault oneDevice 0 "phone-1" (sample tokyo) 2000)
    as (_ & _ & Hvault).
  rewrite (Hvault phone1 eq_refl eq_refl). reflexivity.
Defined.

Lemma reachable_own_id (p : Program) :
  reachable p ->
  forall (deviceId : string) (device : Device.t),
    devices p !! deviceId = Some device -> Device.id device = deviceId.
Proof.
  induction 1 as [ | p deviceId deviceType location owner now _ IH
                   | p deviceId qualityData now _ IH
                   | p deviceId now _ IH | p _ IH ]; intros k d.
  - cbn. now rewrite lookup_empty.
  - cbn. intros Hfound. apply lookup_insert_Some in Hfound.
    now destruct Hfound as [[<- <-] | [_ Hfound]]; [ | apply IH ].
  - unfold submitData.
    destruct (devices p !! deviceId) as [device | ] eqn:Hdevice; [ | apply IH ].
    destruct (Device.isActive device); cbn [negb after]; [ | apply IH ].
    cbn [devices]. intros Hfound. apply lookup_insert_Some in Hfound.
    destruct Hfound as [[<- <-] | [_ Hfound]]; [ | now apply IH ].
    cbn. now apply IH.
  - unfold toggleDeviceStatus.
    destruct (devices p !! deviceId) as [device | ] eqn:Hdevice; [ | apply IH ].
    cbn. intros Hfound. apply lookup_insert_Some in Hfound.
    destruct Hfound as [[<- <-] | [_ Hfound]]; [ | now apply IH ].
    cbn. now apply IH.
  - cbn. now rewrite lookup_empty.
Qed.

(** X22: whatever calls of [registerDevice], [submitData],
    [toggleDeviceStatus] and [reset] were made on a new program, every
    device is stored under its own id: [getDevice] for an id returns a
    device with that id.  So the submission that the simulation timer makes
    for the id of a stored active device is never rejected. *)
Theorem stored_under_own_id (p : Program) (deviceId : string) (device : Device.t)
    (qualityData : NetworkData.t) (now : float) :
  reachable p ->
  getDevice p deviceId = Some device ->
  Device.id device = deviceId
  /\ (Device.isActive device = true ->
      completion (submitData p (Device.id device) qualityData now)
      = Return "mock_tx_submit_data_123").
Proof.
  unfold getDevice. intros Hreach Hfound.
  pose proof (reachable_own_id p Hreach deviceId device Hfound) as Hid.
  split; [ exact Hid | ].
  intros Hactive. unfold submitData. now rewrite Hid, Hfound, Hactive.
Qed.

Lemma stored_under_own_id_witness :
  completion
    (submitData (after (toggleDeviceStatus switchedOff "phone-1" 1600)) "phone-1"
       (sample tokyo) 2000)
  = Return "mock_tx_submit_data_123".
Proof.
  refine (proj2 (stored_under_own_id
                   (after (toggleDeviceStatus switchedOff "phone-1" 1600)) "phone-1"
                   (Device.mk "phone-1" "alice" Smartphone tokyo true 0 0 1600)
                   (sample tokyo) 2000 _ _) eq_refl).
  - apply reachable_toggle.
    exact (reachable_toggle _ "phone-1" 1500
             (reachable_register initial "phone-1" Smartphone tokyo "alice" 1000
                reachable_initial)).
  - reflexivity.
Defined.

End RewardMoreFacts.

(** ** The bridge: the scheduler and the counts of an aggregate *)

Module BridgeMoreFacts.
Import JS Bridge.
Local Open Scope string_scope.
Local Open Scope float_scope.

Lemma size_list_to_set_le (l : list string) :
  (size (list_to_set l : gset string) <= length l)%nat.
Proof.
  induction l as [ | x l IH]; [ reflexivity | ].
  cbn [list_to_set length]. rewrite size_union_alt, size_singleton.
  pose proof (subseteq_size (list_to_set l ∖ {[x]}) (list_to_set l : gset string)
                (subseteq_difference_l _ _ _ (reflexivity _))) as Hle.
  lia.
Qed.

Lemma size_list_to_set_pos (l : list string) :
  l <> [] -> (1 <= size (list_to_set l : gset string))%nat.
Proof.
  destruct l as [ | x l]; [ congruence | intros _ ].
  cbn [list_to_set]. rewrite size_union_alt, size_singleton. lia.
Qed.

Lemma list_to_set_constant (l : list string) (d : string) :
  l <> [] -> (forall x, In x l -> x = d) -> (list_to_set l : gset string) = {[d]}.
Proof.
  intros Hne Hall. apply set_eq. intros x. rewrite elem_of_list_to_set, elem_of_singleton.
  rewrite list_elem_of_In. split; [ apply Hall | ].
  intros ->. destruct l as [ | y l]; [ congruence | ].
  left. apply Hall. now left.
Qed.

Section Runtime.

Variables Math_sin Math_cos : float -> float.
Variable Math_atan2 : float -> float -> float.

Local Abbreviation aggregate := (aggregate Math_sin Math_cos Math_atan2).
Local Abbreviation automatedMigrationTick :=
  (automatedMigrationTick Math_sin Math_cos Math_atan2).

(** X6: a run of the callback that [setupAutomatedMigration] schedules never
    migrates anything: for every interval, every clock reading and whatever
    the Corda endpoint would answer, the aggregate it builds has no data
    points (the record set comes from the [getDataSubmissions] stub), so
    [migrateToCorda] is not called and the run ends with
    "No data to migrate for this period". *)
Theorem automatedMigrationTick_never_migrates (intervalHours now aggregatedAt : float)
    (fetched : Fetched) :
  automatedMigrationTick intervalHours now aggregatedAt fetched = NoDataToMigrate.
Proof. reflexivity. Qed.

(** X7: the counts of a bridge aggregate are not rounded away by the
    anonymization: [dataPoints] is the number of records and [deviceCount]
    the number of distinct device ids among them, which is at most the number
    of records, at least 1 for a non-empty set and exactly 1 when all records
    come from one device; the radius of an aggregate of at most one record
    is 0. *)
Theorem aggregate_counts (submissions : list DataSubmission.t) (now : float) :
  let a := aggregate submissions now in
  AggregatedNetworkData.dataPoints a = of_nat (length submissions)
  /\ AggregatedNetworkData.deviceCount a = of_nat (distinctDevices submissions)
  /\ (distinctDevices submissions <= length submissions)%nat
  /\ (submissions <> [] -> (1 <= distinctDevices submissions)%nat)
  /\ (forall device : string,
        submissions <> [] ->
        (forall sub, In sub submissions -> DataSubmission.device sub = device) ->
        AggregatedNetworkData.deviceCount a = 1)
  /\ ((length submissions <= 1)%nat ->
      Region.radius (AggregatedNetworkData.region a) = 0).
Proof.
  cbv zeta.
  assert (Hcount : AggregatedNetworkData.deviceCount (aggregate submissions now)
                   = of_nat (distinctDevices submissions)).
  { destruct submissions; reflexivity. }
  split; [ | split; [ exact Hcount | split; [ | split; [ | split ] ] ] ].
  - destruct submissions; reflexivity.
  - unfold distinctDevices.
    rewrite <- (length_map DataSubmission.device submissions).
    apply size_list_to_set_le.
  - intros Hne. unfold distinctDevices. apply size_list_to_set_pos.
    now destruct submissions.
  - intros device Hne Hall. rewrite Hcount. unfold distinctDevices.
    rewrite (list_to_set_constant _ device).
    + now rewrite size_singleton.
    + now destruct submissions.
    + intros x Hx. apply in_map_iff in Hx. destruct Hx as (sub & <- & Hsub).
      now apply Hall.
  - intros Hlen. destruct submissions as [ | sub [ | sub' rest]]; [ reflexivity .. | ].
    cbn in Hlen. lia.
Qed.

End Runtime.

(** Two records of one phone count as one device. *)
Lemma aggregate_counts_witness :
  let sub := DataSubmission.mk "phone-1" 1000 (-65) 45 1200000 0.95
               (Location.mk 35.68 139.76 10) in
  AggregatedNetworkData.deviceCount
    (Bridge.aggregate (fun x => x) (fun x => x) (fun y _ => y) [sub; sub] 2000) = 1
  /\ AggregatedNetworkData.dataPoints
       (Bridge.aggregate (fun x => x) (fun x => x) (fun y _ => y) [sub; sub] 2000) = 2.
Proof.
  intros sub.
  destruct (aggregate_counts (fun x => x) (fun x => x) (fun y _ => y) [sub; sub] 2000)
    as (Hpoints & _ & _ & _ & Hone & _).
  split.
  - apply (Hone "phone-1"); [ discriminate | ].
    intros x [<- | [<- | []]]; reflexivity.
  - exact Hpoints.
Defined.

End BridgeMoreFacts.

(** ** The mock Corda network: creation, migration and insights *)

Module MockCordaFacts.
Import JS MockCorda MockCordaTraces FloatFacts.
Local Open Scope string_scope.
Local Open Scope float_scope.

Lemma filter_none {A : Type} (f : A -> bool) (l : list A) :
  (forall x, In x l -> f x = false) -> List.filter f l = [].
Proof.
  induction l as [ | x l IH]; intros Hnone; [ reflexivity | ].
  cbn [List.filter]. rewrite (Hnone x) by now left.
  apply IH. intros y Hy. apply Hnone. now right.
Qed.

Lemma executeRoamingAgreement_pending (net : Network) (agreementId : string) (now : float) :
  allPending net ->
  executeRoamingAgreement net agreementId now
  = mkCall
      match roamingAgreements net !! agreementId with
      | Some _ => Throw "Agreement is not active"
      | None => Throw "Roaming agreement not found"
      end net [].
Proof.
  intros Hpending. unfold executeRoamingAgreement.
  destruct (roamingAgreements net !! agreementId) as [agreement | ] eqn:Hfound;
    [ | reflexivity ].
  now rewrite (Hpending _ _ Hfound).
Qed.

Section Clock.

Variable Number_toString : float -> string.

Local Abbreviation createRoamingAgreement := (createRoamingAgreement Number_toString).
Local Abbreviation reachable := (reachable Number_toString).

Lemma reachable_allPending (net : Network) : reachable net -> allPending net.
Proof.
  induction 1 as [ | net solanaData region now _ IH
                   | net partnerId region terms quality now1 now2 now3 _ IH
                   | net agreementId now _ IH | net _ IH ].
  - intros agreementId agreement. cbn. now rewrite lookup_empty.
  - exact IH.
  - intros agreementId agreement. cbn. intros Hfound.
    apply lookup_insert_Some in Hfound. destruct Hfound as [[_ <-] | [_ Hfound]].
    + reflexivity.
    + exact (IH _ _ Hfound).
  - now rewrite executeRoamingAgreement_pending.
  - intros agreementId agreement. cbn. now rewrite lookup_empty.
Qed.

(** X8: no method of the mock network activates an agreement.  In every
    network the methods produce from a new one, all stored agreements are
    PENDING; so [executeRoamingAgreement] never succeeds there: it throws
    "Agreement is not active" for a stored id and "Roaming agreement not
    found" for another, changes nothing and emits nothing, and the list of
    active agreements is empty. *)
Theorem execute_never_succeeds (net : Network) :
  reachable net ->
  (forall (agreementId : string) (agreement : RoamingAgreement.t),
     roamingAgreements net !! agreementId = Some agreement ->
     RoamingAgreement.status agreement = PENDING)
  /\ (forall (agreementId : string) (now : float),
        executeRoamingAgreement net agreementId now
        = mkCall
            match roamingAgreements net !! agreementId with
            | Some _ => Throw "Agreement is not active"
            | None => Throw "Roaming agreement not found"
            end net [])
  /\ (forall values : list RoamingAgreement.t,
        storedAgreements net values -> activeRoamingAgreements values = []).
Proof.
  intros Hreach. pose proof (reachable_allPending net Hreach) as Hpending.
  split; [ exact Hpending | split ].
  - intros agreementId now. now apply executeRoamingAgreement_pending.
  - unfold storedAgreements. intros values Hvalues. unfold activeRoamingAgreements.
    apply filter_none. intros agreement Hin.
    apply list_elem_of_In in Hin. rewrite Hvalues in Hin.
    apply list_elem_of_fmap in Hin. destruct Hin as ([agreementId stored] & -> & Hin).
    apply elem_of_map_to_list in Hin. cbn. now rewrite (Hpending _ _ Hin).
Qed.

(** X9: the id of a new agreement is the clock reading of its creation: two
    calls of [createRoamingAgreement] at the same reading return the same id,
    and the second agreement replaces the first, as if the first call had
    never been made.  A creation stores its agreement as PENDING under the
    returned id and leaves the other agreements and the network data
    alone. *)
Theorem createRoamingAgreement_same_reading (net : Network)
    (partner1 region1 partner2 region2 : string) (terms1 terms2 : Terms.t)
    (quality1 quality2 : Quality.t) (now a1 b1 a2 b2 : float) :
  let first := createRoamingAgreement net partner1 region1 terms1 quality1 now a1 b1 in
  let second :=
    createRoamingAgreement (Created.after first) partner2 region2 terms2 quality2
      now a2 b2 in
  let alone := createRoamingAgreement net partner2 region2 terms2 quality2 now a2 b2 in
  Created.completion second = Created.completion first
  /\ Created.after second = Created.after alone
  /\ roamingAgreements (Created.after second) !! Created.completion first
     = Some (RoamingAgreement.mk (Created.completion first) partner2 region2 terms2
               quality2 PENDING a2 b2)
  /\ size (roamingAgreements (Created.after second))
     = size (roamingAgreements (Created.after first))
  /\ (forall other : string,
        other <> Created.completion first ->
        roamingAgreements (Created.after first) !! other = roamingAgreements net !! other)
  /\ networkData (Created.after first) = networkData net.
Proof.
  cbv zeta. unfold MockCorda.createRoamingAgreement.
  cbn [Created.completion Created.after roamingAgreements networkData].
  split; [ reflexivity | split; [ | split; [ | split; [ | split ] ] ] ].
  - now rewrite insert_insert_eq.
  - apply lookup_insert_eq.
  - now rewrite insert_insert_eq, !map_size_insert.
  - intros other Hother. now apply lookup_insert_ne.
  - reflexivity.
Qed.

End Clock.

(** Two partners sign at the same millisecond: the first agreement is lost. *)
Lemma createRoamingAgreement_same_reading_witness :
  roamingAgreements
    (Created.after
       (createRoamingAgreement showMillis
          (Created.after
             (createRoamingAgreement showMillis (mkNetwork [] ∅) "partner-a" "tokyo"
                someTerms someQuality 1000 1000 1000))
          "partner-b" "osaka" someTerms someQuality 1000 1000 1000))
  = {[ "agreement_1000" :=
         RoamingAgreement.mk "agreement_1000" "partner-b" "osaka" someTerms someQuality
           PENDING 1000 1000 ]}.
Proof.
  destruct (createRoamingAgreement_same_reading showMillis (mkNetwork [] ∅)
              "partner-a" "tokyo" "partner-b" "osaka" someTerms someTerms someQuality
              someQuality 1000 1000 1000 1000 1000) as (_ & Hsame & _).
  rewrite Hsame. reflexivity.
Defined.

Lemma execute_never_succeeds_witness :
  let created :=
    Created.after
      (createRoamingAgreement showMillis (mkNetwork [] ∅) "partner" "tokyo" someTerms
         someQuality 1000 1000 1000) in
  executeRoamingAgreement created "agreement_1000" 2000
  = mkCall (Throw "Agreement is not active") created [].
Proof.
  intros created.
  assert (Hreach : reachable showMillis created) by (do 2 constructor).
  destruct (execute_never_succeeds showMillis created Hreach) as (_ & Hexecute & _).
  exact (Hexecute "agreement_1000" 2000).
Defined.

(** X10: [migrateNetworkDataFromSolana] appends exactly one record to the
    network data, whatever the size of the batch, and does not touch the
    agreements; the record carries the region, the clock reading and the
    number of data of the batch, and for an empty batch its metrics are all
    zero.  When the reading lies in the queried time range, the
    [performanceTrends] of [getNetworkInsights] for that region afterwards
    are those before followed by the availability of the new record. *)
Theorem migrate_appends_one_record (net : Network) (solanaData : list SolanaDatum.t)
    (region : string) (now startTime endTime : float) :
  let call := migrateNetworkDataFromSolana net solanaData region now in
  networkData (Migrated.after call) = (networkData net ++ [Migrated.emitted call])%list
  /\ length (networkData (Migrated.after call)) = S (length (networkData net))
  /\ roamingAgreements (Migrated.after call) = roamingAgreements net
  /\ NetworkData.region (Migrated.emitted call) = region
  /\ NetworkData.timestamp (Migrated.emitted call) = now
  /\ Metrics.dataPoints (NetworkData.metrics (Migrated.emitted call))
     = of_nat (length solanaData)
  /\ (solanaData = [] ->
      NetworkData.metrics (Migrated.emitted call) = Metrics.mk 0 0 0 0 0 0)
  /\ ((startTime <=? now) = true -> (now <=? endTime) = true ->
      B2BInsights.performanceTrends
        (getNetworkInsights (Migrated.after call) region startTime endTime)
      = (B2BInsights.performanceTrends (getNetworkInsights net region startTime endTime)
         ++ [Metrics.averageAvailability (NetworkData.metrics (Migrated.emitted call))])%list).
Proof.
  cbv zeta. unfold migrateNetworkDataFromSolana.
  cbn [Migrated.after Migrated.emitted networkData roamingAgreements NetworkData.region
       NetworkData.timestamp NetworkData.metrics].
  repeat split.
  - rewrite length_app. cbn. lia.
  - now destruct solanaData.
  - now intros ->.
  - intros Hstart Hend. unfold getNetworkInsights, relevantData.
    cbn [B2BInsights.performanceTrends networkData].
    rewrite List.filter_app, List.map_app. cbn [List.filter NetworkData.region NetworkData.timestamp].
    now rewrite String.eqb_refl, Hstart, Hend.
Qed.

Lemma migrate_appends_one_record_witness :
  B2BInsights.performanceTrends
    (getNetworkInsights
       (Migrated.after
          (migrateNetworkDataFromSolana (mkNetwork [tokyoAt 1000 0.95] ∅) [] "tokyo" 2000))
       "tokyo" 0 5000)
  = [0.95; 0].
Proof.
  destruct (migrate_appends_one_record (mkNetwork [tokyoAt 1000 0.95] ∅) [] "tokyo" 2000
              0 5000) as (_ & _ & _ & _ & _ & _ & _ & Htrends).
  rewrite (Htrends eq_refl eq_refl). reflexivity.
Defined.

Lemma relevantData_none (net : Network) (region : string) (startTime endTime : float) :
  (forall data : NetworkData.t,
     In data (networkData net) -> NetworkData.region data <> region)
  \/ startTime = nan \/ endTime = nan ->
  relevantData net region startTime endTime = [].
Proof.
  intros Hnone. unfold relevantData. apply filter_none. intros data Hin.
  destruct Hnone as [Hregion | [-> | ->]].
  - apply Hregion in Hin. apply String.eqb_neq in Hin. now rewrite Hin.
  - now rewrite leb_nan_l, andb_false_r.
  - now rewrite leb_nan_r, andb_false_r.
Qed.

(** X11: when the network holds no record of the region, or a bound of the
    time range is NaN, [getNetworkInsights] reports averageQuality 0,
    coverageDensity 0 and no trends, and (0 being below 0.6) recommends the
    two infrastructure investments: missing data reads as poor quality. *)
Theorem getNetworkInsights_no_data (net : Network) (region : string)
    (startTime endTime : float) :
  (forall data : NetworkData.t,
     In data (networkData net) -> NetworkData.region data <> region)
  \/ startTime = nan \/ endTime = nan ->
  getNetworkInsights net region startTime endTime
  = B2BInsights.mk region (startTime, endTime) 0 0 []
      (Recommendations.mk
         ["Invest in network infrastructure upgrades"; "Deploy additional base stations"]
         [] []).
Proof.
  intros Hnone. unfold getNetworkInsights.
  now rewrite (relevantData_none net region startTime endTime Hnone).
Qed.

Lemma getNetworkInsights_no_data_witness :
  getNetworkInsights (mkNetwork [tokyoAt 1000 0.95] ∅) "osaka" 0 5000
  = B2BInsights.mk "osaka" (0, 5000) 0 0 []
      (Recommendations.mk
         ["Invest in network infrastructure upgrades"; "Deploy additional base stations"]
         [] []).
Proof.
  apply (getNetworkInsights_no_data (mkNetwork [tokyoAt 1000 0.95] ∅) "osaka" 0 5000).
  left. intros data [<- | []]. discriminate.
Defined.

End MockCordaFacts.

(** ** Executing an agreement *)

Module ExecutionFacts.
Import JS Corda AgreementSamples AgreementFacts.
Local Open Scope string_scope.
Local Open Scope Z_scope.

Section Clock.

Variable Number_toString : float -> string.

(** C5 (amended).  The Corda flow: [execute] throws "Agreement must be active
    to execute" and leaves the vault as it was when the status is not ACTIVE
    or the agreement is expired; on an ACTIVE agreement that is not expired
    it builds a copy with lastExecutionTime = now, which the contract accepts
    exactly when now is strictly after the prior lastExecutionTime (otherwise
    the transaction is rejected and the vault is unchanged); what it returns
    is the transaction, it computes no revenue.  The mock network: no method
    makes an agreement ACTIVE, so on every network its methods produce
    [executeRoamingAgreement] throws ("Agreement is not active" for a stored
    id, the agreement being PENDING, "Roaming agreement not found"
    otherwise), changes nothing and emits no revenue. *)
Theorem execute_agreement (vault : Vault) (agreementId : string)
    (a : RoamingAgreementState.t) (checkAt stamp verifyAt : Instant.t)
    (net : MockCorda.Network) (mockId : string) (now : float) :
  findAgreement vault agreementId = Some a ->
  MockCordaTraces.reachable Number_toString net ->
  (RoamingAgreementState.status a <> ACTIVE
   \/ (RoamingAgreementState.status a = ACTIVE
       /\ RoamingAgreementState.isExpired a checkAt = inr true) ->
   ExecuteRoamingAgreementFlow vault agreementId checkAt stamp verifyAt
   = (inl (IllegalArgumentException "Agreement must be active to execute"), vault))
  /\ (RoamingAgreementState.status a = ACTIVE ->
      RoamingAgreementState.isExpired a checkAt = inr false ->
      RoamingAgreementState.isExpired a verifyAt = inr false ->
      let executed := copy a ACTIVE stamp (RoamingAgreementState.terminationTime a) in
      ExecuteRoamingAgreementFlow vault agreementId checkAt stamp verifyAt
      = if Instant.isAfter stamp (RoamingAgreementState.lastExecutionTime a) then
          (inr (mkTx [a] [executed] Execute),
           (consume (RoamingAgreementState.id a) vault ++ [executed])%list)
        else
          (inl (IllegalArgumentException
                  "Failed requirement: Execution must update last execution time"),
           vault))
  /\ (forall m : MockCorda.RoamingAgreement.t,
        MockCorda.roamingAgreements net !! mockId = Some m ->
        MockCorda.RoamingAgreement.status m = MockCorda.PENDING
        /\ MockCorda.executeRoamingAgreement net mockId now
           = MockCorda.mkCall (MockCorda.Throw "Agreement is not active") net [])
  /\ (MockCorda.roamingAgreements net !! mockId = None ->
      MockCorda.executeRoamingAgreement net mockId now
      = MockCorda.mkCall (MockCorda.Throw "Roaming agreement not found") net []).
Proof.
  intros Hfound Hreach.
  pose proof (MockCordaFacts.reachable_allPending Number_toString net Hreach) as Hpending.
  pose proof (MockCordaFacts.executeRoamingAgreement_pending net mockId now Hpending)
    as Hmock.
  split; [ | split; [ | split ] ].
  - intros [Hstatus | [Hstatus Hexpired]];
      unfold ExecuteRoamingAgreementFlow, RoamingAgreementState.isActive;
      rewrite Hfound.
    + now rewrite (not_ACTIVE _ Hstatus).
    + now rewrite Hstatus, Hexpired.
  - intros Hstatus Hlive Hstill executed.
    unfold ExecuteRoamingAgreementFlow, RoamingAgreementState.isActive.
    rewrite Hfound, Hstatus, Hlive. cbn [AgreementStatus_eqb bind negb require].
    unfold FinalityFlow, verify, verifyExecute. cbn.
    rewrite Hstatus, Hstill. cbn.
    subst executed. now destruct (Instant.isAfter stamp _).
  - intros m Hm. rewrite Hm in Hmock. split; [ exact (Hpending _ _ Hm) | exact Hmock ].
  - intros Hnone. now rewrite Hnone in Hmock.
Qed.

End Clock.

(** An agreement created at T0 and activated a day later is executed on the
    second day; the agreement the mock network created stays PENDING. *)
Lemma execute_agreement_witness :
  ExecuteRoamingAgreementFlow [agreement ACTIVE 30 (daysAfter 1) None] "ra-1" (daysAfter 2)
    (daysAfter 2) (daysAfter 2)
  = (inr (mkTx [agreement ACTIVE 30 (daysAfter 1) None]
            [agreement ACTIVE 30 (daysAfter 2) None] Execute),
     [agreement ACTIVE 30 (daysAfter 2) None])
  /\ MockCorda.completion
       (MockCorda.executeRoamingAgreement
          (MockCorda.Created.after
             (MockCorda.createRoamingAgreement MockCordaTraces.showMillis
                (MockCorda.mkNetwork [] ∅) "partner" "tokyo" MockCordaTraces.someTerms
                MockCordaTraces.someQuality 1000 1000 1000))
          "agreement_1000" 2000)
     = MockCorda.Throw "Agreement is not active".
Proof.
  destruct (execute_agreement MockCordaTraces.showMillis
              [agreement ACTIVE 30 (daysAfter 1) None] "ra-1"
              (agreement ACTIVE 30 (daysAfter 1) None) (daysAfter 2) (daysAfter 2)
              (daysAfter 2)
              (MockCorda.Created.after
                 (MockCorda.createRoamingAgreement MockCordaTraces.showMillis
                    (MockCorda.mkNetwork [] ∅) "partner" "tokyo" MockCordaTraces.someTerms
                    MockCordaTraces.someQuality 1000 1000 1000))
              "agreement_1000" 2000 eq_refl
              (MockCordaTraces.reachable_create _ _ _ _ _ _ _ _ _
                 (MockCordaTraces.reachable_new _)))
    as (_ & Hflow & Hmock & _).
  split.
  - exact (Hflow eq_refl eq_refl eq_refl).
  - destruct (Hmock _ eq_refl) as [_ Hthrows]. now rewrite Hthrows.
Defined.

(** C5, as stated, fails in the Corda flow.  The agreement created at T0 and
    activated a day later is ACTIVE and not expired; executed while the clock
    still reads the instant of the activation, it is not executed: the
    contract rejects the transaction, lastExecutionTime being equal and not
    later, and the vault stays as it was. *)
Lemma execute_agreement_fails_as_stated :
  snd (ActivateRoamingAgreementFlow
         (snd (CreateRoamingAgreementFlow [] "ra-1" "partner" "Tokyo" (terms 30) quality
                 ["docomo"; "partner"] T0 T0 T0))
         "ra-1" (daysAfter 1) (daysAfter 1))
  = [agreement ACTIVE 30 (daysAfter 1) None]
  /\ RoamingAgreementState.isActive (agreement ACTIVE 30 (daysAfter 1) None) (daysAfter 1)
     = inr true
  /\ ExecuteRoamingAgreementFlow [agreement ACTIVE 30 (daysAfter 1) None] "ra-1"
       (daysAfter 1) (daysAfter 1) (daysAfter 1)
     = (inl (IllegalArgumentException
               "Failed requirement: Execution must update last execution time"),
        [agreement ACTIVE 30 (daysAfter 1) None]).
Proof. repeat split. Qed.

End ExecutionFacts.

(** ** The roaming-agreement flows: what they accept, keep and leave alone *)

Module AgreementMoreFacts.
Import JS Corda AgreementSamples AgreementTraces KotlinFacts.
Local Open Scope string_scope.
Local Open Scope Z_scope.

Lemma findAgreement_In (vault : Vault) (agreementId : string) (a : RoamingAgreementState.t) :
  findAgreement vault agreementId = Some a -> In a vault.
Proof. intros Hfound. exact (proj1 (find_some _ _ Hfound)). Qed.

Lemma consume_incl (agreementId : string) (vault : Vault) (s : RoamingAgreementState.t) :
  In s (consume agreementId vault) -> In s vault.
Proof.
  induction vault as [ | x vault IH]; cbn [consume]; [ easy | ].
  destruct (String.eqb (RoamingAgreementState.id x) agreementId).
  - now right.
  - intros [<- | Hin]; [ now left | right; now apply IH ].
Qed.

Lemma findAgreement_consume_other (vault : Vault) (agreementId other : string) :
  other <> agreementId ->
  findAgreement (consume agreementId vault) other = findAgreement vault other.
Proof.
  intros Hother. unfold findAgreement.
  induction vault as [ | x vault IH]; cbn [consume find]; [ reflexivity | ].
  destruct (String.eqb_spec (RoamingAgreementState.id x) agreementId) as [Hid | Hid].
  - destruct (String.eqb_spec (RoamingAgreementState.id x) other) as [Hx | Hx];
      [ congruence | reflexivity ].
  - cbn [find]. now rewrite IH.
Qed.

Lemma findAgreement_app (vault : Vault) (s : RoamingAgreementState.t) (agreementId : string) :
  findAgreement (vault ++ [s])%list agreementId
  = match findAgreement vault agreementId with
    | Some a => Some a
    | None =>
        if String.eqb (RoamingAgreementState.id s) agreementId then Some s else None
    end.
Proof.
  unfold findAgreement. induction vault as [ | x vault IH]; cbn [app find]; [ reflexivity | ].
  now destruct (String.eqb (RoamingAgreementState.id x) agreementId).
Qed.

Lemma consume_fresh (vault : Vault) (s : RoamingAgreementState.t) (agreementId : string) :
  findAgreement vault agreementId = None ->
  RoamingAgreementState.id s = agreementId ->
  consume agreementId (vault ++ [s])%list = vault.
Proof.
  unfold findAgreement. intros Hfresh Hid.
  induction vault as [ | x vault IH]; cbn [app consume find] in *.
  - now rewrite Hid, String.eqb_refl.
  - destruct (String.eqb (RoamingAgreementState.id x) agreementId); [ discriminate | ].
    now rewrite IH.
Qed.

(** What a transaction with one input and one output leaves in the vault. *)
Lemma FinalityFlow_one (a o : RoamingAgreementState.t) (c : Command) (vault : Vault)
    (verifyAt : Instant.t) :
  snd (FinalityFlow (mkTx [a] [o] c) vault verifyAt) = vault
  \/ snd (FinalityFlow (mkTx [a] [o] c) vault verifyAt)
     = (consume (RoamingAgreementState.id a) vault ++ [o])%list.
Proof.
  unfold FinalityFlow. destruct (verify _ _); [ now left | now right ].
Qed.

(** The contract's checks on a Create transaction, as one test. *)
Lemma verifyCreate_one (s : RoamingAgreementState.t) :
  verifyCreate (mkTx [] [s] Create)
  = if negb (AgreementTerms.isValid (RoamingAgreementState.terms s)) then
      inl (IllegalArgumentException "Failed requirement: Agreement must have valid terms")
    else if (2 <=? length (RoamingAgreementState.participants s))%nat then inr tt
    else inl (IllegalArgumentException "Failed requirement: Agreement must have valid parties").
Proof.
  unfold verifyCreate. cbn.
  destruct (AgreementTerms.isValid (RoamingAgreementState.terms s)) eqn:Hvalid;
    cbn; [ | reflexivity ].
  assert (Hduration : (0 <? AgreementTerms.duration (RoamingAgreementState.terms s)) = true).
  { unfold AgreementTerms.isValid in Hvalid.
    repeat (apply andb_prop in Hvalid; destruct Hvalid as [Hvalid ?]).
    assumption. }
  rewrite Hduration. cbn.
  now destruct (2 <=? length (RoamingAgreementState.participants s))%nat.
Qed.

(** X12: [CreateRoamingAgreementFlow] stores a PENDING agreement at the end
    of the vault exactly when the terms are valid and there are at least two
    participants; otherwise it throws "Agreement must have valid terms" or
    "Agreement must have valid parties" and the vault is unchanged.  The
    network quality data is stored as given, and the contract's
    "Agreement must have valid duration" can never be the failure, valid
    terms having a positive duration. *)
Theorem create_accepts (vault : Vault) (uuid partnerId region : string)
    (terms : AgreementTerms.t) (networkData : NetworkQualityData.t)
    (participants : list string) (createdAt executedAt verifyAt : Instant.t) :
  let state :=
    created uuid partnerId region terms networkData participants PENDING createdAt
      executedAt None in
  CreateRoamingAgreementFlow vault uuid partnerId region terms networkData participants
    createdAt executedAt verifyAt
  = if negb (AgreementTerms.isValid terms) then
      (inl (IllegalArgumentException "Failed requirement: Agreement must have valid terms"),
       vault)
    else if (2 <=? length participants)%nat then
      (inr (mkTx [] [state] Create), (vault ++ [state])%list)
    else
      (inl (IllegalArgumentException "Failed requirement: Agreement must have valid parties"),
       vault).
Proof.
  cbv zeta. unfold CreateRoamingAgreementFlow, FinalityFlow, verify. cbn [command].
  rewrite verifyCreate_one. cbn [RoamingAgreementState.terms RoamingAgreementState.participants].
  destruct (AgreementTerms.isValid terms); cbn [negb]; [ | reflexivity ].
  now destruct (2 <=? length participants)%nat.
Qed.

Lemma wellFormed_Forall_step (vault : Vault) (a o : RoamingAgreementState.t) (c : Command)
    (verifyAt : Instant.t) :
  (forall s, In s vault -> wellFormed s) ->
  wellFormed o ->
  forall s, In s (snd (FinalityFlow (mkTx [a] [o] c) vault verifyAt)) -> wellFormed s.
Proof.
  intros Hvault Ho s Hin.
  destruct (FinalityFlow_one a o c vault verifyAt) as [Hsame | Hnew]; rewrite ?Hsame, ?Hnew in Hin.
  - now apply Hvault.
  - apply in_app_or in Hin. destruct Hin as [Hin | [<- | []]]; [ | exact Ho ].
    apply Hvault. now apply consume_incl in Hin.
Qed.

Lemma reachable_wellFormed_all (vault : Vault) :
  reachable vault -> forall s, In s vault -> wellFormed s.
Proof.
  induction 1 as [ | vault uuid partnerId region terms networkData participants createdAt
                     executedAt verifyAt _ IH
                   | vault agreementId stamp verifyAt _ IH
                   | vault agreementId checkAt stamp verifyAt _ IH
                   | vault agreementId stamp verifyAt _ IH ].
  - intros s [].
  - rewrite create_accepts.
    destruct (AgreementTerms.isValid terms) eqn:Hvalid; cbn [negb]; [ | exact IH ].
    destruct (2 <=? length participants)%nat eqn:Hparties; [ | exact IH ].
    cbn [snd]. intros s Hin. apply in_app_or in Hin.
    destruct Hin as [Hin | [<- | []]]; [ now apply IH | ].
    unfold wellFormed, created. cbn. apply Nat.leb_le in Hparties.
    repeat split; auto; discriminate.
  - unfold ActivateRoamingAgreementFlow.
    destruct (findAgreement vault agreementId) as [a | ] eqn:Hfound; [ | exact IH ].
    apply wellFormed_Forall_step; [ exact IH | ].
    destruct (IH a (findAgreement_In _ _ _ Hfound)) as (_ & Hvalid & Hparties & _).
    unfold wellFormed, copy. cbn. repeat split; auto; discriminate.
  - unfold ExecuteRoamingAgreementFlow.
    destruct (findAgreement vault agreementId) as [a | ] eqn:Hfound; [ | exact IH ].
    destruct (bind _ _); [ exact IH | ].
    apply wellFormed_Forall_step; [ exact IH | ].
    exact (IH a (findAgreement_In _ _ _ Hfound)).
  - unfold TerminateRoamingAgreementFlow.
    destruct (findAgreement vault agreementId) as [a | ] eqn:Hfound; [ | exact IH ].
    destruct (require _ _); [ exact IH | ].
    apply wellFormed_Forall_step; [ exact IH | ].
    destruct (IH a (findAgreement_In _ _ _ Hfound)) as (_ & Hvalid & Hparties & _).
    unfold wellFormed, copy. cbn. repeat split; auto; discriminate.
Qed.

(** X13: whatever flows ran on a vault that started empty, with whatever
    arguments, every stored agreement is PENDING, ACTIVE or TERMINATED (the
    statuses SUSPENDED and EXPIRED are never stored), has valid terms and at
    least two participants; a PENDING one has no termination time and a
    TERMINATED one has one. *)
Theorem reachable_wellFormed (vault : Vault) (s : RoamingAgreementState.t) :
  reachable vault ->
  In s vault ->
  wellFormed s
  /\ RoamingAgreementState.status s <> SUSPENDED
  /\ RoamingAgreementState.status s <> EXPIRED.
Proof.
  intros Hreach Hin. pose proof (reachable_wellFormed_all vault Hreach s Hin) as Hwf.
  split; [ exact Hwf | ].
  destruct Hwf as ([-> | [-> | ->]] & _); split; discriminate.
Qed.

Lemma reachable_wellFormed_witness :
  wellFormed (agreement TERMINATED 30 (daysAfter 0) (Some (daysAfter 2))).
Proof.
  refine (proj1 (reachable_wellFormed
                   [agreement TERMINATED 30 (daysAfter 0) (Some (daysAfter 2))] _ _ _)).
  - exact (reachable_terminate _ "ra-1" (daysAfter 2) (daysAfter 2)
             (reachable_activate _ "ra-1" (daysAfter 0) (daysAfter 1)
                (reachable_create [] "ra-1" "partner" "Tokyo" (terms 30) quality
                   ["docomo"; "partner"] T0 T0 T0 reachable_empty))).
  - now left.
Defined.

(** Within the range of [Instant], expiry is a comparison with the creation
    time moved by the duration. *)
Lemma isExpired_in_range (a : RoamingAgreementState.t) (now : Instant.t) :
  Instant.valid (RoamingAgreementState.creationTime a) ->
  0 <= AgreementTerms.duration (RoamingAgreementState.terms a) ->
  Instant.epochSecond (RoamingAgreementState.creationTime a)
  + AgreementTerms.duration (RoamingAgreementState.terms a) * 86400 <= Instant.MAX_SECOND ->
  RoamingAgreementState.isExpired a now
  = inr (Instant.isBefore
           (Instant.mk
              (Instant.epochSecond (RoamingAgreementState.creationTime a)
               + AgreementTerms.duration (RoamingAgreementState.terms a) * 86400)
              (Instant.nano (RoamingAgreementState.creationTime a)))
           now).
Proof.
  unfold Instant.valid, Instant.MIN_SECOND, Instant.MAX_SECOND.
  intros [Hcs Hcn] Hd Hend.
  unfold RoamingAgreementState.isExpired.
  set (d := AgreementTerms.duration (RoamingAgreementState.terms a)) in *.
  set (c := RoamingAgreementState.creationTime a) in *.
  rewrite wrapLong_inLong by (unfold inLong; lia).
  unfold Instant.plusSeconds, Instant.MIN_SECOND, Instant.MAX_SECOND.
  destruct (Z.eqb_spec (d * 86400) 0) as [Hzero | Hpos]; cbn [bind].
  - rewrite Hzero, Z.add_0_r. now destruct c.
  - replace ((Instant.epochSecond c + d * 86400 <? - 2 ^ 63)
             || (2 ^ 63 <=? Instant.epochSecond c + d * 86400)) with false
      by (symmetry; apply orb_false_iff; rewrite Z.ltb_ge, Z.leb_gt; lia).
    replace ((Instant.epochSecond c + d * 86400 <? -31557014167219200)
             || (31556889864403199 <? Instant.epochSecond c + d * 86400)) with false
      by (symmetry; apply orb_false_iff; rewrite !Z.ltb_ge; lia).
    reflexivity.
Qed.

(** X14: an agreement created at a valid instant T with a duration of d >= 0
    days, T + d days being an [Instant], is not expired at any instant up to
    and including T + d days: [isExpired()] returns false there, and
    [isActive()] returns whether the status is ACTIVE.  In particular the
    agreement is still active at the very instant T + d days. *)
Theorem isExpired_until_duration (a : RoamingAgreementState.t) (now : Instant.t) :
  Instant.valid (RoamingAgreementState.creationTime a) ->
  0 <= AgreementTerms.duration (RoamingAgreementState.terms a) ->
  Instant.epochSecond (RoamingAgreementState.creationTime a)
  + AgreementTerms.duration (RoamingAgreementState.terms a) * 86400 <= Instant.MAX_SECOND ->
  notAfterDays (RoamingAgreementState.creationTime a)
    (AgreementTerms.duration (RoamingAgreementState.terms a)) now ->
  RoamingAgreementState.isExpired a now = inr false
  /\ RoamingAgreementState.isActive a now
     = inr (AgreementStatus_eqb (RoamingAgreementState.status a) ACTIVE).
Proof.
  intros Hvalid Hd Hend Hnot.
  assert (Hlive : RoamingAgreementState.isExpired a now = inr false).
  { rewrite (isExpired_in_range a now Hvalid Hd Hend). f_equal.
    unfold notAfterDays in Hnot. unfold Instant.isBefore.
    cbn [Instant.epochSecond Instant.nano].
    apply orb_false_iff. rewrite andb_false_iff, Z.ltb_ge, Z.eqb_neq, Z.ltb_ge. lia. }
  split; [ exact Hlive | ].
  unfold RoamingAgreementState.isActive. rewrite Hlive.
  now destruct (AgreementStatus_eqb (RoamingAgreementState.status a) ACTIVE).
Qed.

(** Created at T with a duration of 1 day, read at T + 1 day exactly. *)
Lemma isExpired_until_duration_witness :
  RoamingAgreementState.isExpired (agreement ACTIVE 1 T0 None) (daysAfter 1) = inr false
  /\ RoamingAgreementState.isActive (agreement ACTIVE 1 T0 None) (daysAfter 1) = inr true.
Proof.
  apply (isExpired_until_duration (agreement ACTIVE 1 T0 None) (daysAfter 1)).
  - unfold Instant.valid, Instant.MIN_SECOND, Instant.MAX_SECOND. cbn. lia.
  - cbn. lia.
  - unfold Instant.MAX_SECOND. cbn. lia.
  - unfold notAfterDays. cbn. lia.
Defined.

(** X15: when the creation time plus the duration lies beyond the last
    [Instant] (the product duration * 86400 still fitting a [Long]),
    [isExpired()] throws instead of answering: an [ArithmeticException] if
    the sum overflows [Long], a [DateTimeException] otherwise.  The Create
    contract does not call it, so such an agreement can be stored; but every
    [ActivateRoamingAgreementFlow] on it fails with that exception and
    leaves the vault as it was. *)
Theorem isExpired_throws_beyond_range (vault : Vault) (agreementId : string)
    (a : RoamingAgreementState.t) (now stamp verifyAt : Instant.t) :
  findAgreement vault agreementId = Some a ->
  AgreementTerms.isValid (RoamingAgreementState.terms a) = true ->
  Instant.valid (RoamingAgreementState.creationTime a) ->
  AgreementTerms.duration (RoamingAgreementState.terms a) * 86400 < 2 ^ 63 ->
  Instant.MAX_SECOND
  < Instant.epochSecond (RoamingAgreementState.creationTime a)
    + AgreementTerms.duration (RoamingAgreementState.terms a) * 86400 ->
  let thrown :=
    if 2 ^ 63 <=? Instant.epochSecond (RoamingAgreementState.creationTime a)
                  + AgreementTerms.duration (RoamingAgreementState.terms a) * 86400
    then ArithmeticException "long overflow"
    else DateTimeException "Instant exceeds minimum or maximum instant" in
  RoamingAgreementState.isExpired a now = inl thrown
  /\ ActivateRoamingAgreementFlow vault agreementId stamp verifyAt = (inl thrown, vault)
  /\ verify (mkTx [] [a] Create) now
     = if (2 <=? length (RoamingAgreementState.participants a))%nat then inr tt
       else inl (IllegalArgumentException
                   "Failed requirement: Agreement must have valid parties").
Proof.
  intros Hfound Hvalid Hcreation Hproduct Hbeyond thrown.
  unfold Instant.valid, Instant.MIN_SECOND, Instant.MAX_SECOND in Hcreation, Hbeyond.
  destruct Hcreation as [Hcs Hcn].
  assert (Hthrows : forall t, RoamingAgreementState.isExpired a t = inl thrown).
  { intros t. subst thrown. unfold RoamingAgreementState.isExpired.
    set (d := AgreementTerms.duration (RoamingAgreementState.terms a)) in *.
    set (c := RoamingAgreementState.creationTime a) in *.
    rewrite wrapLong_inLong by (unfold inLong; lia).
    unfold Instant.plusSeconds, Instant.MIN_SECOND, Instant.MAX_SECOND.
    destruct (Z.eqb_spec (d * 86400) 0) as [Hzero | Hpos]; [ lia | ].
    replace (Instant.epochSecond c + d * 86400 <? - 2 ^ 63) with false
      by (symmetry; apply Z.ltb_ge; lia).
    cbn [orb].
    destruct (2 ^ 63 <=? Instant.epochSecond c + d * 86400); [ reflexivity | ].
    replace (31556889864403199 <? Instant.epochSecond c + d * 86400) with true
      by (symmetry; apply Z.ltb_lt; lia).
    now rewrite orb_true_r. }
  split; [ apply Hthrows | split ].
  - unfold ActivateRoamingAgreementFlow. rewrite Hfound.
    unfold FinalityFlow, verify, verifyUpdate. cbn.
    rewrite String.eqb_refl, Hvalid. cbn.
    change (RoamingAgreementState.isExpired
              (copy a ACTIVE stamp (RoamingAgreementState.terminationTime a)) verifyAt)
      with (RoamingAgreementState.isExpired a verifyAt).
    now rewrite Hthrows.
  - unfold verify. cbn [command]. rewrite verifyCreate_one. now rewrite Hvalid.
Qed.

(** A duration of 400,000,000,000 days ends after the year 1,000,000,000. *)
Lemma isExpired_throws_beyond_range_witness :
  ActivateRoamingAgreementFlow [agreement PENDING 400000000000 T0 None] "ra-1"
    (daysAfter 1) (daysAfter 1)
  = (inl (DateTimeException "Instant exceeds minimum or maximum instant"),
     [agreement PENDING 400000000000 T0 None]).
Proof.
  refine (proj1 (proj2 (isExpired_throws_beyond_range
                          [agreement PENDING 400000000000 T0 None] "ra-1"
                          (agreement PENDING 400000000000 T0 None)
                          (daysAfter 1) (daysAfter 1) (daysAfter 1) eq_refl eq_refl _ _ _))).
  - unfold Instant.valid, Instant.MIN_SECOND, Instant.MAX_SECOND. cbn. lia.
  - cbn. lia.
  - unfold Instant.MAX_SECOND. cbn. lia.
Defined.

(** X16: the flows compose into the life of an agreement.  In a vault with
    no agreement of the new id, with valid terms and two participants,
    Create stores the agreement as PENDING; Activate then replaces it by an
    ACTIVE copy stamped with its clock reading; Execute, at a reading after
    the activation stamp, by a copy with the new lastExecutionTime; and
    Terminate by a TERMINATED copy with the termination time, provided the
    agreement is not expired when Activate and Execute look.  Every step
    keeps the agreement at the end of the vault and the rest of the vault as
    it was. *)
Theorem lifecycle (vault : Vault) (uuid partnerId region : string)
    (terms : AgreementTerms.t) (networkData : NetworkQualityData.t)
    (participants : list string)
    (createdAt executedAt createVerifiedAt activatedAt activateVerifiedAt
     executeCheckedAt executeStamp executeVerifiedAt terminatedAt terminateVerifiedAt
     : Instant.t) :
  let state := created uuid partnerId region terms networkData participants in
  let pending := state PENDING createdAt executedAt None in
  let active := state ACTIVE createdAt activatedAt None in
  let executed := state ACTIVE createdAt executeStamp None in
  let terminated := state TERMINATED createdAt executeStamp (Some terminatedAt) in
  findAgreement vault uuid = None ->
  AgreementTerms.isValid terms = true ->
  (2 <= length participants)%nat ->
  RoamingAgreementState.isExpired pending activateVerifiedAt = inr false ->
  RoamingAgreementState.isExpired pending executeCheckedAt = inr false ->
  RoamingAgreementState.isExpired pending executeVerifiedAt = inr false ->
  Instant.isAfter executeStamp activatedAt = true ->
  CreateRoamingAgreementFlow vault uuid partnerId region terms networkData participants
    createdAt executedAt createVerifiedAt
  = (inr (mkTx [] [pending] Create), (vault ++ [pending])%list)
  /\ ActivateRoamingAgreementFlow (vault ++ [pending])%list uuid activatedAt
       activateVerifiedAt
     = (inr (mkTx [pending] [active] Update), (vault ++ [active])%list)
  /\ ExecuteRoamingAgreementFlow (vault ++ [active])%list uuid executeCheckedAt
       executeStamp executeVerifiedAt
     = (inr (mkTx [active] [executed] Execute), (vault ++ [executed])%list)
  /\ TerminateRoamingAgreementFlow (vault ++ [executed])%list uuid terminatedAt
       terminateVerifiedAt
     = (inr (mkTx [executed] [terminated] Terminate), (vault ++ [terminated])%list).
Proof.
  intros state pending active executed terminated Hfresh Hvalid Hparties
         Hactivate Hcheck Hexecute Hafter.
  assert (Hfind : forall s, RoamingAgreementState.id s = uuid ->
            findAgreement (vault ++ [s])%list uuid = Some s).
  { intros s Hid. now rewrite findAgreement_app, Hfresh, Hid, String.eqb_refl. }
  split; [ | split; [ | split ] ].
  - rewrite create_accepts, Hvalid. cbn [negb].
    apply Nat.leb_le in Hparties. now rewrite Hparties.
  - unfold ActivateRoamingAgreementFlow. rewrite (Hfind pending eq_refl).
    unfold FinalityFlow, verify, verifyUpdate. cbn.
    rewrite String.eqb_refl, Hvalid. cbn.
    change (RoamingAgreementState.isExpired _ activateVerifiedAt)
      with (RoamingAgreementState.isExpired pending activateVerifiedAt).
    rewrite Hactivate. cbn.
    now rewrite (consume_fresh vault pending uuid Hfresh eq_refl).
  - unfold ExecuteRoamingAgreementFlow. rewrite (Hfind active eq_refl).
    unfold RoamingAgreementState.isActive. cbn [RoamingAgreementState.status active state
      created AgreementStatus_eqb].
    change (RoamingAgreementState.isExpired _ executeCheckedAt)
      with (RoamingAgreementState.isExpired pending executeCheckedAt).
    rewrite Hcheck. cbn [bind negb require].
    unfold FinalityFlow, verify, verifyExecute. cbn.
    change (RoamingAgreementState.isExpired _ executeVerifiedAt)
      with (RoamingAgreementState.isExpired pending executeVerifiedAt).
    rewrite Hexecute. cbn. rewrite Hafter. cbn.
    now rewrite (consume_fresh vault active uuid Hfresh eq_refl).
  - unfold TerminateRoamingAgreementFlow. rewrite (Hfind executed eq_refl). cbn.
    now rewrite (consume_fresh vault executed uuid Hfresh eq_refl).
Qed.

Lemma lifecycle_witness :
  TerminateRoamingAgreementFlow [agreement ACTIVE 30 (daysAfter 2) None] "ra-1"
    (daysAfter 3) (daysAfter 3)
  = (inr (mkTx [agreement ACTIVE 30 (daysAfter 2) None]
            [agreement TERMINATED 30 (daysAfter 2) (Some (daysAfter 3))] Terminate),
     [agreement TERMINATED 30 (daysAfter 2) (Some (daysAfter 3))]).
Proof.
  refine (proj2 (proj2 (proj2
            (lifecycle [] "ra-1" "partner" "Tokyo" (terms 30) quality ["docomo"; "partner"]
               T0 T0 T0 (daysAfter 1) (daysAfter 1) (daysAfter 2) (daysAfter 2)
               (daysAfter 2) (daysAfter 3) (daysAfter 3)
               eq_refl eq_refl _ eq_refl eq_refl eq_refl eq_refl)))).
  cbn. lia.
Defined.

(** X17: a flow touches the agreement it is called for and no other: after
    Create, Activate, Execute or Terminate for an id, whether it succeeded
    or threw, the agreement found under any other id is the one found
    before. *)
Theorem flows_leave_others (vault : Vault) (agreementId other : string)
    (checkAt stamp verifyAt : Instant.t) :
  other <> agreementId ->
  findAgreement (snd (ActivateRoamingAgreementFlow vault agreementId stamp verifyAt)) other
  = findAgreement vault other
  /\ findAgreement
       (snd (ExecuteRoamingAgreementFlow vault agreementId checkAt stamp verifyAt)) other
     = findAgreement vault other
  /\ findAgreement (snd (TerminateRoamingAgreementFlow vault agreementId stamp verifyAt))
       other
     = findAgreement vault other
  /\ (forall (partnerId region : string) (terms : AgreementTerms.t)
         (networkData : NetworkQualityData.t) (participants : list string)
         (createdAt executedAt : Instant.t),
        findAgreement
          (snd (CreateRoamingAgreementFlow vault agreementId partnerId region terms
                  networkData participants createdAt executedAt verifyAt)) other
        = findAgreement vault other).
Proof.
  intros Hother.
  assert (Hstep : forall (a o : RoamingAgreementState.t) (c : Command),
            findAgreement vault agreementId = Some a ->
            RoamingAgreementState.id o = RoamingAgreementState.id a ->
            findAgreement (snd (FinalityFlow (mkTx [a] [o] c) vault verifyAt)) other
            = findAgreement vault other).
  { intros a o c Hfound Hid.
    apply AgreementFacts.findAgreement_id, String.eqb_eq in Hfound.
    destruct (FinalityFlow_one a o c vault verifyAt) as [-> | ->]; [ reflexivity | ].
    rewrite findAgreement_app, Hfound, findAgreement_consume_other by exact Hother.
    destruct (findAgreement vault other); [ reflexivity | ].
    rewrite Hid, Hfound.
    destruct (String.eqb_spec agreementId other); [ congruence | reflexivity ]. }
  split; [ | split; [ | split ] ].
  - unfold ActivateRoamingAgreementFlow.
    destruct (findAgreement vault agreementId) as [a | ] eqn:Hfound; [ | reflexivity ].
    now apply Hstep.
  - unfold ExecuteRoamingAgreementFlow.
    destruct (findAgreement vault agreementId) as [a | ] eqn:Hfound; [ | reflexivity ].
    destruct (bind _ _); [ reflexivity | ].
    now apply Hstep.
  - unfold TerminateRoamingAgreementFlow.
    destruct (findAgreement vault agreementId) as [a | ] eqn:Hfound; [ | reflexivity ].
    destruct (require _ _); [ reflexivity | ].
    now apply Hstep.
  - intros partnerId region terms networkData participants createdAt executedAt.
    rewrite create_accepts.
    destruct (AgreementTerms.isValid terms); cbn [negb]; [ | reflexivity ].
    destruct (2 <=? length participants)%nat; [ | reflexivity ].
    cbn [snd]. rewrite findAgreement_app.
    destruct (findAgreement vault other); [ reflexivity | ].
    cbn. destruct (String.eqb_spec agreementId other); [ congruence | reflexivity ].
Qed.

Lemma flows_leave_others_witness :
  findAgreement
    (snd (TerminateRoamingAgreementFlow [agreement ACTIVE 30 T0 None] "ra-2"
            (daysAfter 1) (daysAfter 1))) "ra-1"
  = Some (agreement ACTIVE 30 T0 None).
Proof.
  destruct (flows_leave_others [agreement ACTIVE 30 T0 None] "ra-2" "ra-1" (daysAfter 1)
              (daysAfter 1) (daysAfter 1)) as (_ & _ & Hterminate & _);
    [ discriminate | ].
  rewrite Hterminate. reflexivity.
Defined.

End AgreementMoreFacts.

(** ** Network data in Corda: migration, aggregation, queries, advice *)

Module NetworkDataFacts.
Import JS Corda MigrationSamples NetworkDataSamples KotlinFacts FloatFacts.
Local Open Scope string_scope.
Local Open Scope Z_scope.

(** A quotient by zero is NaN or infinite: it is in no range of signal
    strengths. *)
Lemma div_zero_outside (x : float) :
  ((-120 <=? x / 0) && (x / 0 <=? 0))%float = false.
Proof.
  rewrite !FloatAxioms.leb_spec, div_spec.
  change (Prim2SF 0) with (S754_zero false).
  destruct (Prim2SF x) as [ [ | ] | [ | ] | | [ | ] m e]; reflexivity.
Qed.

Lemma aggregateMetrics_invalid (metricsList : list NetworkMetrics.t) :
  sumBy NetworkMetrics.dataPoints metricsList = 0 ->
  NetworkMetrics.isValid (aggregateMetrics metricsList) = false.
Proof.
  intros Hzero. unfold NetworkMetrics.isValid, aggregateMetrics.
  cbn [NetworkMetrics.averageSignalStrength]. rewrite Hzero.
  change (of_Z 0) with 0%float. now rewrite div_zero_outside.
Qed.

(** X18: when the data points of the aggregated states add up to 0 (in
    [Int]), every weighted mean of [aggregateMetrics] is a quotient by zero
    and the aggregated metrics are not valid.
    [AggregateAndAnonymizeNetworkData] does not look: for a region and time
    range that match at least one state it reports success and returns the
    aggregated state, with the region of the first match, whose metrics
    [NetworkMetrics.isValid()] rejects. *)
Theorem aggregate_without_data_points (networkDataStates : list NetworkDataState.t)
    (region : string) (timeRange : TimeRange.t) (participants : list string)
    (uuid : string) (now : Instant.t) :
  let filteredData := List.filter (inRegionAndRange region timeRange) networkDataStates in
  let metricsList := map NetworkDataState.metrics filteredData in
  filteredData <> [] ->
  sumBy NetworkMetrics.dataPoints metricsList = 0 ->
  NetworkMetrics.isValid (aggregateMetrics metricsList) = false
  /\ exists first : NetworkDataState.t,
       hd_error filteredData = Some first
       /\ AggregateAndAnonymizeNetworkData networkDataStates region timeRange participants
            uuid now
          = AggregatedNetworkDataResult.mk true
              "Network data aggregated and anonymized successfully"
              (Some (NetworkDataState.mk uuid (NetworkDataState.region first)
                       (aggregateMetrics metricsList) now "solana_depin_aggregated" "1.0"
                       participants)).
Proof.
  intros filteredData metricsList Hsome Hzero.
  split; [ now apply aggregateMetrics_invalid | ].
  unfold AggregateAndAnonymizeNetworkData. subst metricsList. fold filteredData.
  destruct filteredData as [ | first rest]; [ congruence | ].
  now exists first.
Qed.

Lemma aggregate_without_data_points_witness :
  NetworkMetrics.isValid
    (aggregateMetrics
       (map NetworkDataState.metrics [tokyoState "a" 0 0.9; tokyoState "b" 0 0.8]))
  = false.
Proof.
  refine (proj1 (aggregate_without_data_points
                   [tokyoState "a" 0 0.9; tokyoState "b" 0 0.8] "Tokyo" year2023
                   ["docomo"; "partner"] "uuid-1" (Instant.mk 1700000500 0) _ _));
    [ discriminate | reflexivity ].
Defined.

Section Items.

Variable participants : list string.
Variable uuid : nat -> string.
Variable createdAt : nat -> Instant.t.
Variable toString : Instant.t -> string.

Local Abbreviation subFlow := (createFromSolana participants uuid createdAt).

Lemma createFromSolana_counts (solanaData : list SolanaNetworkData.t) (i : nat) :
  successes (itemsFrom subFlow toString i solanaData) = Z.of_nat (length solanaData)
  /\ failures (itemsFrom subFlow toString i solanaData) = 0.
Proof.
  revert i. induction solanaData as [ | data rest IH]; intros i; [ now split | ].
  cbn [itemsFrom].
  destruct (MigrationFacts.successes_cons (itemFor subFlow toString i data)
              (itemsFrom subFlow toString (S i) rest)) as [-> ->].
  destruct (IH (S i)) as [-> ->]. cbn [length]. rewrite Nat2Z.inj_succ.
  unfold itemFor, createFromSolana. cbn [success]. split; lia.
Qed.

(** X19: with the sub-flow of the source, [MigrateNetworkDataFromSolana]
    cannot report a failure.  [CreateNetworkDataFromSolana] builds a state
    and returns it, without a transaction and without the contract; so for
    every batch of N records (N an [Int]), whatever their metrics, the result
    has successCount N and failureCount 0, and the item of each record says
    success and carries the identifier drawn for it. *)
Theorem migration_reports_all_success (solanaData : list SolanaNetworkData.t)
    (now : Instant.t) :
  Z.of_nat (length solanaData) < 2 ^ 31 ->
  let items := itemsFrom subFlow toString 0 solanaData in
  MigrateNetworkDataFromSolana subFlow toString solanaData now
  = inr (mkMigrationResult (Z.of_nat (length solanaData)) (Z.of_nat (length solanaData)) 0
           items now)
  /\ length items = length solanaData
  /\ (forall (i : nat) (data : SolanaNetworkData.t),
        nth_error solanaData i = Some data ->
        nth_error items i
        = Some (mkItem (toString (SolanaNetworkData.timestamp data)) (Some (uuid i)) true
                  "Network data migrated successfully")).
Proof.
  intros Hsize items. subst items. split; [ | split ].
  - unfold MigrateNetworkDataFromSolana.
    rewrite MigrationFacts.migrateFrom_items by lia. cbn [bind].
    destruct (createFromSolana_counts solanaData 0) as [-> ->]. reflexivity.
  - apply MigrationFacts.itemsFrom_length.
  - intros i data Hi.
    now rewrite (MigrationFacts.itemsFrom_nth subFlow toString solanaData 0 i data Hi).
Qed.

End Items.

(** A record with a positive signal strength, a negative latency, an
    availability of 7 and negative counts is reported as migrated. *)
Lemma migration_reports_all_success_witness :
  MigrateNetworkDataFromSolana
    (createFromSolana ["docomo"; "partner"] uuidOf (fun _ => Instant.mk 1700000100 0))
    showInstant [broken] (Instant.mk 1700000200 0)
  = inr (mkMigrationResult 1 1 0
           [mkItem "2023-11-14T22:13:20Z" (Some "uuid-0") true
              "Network data migrated successfully"]
           (Instant.mk 1700000200 0))
  /\ NetworkMetrics.isValid
       (NetworkDataState.metrics
          (CreateNetworkDataFromSolana broken ["docomo"; "partner"] "uuid-0"
             (Instant.mk 1700000100 0)))
     = false.
Proof.
  split; [ | reflexivity ].
  refine (proj1 (migration_reports_all_success ["docomo"; "partner"] uuidOf
                   (fun _ => Instant.mk 1700000100 0) showInstant [broken]
                   (Instant.mk 1700000200 0) _)).
  cbn. lia.
Defined.

Lemma average_meets_nan (xs : list float) (x : float) :
  In x xs -> x = nan -> average xs = nan.
Proof.
  intros Hin Hnan. unfold average.
  destruct xs as [ | y xs]; [ reflexivity | ]. cbn [length Nat.eqb].
  replace (fold_left PrimFloat.add (y :: xs) 0%float) with nan
    by (symmetry; exact (fold_sum_meets_nan (fun x => x) (y :: xs) x 0%float Hin Hnan)).
  apply div_nan_l.
Qed.

(** X20: [generateRecommendations] of [AggregateNetworkDataForB2B] gives
    exactly one recommendation.  It is "Network performance is optimal" only
    for at least 10 states.  An average quality of NaN (no state at all, or
    a state whose quality score is NaN) is not below 0.6, so the investment
    advice is not given then; for no state the advice is to expand the
    coverage. *)
Theorem generateRecommendations_single (data : list NetworkDataState.t) :
  length (generateRecommendations data) = 1%nat
  /\ (generateRecommendations data = ["Network performance is optimal"] ->
      (10 <= length data)%nat)
  /\ ((exists it : NetworkDataState.t,
         In it data /\ NetworkMetrics.qualityScore (NetworkDataState.metrics it) = nan) ->
      generateRecommendations data
      <> ["Consider infrastructure investment in low-quality areas"])
  /\ generateRecommendations [] = ["Expand network coverage in underserved areas"].
Proof.
  split; [ | split; [ | split; [ | reflexivity ] ] ].
  - unfold generateRecommendations.
    destruct (_ <? _)%float; [ reflexivity | ].
    destruct (_ <? _)%float; [ reflexivity | ].
    now destruct (_ <? _)%nat.
  - unfold generateRecommendations.
    destruct (_ <? _)%float; [ discriminate | ].
    destruct (_ <? _)%float; [ discriminate | ].
    destruct (Nat.ltb_spec (length data) 10); [ discriminate | intros _; lia ].
  - intros (it & Hin & Hnan). unfold generateRecommendations.
    rewrite (average_meets_nan _ (NetworkMetrics.qualityScore (NetworkDataState.metrics it))).
    + rewrite ltb_nan_l.
      destruct (_ <? _)%float; [ discriminate | ].
      destruct (_ <? _)%nat; discriminate.
    + apply in_map_iff. now exists it.
    + exact Hnan.
Qed.

Lemma generateRecommendations_single_witness :
  generateRecommendations [tokyoState "a" 40 nan]
  <> ["Consider infrastructure investment in low-quality areas"].
Proof.
  apply (generateRecommendations_single [tokyoState "a" 40 nan]).
  exists (tokyoState "a" 40 nan). split; [ now left | reflexivity ].
Defined.

Lemma filter_all {A : Type} (l : list A) : List.filter (fun _ => true) l = l.
Proof. induction l as [ | x l IH]; [ reflexivity | ]. cbn. now rewrite IH. Qed.

(** X21: the criteria of [QueryNetworkDataForB2B] are not combined: only the
    first one given is applied.  With a region, the time range and the
    minimal quality are ignored, so every state of the region is returned,
    whatever its quality and time; with no region and a time range, the
    minimal quality is ignored; with no criterion every state is
    returned. *)
Theorem QueryNetworkDataForB2B_first_criterion (networkDataStates : list NetworkDataState.t)
    (region : string) (range : TimeRange.t) (timeRange : option TimeRange.t)
    (minQuality : option float) :
  QueryNetworkDataForB2B networkDataStates
    (B2BQueryCriteria.mk (Some region) timeRange minQuality)
  = QueryNetworkDataForB2B networkDataStates (B2BQueryCriteria.mk (Some region) None None)
  /\ (forall data : NetworkDataState.t,
        In data networkDataStates ->
        NetworkRegion.city (NetworkDataState.region data) = region
        \/ NetworkRegion.country (NetworkDataState.region data) = region ->
        In data
          (QueryNetworkDataForB2B networkDataStates
             (B2BQueryCriteria.mk (Some region) timeRange minQuality)))
  /\ QueryNetworkDataForB2B networkDataStates
       (B2BQueryCriteria.mk None (Some range) minQuality)
     = QueryNetworkDataForB2B networkDataStates
         (B2BQueryCriteria.mk None (Some range) None)
  /\ QueryNetworkDataForB2B networkDataStates (B2BQueryCriteria.mk None None None)
     = networkDataStates.
Proof.
  split; [ reflexivity | split; [ | split; [ reflexivity | apply filter_all ] ] ].
  intros data Hin Hregion. unfold QueryNetworkDataForB2B. apply filter_In.
  split; [ exact Hin | ]. cbn [B2BQueryCriteria.region].
  apply orb_true_iff. rewrite !String.eqb_eq. exact Hregion.
Qed.

(** A Tokyo state of quality 0.2 is returned for a minimal quality of 0.9. *)
Lemma QueryNetworkDataForB2B_first_criterion_witness :
  In (tokyoState "a" 40 0.2)
    (QueryNetworkDataForB2B [tokyoState "a" 40 0.2]
       (B2BQueryCriteria.mk (Some "Tokyo") None (Some 0.9%float))).
Proof.
  apply (QueryNetworkDataForB2B_first_criterion [tokyoState "a" 40 0.2] "Tokyo" year2023
           None (Some 0.9%float)).
  - now left.
  - now left.
Defined.

Section Integrity.

Variable isNotBlank : string -> bool.

Local Abbreviation ValidateNetworkDataIntegrity :=
  (ValidateNetworkDataIntegrity isNotBlank).

(** X23: [ValidateNetworkDataIntegrity] never passes a state whose source is
    not "solana_depin", whatever its values; that is the case of every state
    that [AggregateAndAnonymizeNetworkData] returns, their source being
    "solana_depin_aggregated".  When the clock reading allows going back 24
    hours, the result lists four checks, among the failed ones
    "Data Anonymization", and says "Data integrity validation failed"; for an
    id that is not in the vault no check is run and the message names the
    id. *)
Theorem aggregated_state_fails_integrity (vault : list NetworkDataState.t)
    (networkDataId : string) (now : Instant.t) :
  (forall data : NetworkDataState.t,
     findNetworkData vault networkDataId = Some data ->
     NetworkDataState.source data <> "solana_depin" ->
     let result := ValidateNetworkDataIntegrity vault networkDataId now in
     DataIntegrityResult.success result = false
     /\ (Instant.MIN_SECOND + 86400 <= Instant.epochSecond now <= Instant.MAX_SECOND ->
         length (DataIntegrityResult.integrityChecks result) = 4%nat
         /\ In (IntegrityCheck.mk "Data Anonymization" false
                  "Data anonymization may be insufficient")
              (DataIntegrityResult.failedChecks result)
         /\ DataIntegrityResult.message result = "Data integrity validation failed"))
  /\ (forall (networkDataStates : list NetworkDataState.t) (region : string)
         (timeRange : TimeRange.t) (participants : list string) (uuid : string)
         (aggregatedAt : Instant.t) (data : NetworkDataState.t),
        AggregatedNetworkDataResult.aggregatedData
          (AggregateAndAnonymizeNetworkData networkDataStates region timeRange participants
             uuid aggregatedAt)
        = Some data ->
        NetworkDataState.source data = "solana_depin_aggregated"
        /\ NetworkDataState.source data <> "solana_depin")
  /\ (findNetworkData vault networkDataId = None ->
      ValidateNetworkDataIntegrity vault networkDataId now
      = DataIntegrityResult.mk false networkDataId [] []
          ("Failed to validate data integrity: Network data with ID " ++ networkDataId
           ++ " not found")).
Proof.
  split; [ | split ].
  - intros data Hfound Hsource result. subst result.
    unfold Corda.ValidateNetworkDataIntegrity. rewrite Hfound. cbn [bind].
    assert (Hfailed : checkDataAnonymization data
                      = IntegrityCheck.mk "Data Anonymization" false
                          "Data anonymization may be insufficient").
    { unfold checkDataAnonymization. apply String.eqb_neq in Hsource.
      now rewrite Hsource. }
    rewrite Hfailed. unfold checkDataFreshness.
    split.
    + destruct (Instant.plusSeconds now (-86400)) as [e | dayBefore]; cbn [bind];
        [ reflexivity | ].
      cbn [DataIntegrityResult.success forallb IntegrityCheck.passed].
      now rewrite !andb_false_r.
    + intros [Hmin Hmax]. unfold Instant.MIN_SECOND, Instant.MAX_SECOND in Hmin, Hmax.
      unfold Instant.plusSeconds, Instant.MIN_SECOND, Instant.MAX_SECOND.
      change (-86400 =? 0) with false. cbn match.
      replace ((Instant.epochSecond now + -86400 <? - 2 ^ 63)
               || (2 ^ 63 <=? Instant.epochSecond now + -86400)) with false
        by (symmetry; apply orb_false_iff; rewrite Z.ltb_ge, Z.leb_gt; lia).
      replace ((Instant.epochSecond now + -86400 <? -31557014167219200)
               || (31556889864403199 <? Instant.epochSecond now + -86400)) with false
        by (symmetry; apply orb_false_iff; rewrite !Z.ltb_ge; lia).
      cbn [bind DataIntegrityResult.integrityChecks DataIntegrityResult.failedChecks
           DataIntegrityResult.message length forallb IntegrityCheck.passed].
      rewrite !andb_false_r. cbn [andb].
      split; [ reflexivity | split; [ | reflexivity ] ].
      cbn [List.filter IntegrityCheck.passed negb].
      destruct (negb _); [ right | ]; destruct (negb _); [ right | | right | ]; now left.
  - intros networkDataStates region timeRange participants uuid aggregatedAt data.
    unfold AggregateAndAnonymizeNetworkData.
    destruct (List.filter _ _) as [ | first rest]; [ discriminate | ].
    cbn. intros [= <-]. cbn. split; [ reflexivity | discriminate ].
  - intros Hnone. unfold Corda.ValidateNetworkDataIntegrity. now rewrite Hnone.
Qed.

End Integrity.

(** The aggregate of two Tokyo states, stored and validated an hour later. *)
Lemma aggregated_state_fails_integrity_witness :
  let aggregated :=
    NetworkDataState.mk "uuid-1" (NetworkRegion.mk 35.68 139.76 1200 "Japan" "Tokyo")
      (aggregateMetrics
         (map NetworkDataState.metrics [tokyoState "a" 40 0.9; tokyoState "b" 40 0.8]))
      (Instant.mk 1700000500 0) "solana_depin_aggregated" "1.0" ["docomo"; "partner"] in
  AggregatedNetworkDataResult.aggregatedData
    (AggregateAndAnonymizeNetworkData [tokyoState "a" 40 0.9; tokyoState "b" 40 0.8]
       "Tokyo" year2023 ["docomo"; "partner"] "uuid-1" (Instant.mk 1700000500 0))
  = Some aggregated
  /\ DataIntegrityResult.success
       (ValidateNetworkDataIntegrity notEmpty [aggregated] "uuid-1"
          (Instant.mk 1700004100 0))
     = false.
Proof.
  intros aggregated. split; [ reflexivity | ].
  destruct (aggregated_state_fails_integrity notEmpty [aggregated] "uuid-1"
              (Instant.mk 1700004100 0)) as (Hfails & _ & _).
  refine (proj1 (Hfails aggregated eq_refl _)). discriminate.
Defined.

End NetworkDataFacts.
